(** * OCI Dev/Test Resource Cost Chef: tag classifier, scanners, aggregation
      and reporting, embedded from [OCI-DevTest-CostChef.py].

    Python values are modelled as follows.  A [str] is a [string]; a [dict]
    is an association list in insertion order (what [.items()] enumerates);
    an attribute that may be [None] is an [option]; a Python [int] is a [Z].
    A method of [OCIDevTestCostChef] that talks to the cloud runs in the
    monad [M]: it has local variables, it emits events (API calls, log
    records, files) and it may raise. *)

From Stdlib Require Import List String Ascii Bool Arith ZArith Lia.
From Stdlib Require Import DecimalString.
Import ListNotations.
Open Scope list_scope.
Open Scope string_scope.

(** ** Python strings *)

Module PyStr.

(** [str.lower] on the ASCII letters; a string is its UTF-8 bytes and the
    bytes above 127 are left alone.  Python also lower-cases the letters
    outside ASCII, but only two of them give an ASCII letter: U+212A gives
    k, and U+0130 gives i followed by U+0307.  No word of the tables this
    program compares against ([dev_test_tags], [automation_tag_keys]) holds
    a k, and none can match across the U+0307, so both give the same
    matches. *)
Definition lower_ascii (c : ascii) : ascii :=
  let n := nat_of_ascii c in
  if ((65 <=? n)%nat && (n <=? 90)%nat)%bool then ascii_of_nat (n + 32) else c.

Fixpoint lower (s : string) : string :=
  match s with
  | EmptyString => EmptyString
  | String c s' => String (lower_ascii c) (lower s')
  end.

(** [x in xs] for a list of strings. *)
Definition py_in (x : string) (xs : list string) : bool :=
  existsb (String.eqb x) xs.

(** [sub in s] for two strings. *)
Fixpoint contains (sub s : string) : bool :=
  String.prefix sub s ||
  match s with
  | EmptyString => false
  | String _ s' => contains sub s'
  end.

(** [sep.join(xs)] *)
Definition join (sep : string) (xs : list string) : string :=
  String.concat sep xs.

(** [str(n)] for a non-negative integer. *)
Definition of_nat (n : nat) : string :=
  NilEmpty.string_of_uint (Nat.to_uint n).

(** [str(z)] for an integer. *)
Definition of_Z (z : Z) : string :=
  match z with
  | Z0 => "0"
  | Zpos p => of_nat (Pos.to_nat p)
  | Zneg p => "-" ++ of_nat (Pos.to_nat p)
  end.

(** Does the character occur in the string? *)
Fixpoint has_char (c : ascii) (s : string) : bool :=
  match s with
  | EmptyString => false
  | String d s' => Ascii.eqb c d || has_char c s'
  end.

End PyStr.
Import PyStr.

(** ** Tags *)

(** A Python [dict], enumerated in insertion order. *)
Definition dict (K V : Type) : Type := list (K * V).

(** Truth value of an attribute holding a dict or [None]. *)
Definition dict_truthy {K V : Type} (d : option (dict K V)) : bool :=
  match d with
  | Some (_ :: _) => true
  | _ => false
  end.

(** [d.items()] of an attribute already known to be truthy. *)
Definition items {K V : Type} (d : option (dict K V)) : list (K * V) :=
  match d with
  | Some l => l
  | None => []
  end.

(** The two tag mappings every OCI resource model carries; tag values are
    strings. *)
Record TagSet : Type := mkTagSet {
  freeform_tags : option (dict string string);
  defined_tags : option (dict string (dict string string))
}.

Definition no_tags : TagSet := mkTagSet None None.

(** [self.dev_test_tags] and [self.automation_tag_keys] *)
Definition dev_test_tags : list string :=
  ["dev"; "test"; "development"; "testing"; "staging"; "qa"].

Definition automation_tag_keys : list string :=
  ["auto-shutdown"; "auto-start"; "schedule"; "stop-start"; "automation"].

(** [self.production_db_shapes] and [self.oversized_compute_shapes] *)
Definition production_db_shapes : list string :=
  ["VM.Standard2.2"; "VM.Standard2.4"; "VM.Standard2.8"; "VM.Standard2.16"; "VM.Standard2.24";
   "VM.Standard3.2"; "VM.Standard3.4"; "VM.Standard3.8"; "VM.Standard3.16"; "VM.Standard3.24";
   "BM.Standard2.52"; "BM.Standard3.64"; "BM.HighIO1.36";
   "VM.Standard.E3.2"; "VM.Standard.E3.4"; "VM.Standard.E3.8"].

Definition oversized_compute_shapes : list string :=
  ["VM.Standard2.2"; "VM.Standard2.4"; "VM.Standard2.8"; "VM.Standard2.16"; "VM.Standard2.24";
   "VM.Standard3.2"; "VM.Standard3.4"; "VM.Standard3.8"; "VM.Standard3.16"; "VM.Standard3.24";
   "VM.DenseIO2.8"; "VM.DenseIO2.16"; "VM.DenseIO2.24";
   "VM.GPU3.1"; "VM.GPU3.2"; "VM.GPU3.4";
   "BM.Standard2.52"; "BM.Standard3.64"].

(** [is_dev_test_resource(resource_tags)].  The argument is [None] when the
    caller passes a falsy object.  A loop whose body is [if c: return True]
    is [existsb]. *)
Definition is_dev_test_resource (resource_tags : option TagSet) : bool :=
  match resource_tags with
  | None => false
  | Some t =>
      (dict_truthy (freeform_tags t) &&
       existsb (fun kv => py_in (lower (snd kv)) dev_test_tags)
               (items (freeform_tags t)))
      ||
      (dict_truthy (defined_tags t) &&
       existsb (fun ns =>
                  existsb (fun kv => py_in (lower (snd kv)) dev_test_tags)
                          (snd ns))
               (items (defined_tags t)))
  end.

(** [has_automation_tags(resource_tags)] *)
Definition has_automation_tags (resource_tags : option TagSet) : bool :=
  match resource_tags with
  | None => false
  | Some t =>
      (dict_truthy (freeform_tags t) &&
       existsb (fun kv =>
                  existsb (fun auto_key => contains (lower auto_key) (lower (fst kv)))
                          automation_tag_keys)
               (items (freeform_tags t)))
      ||
      (dict_truthy (defined_tags t) &&
       existsb (fun ns =>
                  existsb (fun kv =>
                             existsb (fun auto_key =>
                                        contains (lower auto_key) (lower (fst kv)))
                                     automation_tag_keys)
                          (snd ns))
               (items (defined_tags t)))
  end.

(** [format_tags(resource_tags)]: [tag_strings] grows by [append] in two
    loops, the second one nested. *)
Definition format_tags (resource_tags : option TagSet) : string :=
  let tag_strings : list string := [] in
  let tag_strings :=
    match resource_tags with
    | Some t =>
        if dict_truthy (freeform_tags t) then
          fold_left (fun acc kv => app acc [fst kv ++ "=" ++ snd kv])
                    (items (freeform_tags t)) tag_strings
        else tag_strings
    | None => tag_strings
    end in
  let tag_strings :=
    match resource_tags with
    | Some t =>
        if dict_truthy (defined_tags t) then
          fold_left (fun acc ns =>
                       fold_left (fun acc' kv =>
                                    app acc' [fst ns ++ "." ++ fst kv ++ "=" ++ snd kv])
                                 (snd ns) acc)
                    (items (defined_tags t)) tag_strings
        else tag_strings
    | None => tag_strings
    end in
  match tag_strings with
  | [] => "N/A"
  | _ => join "; " tag_strings
  end.

(** ** Values, time stamps and findings *)

(** The values a finding holds: strings, integers and [None]. *)
Inductive PyVal : Type :=
| PStr (s : string)
| PInt (z : Z)
| PNone.

(** [str(v)], as an f-string renders a value. *)
Definition py_str (v : PyVal) : string :=
  match v with
  | PStr s => s
  | PInt z => of_Z z
  | PNone => "None"
  end.

(** [getattr(obj, name, default)]: [None] stands for a missing attribute. *)
Definition getattr (attr : option PyVal) (default : PyVal) : PyVal :=
  match attr with
  | Some v => v
  | None => default
  end.

(** A [datetime].  Years are taken in 1000..9999, where [%Y] prints four
    digits on every platform. *)
Record datetime : Type := mkDatetime {
  year : nat; month : nat; day : nat;
  hour : nat; minute : nat; second : nat
}.

Definition pad2 (n : nat) : string :=
  if (n <? 10)%nat then "0" ++ of_nat n else of_nat n.

(** [d.strftime("%Y-%m-%d %H:%M:%S")] *)
Definition strftime_display (d : datetime) : string :=
  of_nat (year d) ++ "-" ++ pad2 (month d) ++ "-" ++ pad2 (day d) ++ " " ++
  pad2 (hour d) ++ ":" ++ pad2 (minute d) ++ ":" ++ pad2 (second d).

(** [d.strftime("%Y%m%d_%H%M%S")] *)
Definition strftime_stamp (d : datetime) : string :=
  of_nat (year d) ++ pad2 (month d) ++ pad2 (day d) ++ "_" ++
  pad2 (hour d) ++ pad2 (minute d) ++ pad2 (second d).

(** A finding is the dict literal a scanner appends: field names in the
    order they are written. *)
Definition Finding : Type := dict string PyVal.

(** [d.get(key, "")] *)
Fixpoint dict_get (key : string) (d : Finding) : PyVal :=
  match d with
  | [] => PStr ""
  | (k, v) :: d' => if String.eqb key k then v else dict_get key d'
  end.

(** ** Resource snapshots, as the listing calls return them *)

Module DbSystem.
Record t : Type := mk {
  id : string; display_name : string; shape : string;
  lifecycle_state : string; availability_domain : string;
  cpu_core_count : option PyVal; database_edition : option PyVal;
  tags : TagSet
}.
End DbSystem.

Module AutonomousDatabase.
Record t : Type := mk {
  id : string; display_name : string; cpu_core_count : PyVal;
  lifecycle_state : string; db_workload : option PyVal;
  tags : TagSet
}.
End AutonomousDatabase.

Module Instance.
Record t : Type := mk {
  id : string; display_name : string; shape : string;
  lifecycle_state : string; availability_domain : string;
  time_created : datetime; tags : TagSet
}.
End Instance.

Module Volume.
Record t : Type := mk {
  id : string; display_name : string; size_in_gbs : Z;
  vpus_per_gb : option PyVal; availability_domain : string;
  lifecycle_state : string; time_created : datetime; tags : TagSet
}.
End Volume.

Module VolumeAttachment.
Record t : Type := mk { id : string; instance_id : string }.
End VolumeAttachment.

Module PublicIp.
Record t : Type := mk {
  id : string; display_name : string; ip_address : string;
  scope : string; lifetime : string; lifecycle_state : string;
  assigned_entity_id : option string;
  time_created : datetime; tags : TagSet
}.
End PublicIp.

Module BackendSet.
Record t : Type := mk { backends : list string }.
End BackendSet.

Module IpAddress.
Record t : Type := mk { ip_address : string; is_public : bool }.
End IpAddress.

Module LoadBalancer.
Record t : Type := mk {
  id : string; display_name : string; shape_name : string;
  lifecycle_state : string; ip_addresses : list IpAddress.t;
  backend_sets : option (dict string BackendSet.t);
  time_created : datetime; tags : TagSet
}.
End LoadBalancer.

Module Vcn.
Record t : Type := mk {
  id : string; display_name : string; lifecycle_state : string
}.
End Vcn.

Module PortRange.
Record t : Type := mk { min : Z; max : Z }.
End PortRange.

Module TcpOptions.
Record t : Type := mk {
  destination_port_range : option PortRange.t;
  source_port_range : option PortRange.t
}.
End TcpOptions.

Module IngressSecurityRule.
Record t : Type := mk {
  source : string; protocol : string;
  tcp_options : option TcpOptions.t
}.
End IngressSecurityRule.

Module SecurityList.
Record t : Type := mk {
  id : string; display_name : string; lifecycle_state : string;
  ingress_security_rules : list IngressSecurityRule.t;
  tags : TagSet
}.
End SecurityList.

Module Compartment.
Record t : Type := mk {
  id : string; name : string; lifecycle_state : string
}.
End Compartment.

(** ** Exceptions, events and the outside world *)

(** [SystemExit] is not an [Exception]: [except Exception] lets it pass. *)
Inductive Exn : Type :=
| Exception (msg : string)
| SystemExit (code : Z).

(** How a computation ends: it raises or it returns a value. *)
Definition Response (A : Type) : Type := (Exn + A)%type.

(** What a client call answers: the message of the error it raises, or its
    [.data]. *)
Definition Answer (A : Type) : Type := (string + A)%type.

Inductive ApiCall : Type :=
| GetCompartment (compartment_id : string)
| ListDbSystems (compartment_id : string)
| ListAutonomousDatabases (compartment_id : string)
| ListInstances (compartment_id : string)
| ListVolumes (compartment_id : string)
| ListVolumeAttachments (compartment_id volume_id : string)
| ListPublicIps (compartment_id : string)
| ListLoadBalancers (compartment_id : string)
| GetLoadBalancer (load_balancer_id : string)
| ListVcns (compartment_id : string)
| ListSecurityLists (compartment_id vcn_id : string).

(** The resource inventory: what each client call answers. *)
Record Cloud : Type := mkCloud {
  get_compartment : string -> Answer Compartment.t;
  list_db_systems : string -> Answer (list DbSystem.t);
  list_autonomous_databases : string -> Answer (list AutonomousDatabase.t);
  list_instances : string -> Answer (list Instance.t);
  list_volumes : string -> Answer (list Volume.t);
  list_volume_attachments : string -> string -> Answer (list VolumeAttachment.t);
  list_public_ips : string -> Answer (list PublicIp.t);
  list_load_balancers : string -> Answer (list LoadBalancer.t);
  get_load_balancer : string -> Answer LoadBalancer.t;
  list_vcns : string -> Answer (list Vcn.t);
  list_security_lists : string -> string -> Answer (list SecurityList.t)
}.

(** The machine the script runs on.  [now n] is what [datetime.now()]
    answers at its [n]-th reading; [open_w] and [webbrowser_open] give the
    message of the error raised by opening a file for writing or a URL in
    the browser, if any; [abspath] is [os.path.abspath]. *)
Record Host : Type := mkHost {
  now : nat -> datetime;
  open_w : string -> option string;
  abspath : string -> string;
  webbrowser_open : string -> option string
}.

(** The state of an [OCIDevTestCostChef] object after [__init__]. *)
Record Chef : Type := mkChef {
  cloud : Cloud;
  host : Host;
  tenancy : string
}.

Inductive Level : Type := INFO | WARNING | ERROR.

(** A section of the consolidated document: its heading and either the
    table rows or the fixed message of an empty category. *)
Inductive SectionBody : Type :=
| Table (rows : list (list string))
| Message (text : string).

(** The interpolated parts of the consolidated document; the fixed markup
    around them is left out. *)
Record HtmlReport : Type := mkHtmlReport {
  report_timestamp : string;
  total_counts : dict string nat;
  total_issues : nat;
  sections : list (string * SectionBody)
}.

Inductive FileContent : Type :=
| Csv (fieldnames : list string) (rows : list (list PyVal))
| Html (doc : HtmlReport).

Inductive Event : Type :=
| Called (c : ApiCall)
| Logged (lvl : Level) (msg : string)
| Wrote (filename : string) (content : FileContent)
| Browsed (url : string)
| Printed (msg : string).

(** ** The monad of a method body

    A computation starts from the values of its local variables and ends
    with a returned value or a raised exception, the final values of the
    locals, and the events it emitted, oldest first.  The locals survive an
    exception, as Python's do. *)

Definition M (L A : Type) : Type := L -> Response A * L * list Event.

Definition outcome {L A : Type} (o : Response A * L * list Event) : Response A :=
  fst (fst o).
Definition locals {L A : Type} (o : Response A * L * list Event) : L :=
  snd (fst o).
Definition events {L A : Type} (o : Response A * L * list Event) : list Event :=
  snd o.

Definition ret {L A : Type} (a : A) : M L A :=
  fun l => (inr a, l, []).

Definition bind {L A B : Type} (m : M L A) (k : A -> M L B) : M L B :=
  fun l =>
    match m l with
    | (inl e, l1, ev1) => (inl e, l1, ev1)
    | (inr a, l1, ev1) =>
        match k a l1 with
        | (r, l2, ev2) => (r, l2, app ev1 ev2)
        end
    end.

Declare Scope monad_scope.
Delimit Scope monad_scope with monad.
Notation "x <- c1 ;; c2" := (bind c1 (fun x => c2))
  (at level 61, c1 at next level, right associativity) : monad_scope.
Notation "c1 ;; c2" := (bind c1 (fun _ => c2))
  (at level 61, right associativity) : monad_scope.
Open Scope monad_scope.

Definition raise {L A : Type} (e : Exn) : M L A :=
  fun l => (inl e, l, []).

Definition emit {L : Type} (ev : Event) : M L unit :=
  fun l => (inr tt, l, [ev]).

Definition get_locals {L : Type} : M L L :=
  fun l => (inr l, l, []).

Definition modify {L : Type} (f : L -> L) : M L unit :=
  fun l => (inr tt, f l, []).

(** [try: body  except Exception as e: handler(str(e))] *)
Definition try_except {L A : Type} (body : M L A) (handler : string -> M L A) : M L A :=
  fun l =>
    match body l with
    | (inl (Exception msg), l1, ev1) =>
        match handler msg l1 with
        | (r, l2, ev2) => (r, l2, app ev1 ev2)
        end
    | o => o
    end.

(** A method call: the callee runs on its own locals, which are dropped
    when it returns or raises. *)
Definition frame {L L' A : Type} (init : L') (m : M L' A) : M L A :=
  fun l =>
    match m init with
    | (r, _, ev) => (r, l, ev)
    end.

(** A client call: it is recorded, then it answers or raises. *)
Definition api {L A : Type} (c : ApiCall) (answer : Answer A) : M L A :=
  fun l =>
    (match answer with
     | inl msg => inl (Exception msg)
     | inr data => inr data
     end, l, [Called c]).

(** [for x in xs: body(x)] *)
Fixpoint for_each {L X : Type} (xs : list X) (body : X -> M L unit) : M L unit :=
  match xs with
  | [] => ret tt
  | x :: xs' => body x ;; for_each xs' body
  end.

Definition logger_info {L : Type} (msg : string) : M L unit := emit (Logged INFO msg).
Definition logger_warning {L : Type} (msg : string) : M L unit := emit (Logged WARNING msg).
Definition logger_error {L : Type} (msg : string) : M L unit := emit (Logged ERROR msg).

(** [results.append(row)] *)
Definition append {X : Type} (row : X) : M (list X) unit :=
  modify (fun results => app results [row]).

(** [v >= n] for an integer literal [n]: a [TypeError] unless [v] is an
    integer. *)
Definition py_ge_int {L : Type} (v : PyVal) (n : Z) : M L bool :=
  match v with
  | PInt z => ret (n <=? z)%Z
  | PStr _ => raise (Exception "'>=' not supported between instances of 'str' and 'int'")
  | PNone => raise (Exception "'>=' not supported between instances of 'NoneType' and 'int'")
  end.

(** ** The scanners *)

Definition db_system_row (compartment_id : string) (db_system : DbSystem.t) : Finding :=
  [ ("resource_type", PStr "DB System");
    ("name", PStr (DbSystem.display_name db_system));
    ("shape", PStr (DbSystem.shape db_system));
    ("lifecycle_state", PStr (DbSystem.lifecycle_state db_system));
    ("availability_domain", PStr (DbSystem.availability_domain db_system));
    ("cpu_core_count", getattr (DbSystem.cpu_core_count db_system) (PStr "N/A"));
    ("database_edition", getattr (DbSystem.database_edition db_system) (PStr "N/A"));
    ("compartment_id", PStr compartment_id);
    ("tags", PStr (format_tags (Some (DbSystem.tags db_system))));
    ("resource_id", PStr (DbSystem.id db_system)) ].

Definition autonomous_db_row (compartment_id : string) (adb : AutonomousDatabase.t) : Finding :=
  [ ("resource_type", PStr "Autonomous Database");
    ("name", PStr (AutonomousDatabase.display_name adb));
    ("shape", PStr (py_str (AutonomousDatabase.cpu_core_count adb) ++ " OCPUs"));
    ("lifecycle_state", PStr (AutonomousDatabase.lifecycle_state adb));
    ("availability_domain", PStr "N/A");
    ("cpu_core_count", AutonomousDatabase.cpu_core_count adb);
    ("database_edition", getattr (AutonomousDatabase.db_workload adb) (PStr "N/A"));
    ("compartment_id", PStr compartment_id);
    ("tags", PStr (format_tags (Some (AutonomousDatabase.tags adb))));
    ("resource_id", PStr (AutonomousDatabase.id adb)) ].

(** [check_database_instances(compartment_id)]; the local is [results]. *)
Definition check_database_instances {L : Type} (self : Chef) (compartment_id : string)
  : M L (list Finding) :=
  frame ([] : list Finding)
    (try_except
       (logger_info ("Checking database instances in compartment: " ++ compartment_id) ;;
        db_systems <- api (ListDbSystems compartment_id)
                          (list_db_systems (cloud self) compartment_id) ;;
        for_each db_systems (fun db_system =>
          if is_dev_test_resource (Some (DbSystem.tags db_system)) &&
             py_in (DbSystem.shape db_system) production_db_shapes &&
             String.eqb (DbSystem.lifecycle_state db_system) "AVAILABLE"
          then append (db_system_row compartment_id db_system)
          else ret tt) ;;
        autonomous_dbs <- api (ListAutonomousDatabases compartment_id)
                              (list_autonomous_databases (cloud self) compartment_id) ;;
        for_each autonomous_dbs (fun adb =>
          if is_dev_test_resource (Some (AutonomousDatabase.tags adb)) then
            production_grade <- py_ge_int (AutonomousDatabase.cpu_core_count adb) 4 ;;
            if production_grade &&
               String.eqb (AutonomousDatabase.lifecycle_state adb) "AVAILABLE"
            then append (autonomous_db_row compartment_id adb)
            else ret tt
          else ret tt))
       (fun e => logger_warning ("Error checking database instances: " ++ e)) ;;
     get_locals).

Definition instance_row (compartment_id : string) (instance : Instance.t) : Finding :=
  [ ("instance_name", PStr (Instance.display_name instance));
    ("shape", PStr (Instance.shape instance));
    ("lifecycle_state", PStr (Instance.lifecycle_state instance));
    ("availability_domain", PStr (Instance.availability_domain instance));
    ("time_created", PStr (strftime_display (Instance.time_created instance)));
    ("compartment_id", PStr compartment_id);
    ("tags", PStr (format_tags (Some (Instance.tags instance))));
    ("resource_id", PStr (Instance.id instance)) ].

(** [check_compute_instances(compartment_id)]; the locals are
    [missing_automation] and [oversized_instances]. *)
Definition check_compute_instances {L : Type} (self : Chef) (compartment_id : string)
  : M L (list Finding * list Finding) :=
  frame (([] : list Finding), ([] : list Finding))
    (try_except
       (logger_info ("Checking compute instances in compartment: " ++ compartment_id) ;;
        instances <- api (ListInstances compartment_id)
                         (list_instances (cloud self) compartment_id) ;;
        for_each instances (fun instance =>
          if is_dev_test_resource (Some (Instance.tags instance)) &&
             py_in (Instance.lifecycle_state instance) ["RUNNING"; "STOPPED"]
          then
            (if negb (has_automation_tags (Some (Instance.tags instance)))
             then modify (fun l => (app (fst l) [instance_row compartment_id instance], snd l))
             else ret tt) ;;
            (if py_in (Instance.shape instance) oversized_compute_shapes
             then modify (fun l => (fst l, app (snd l) [instance_row compartment_id instance]))
             else ret tt)
          else ret tt))
       (fun e => logger_warning ("Error checking compute instances: " ++ e)) ;;
     get_locals).

Definition volume_row (compartment_id : string) (volume : Volume.t) : Finding :=
  [ ("volume_name", PStr (Volume.display_name volume));
    ("size_gb", PInt (Volume.size_in_gbs volume));
    ("volume_type", getattr (Volume.vpus_per_gb volume) (PStr "Standard"));
    ("availability_domain", PStr (Volume.availability_domain volume));
    ("lifecycle_state", PStr (Volume.lifecycle_state volume));
    ("time_created", PStr (strftime_display (Volume.time_created volume)));
    ("compartment_id", PStr compartment_id);
    ("tags", PStr (format_tags (Some (Volume.tags volume))));
    ("resource_id", PStr (Volume.id volume)) ].

(** Truth value of a list. *)
Definition list_truthy {X : Type} (xs : list X) : bool :=
  match xs with
  | [] => false
  | _ :: _ => true
  end.

(** [check_unattached_volumes(compartment_id)] *)
Definition check_unattached_volumes {L : Type} (self : Chef) (compartment_id : string)
  : M L (list Finding) :=
  frame ([] : list Finding)
    (try_except
       (logger_info ("Checking block volumes in compartment: " ++ compartment_id) ;;
        volumes <- api (ListVolumes compartment_id)
                       (list_volumes (cloud self) compartment_id) ;;
        for_each volumes (fun volume =>
          if is_dev_test_resource (Some (Volume.tags volume)) &&
             String.eqb (Volume.lifecycle_state volume) "AVAILABLE"
          then
            attachments <- api (ListVolumeAttachments compartment_id (Volume.id volume))
                               (list_volume_attachments (cloud self) compartment_id
                                                        (Volume.id volume)) ;;
            if negb (list_truthy attachments)
            then append (volume_row compartment_id volume)
            else ret tt
          else ret tt))
       (fun e => logger_warning ("Error checking block volumes: " ++ e)) ;;
     get_locals).

Definition public_ip_row (compartment_id : string) (public_ip : PublicIp.t) : Finding :=
  [ ("public_ip_name", PStr (PublicIp.display_name public_ip));
    ("ip_address", PStr (PublicIp.ip_address public_ip));
    ("scope", PStr (PublicIp.scope public_ip));
    ("lifetime", PStr (PublicIp.lifetime public_ip));
    ("lifecycle_state", PStr (PublicIp.lifecycle_state public_ip));
    ("time_created", PStr (strftime_display (PublicIp.time_created public_ip)));
    ("compartment_id", PStr compartment_id);
    ("tags", PStr (format_tags (Some (PublicIp.tags public_ip))));
    ("resource_id", PStr (PublicIp.id public_ip)) ].

(** Truth value of a string attribute that may be [None]. *)
Definition str_truthy (s : option string) : bool :=
  match s with
  | None => false
  | Some EmptyString => false
  | Some _ => true
  end.

(** [check_unused_public_ips(compartment_id)] *)
Definition check_unused_public_ips {L : Type} (self : Chef) (compartment_id : string)
  : M L (list Finding) :=
  frame ([] : list Finding)
    (try_except
       (logger_info ("Checking public IPs in compartment: " ++ compartment_id) ;;
        public_ips <- api (ListPublicIps compartment_id)
                          (list_public_ips (cloud self) compartment_id) ;;
        for_each public_ips (fun public_ip =>
          if is_dev_test_resource (Some (PublicIp.tags public_ip)) &&
             String.eqb (PublicIp.lifecycle_state public_ip) "AVAILABLE" &&
             negb (str_truthy (PublicIp.assigned_entity_id public_ip))
          then append (public_ip_row compartment_id public_ip)
          else ret tt))
       (fun e => logger_warning ("Error checking public IPs: " ++ e)) ;;
     get_locals).

Definition load_balancer_row (compartment_id : string) (lb : LoadBalancer.t) : Finding :=
  [ ("load_balancer_name", PStr (LoadBalancer.display_name lb));
    ("shape", PStr (LoadBalancer.shape_name lb));
    ("lifecycle_state", PStr (LoadBalancer.lifecycle_state lb));
    ("ip_addresses", PStr (join "; " (map IpAddress.ip_address (LoadBalancer.ip_addresses lb))));
    ("time_created", PStr (strftime_display (LoadBalancer.time_created lb)));
    ("compartment_id", PStr compartment_id);
    ("tags", PStr (format_tags (Some (LoadBalancer.tags lb))));
    ("resource_id", PStr (LoadBalancer.id lb)) ].

(** The loop over [lb_details.backend_sets.items()] that sets
    [has_backends] and breaks at the first backend set with backends. *)
Definition has_backends (lb_details : LoadBalancer.t) : bool :=
  dict_truthy (LoadBalancer.backend_sets lb_details) &&
  existsb (fun kv => list_truthy (BackendSet.backends (snd kv)))
          (items (LoadBalancer.backend_sets lb_details)).

(** [check_empty_load_balancers(compartment_id)] *)
Definition check_empty_load_balancers {L : Type} (self : Chef) (compartment_id : string)
  : M L (list Finding) :=
  frame ([] : list Finding)
    (try_except
       (logger_info ("Checking load balancers in compartment: " ++ compartment_id) ;;
        load_balancers <- api (ListLoadBalancers compartment_id)
                              (list_load_balancers (cloud self) compartment_id) ;;
        for_each load_balancers (fun lb =>
          if is_dev_test_resource (Some (LoadBalancer.tags lb)) &&
             String.eqb (LoadBalancer.lifecycle_state lb) "ACTIVE"
          then
            lb_details <- api (GetLoadBalancer (LoadBalancer.id lb))
                              (get_load_balancer (cloud self) (LoadBalancer.id lb)) ;;
            if negb (has_backends lb_details)
            then append (load_balancer_row compartment_id lb)
            else ret tt
          else ret tt))
       (fun e => logger_warning ("Error checking load balancers: " ++ e)) ;;
     get_locals).

(** The test of lines 430-434 on one ingress rule. *)
Definition rule_is_permissive (rule : IngressSecurityRule.t) : bool :=
  String.eqb (IngressSecurityRule.source rule) "0.0.0.0/0" &&
  match IngressSecurityRule.tcp_options rule with
  | None => true
  | Some tcp_options =>
      match TcpOptions.destination_port_range tcp_options with
      | None => false
      | Some destination_port_range =>
          (PortRange.min destination_port_range =? 22)%Z ||
          (PortRange.min destination_port_range =? 3389)%Z
      end
  end.

(** The f-string of line 435. *)
Definition rule_description (rule : IngressSecurityRule.t) : string :=
  "TCP:" ++
  match IngressSecurityRule.tcp_options rule with
  | Some tcp_options =>
      match TcpOptions.destination_port_range tcp_options with
      | Some destination_port_range => of_Z (PortRange.min destination_port_range)
      | None => "ALL"
      end
  | None => "ALL"
  end.

(** The loop of lines 426-435: [permissive_rules] of one security list. *)
Definition permissive_rules_of (sec_list : SecurityList.t) : list string :=
  fold_left (fun permissive_rules rule =>
               if rule_is_permissive rule
               then app permissive_rules [rule_description rule]
               else permissive_rules)
            (SecurityList.ingress_security_rules sec_list) [].

Definition security_list_row (compartment_id : string) (vcn : Vcn.t)
    (sec_list : SecurityList.t) (permissive_rules : list string) : Finding :=
  [ ("security_list_name", PStr (SecurityList.display_name sec_list));
    ("vcn_name", PStr (Vcn.display_name vcn));
    ("lifecycle_state", PStr (SecurityList.lifecycle_state sec_list));
    ("permissive_rules_count", PInt (Z.of_nat (List.length permissive_rules)));
    ("permissive_rules", PStr (join "; " permissive_rules));
    ("compartment_id", PStr compartment_id);
    ("tags", PStr (format_tags (Some (SecurityList.tags sec_list))));
    ("resource_id", PStr (SecurityList.id sec_list)) ].

(** [check_permissive_security_lists(compartment_id)] *)
Definition check_permissive_security_lists {L : Type} (self : Chef) (compartment_id : string)
  : M L (list Finding) :=
  frame ([] : list Finding)
    (try_except
       (logger_info ("Checking security lists in compartment: " ++ compartment_id) ;;
        vcns <- api (ListVcns compartment_id) (list_vcns (cloud self) compartment_id) ;;
        for_each vcns (fun vcn =>
          if String.eqb (Vcn.lifecycle_state vcn) "AVAILABLE" then
            security_lists <- api (ListSecurityLists compartment_id (Vcn.id vcn))
                                  (list_security_lists (cloud self) compartment_id
                                                       (Vcn.id vcn)) ;;
            for_each security_lists (fun sec_list =>
              if is_dev_test_resource (Some (SecurityList.tags sec_list)) &&
                 String.eqb (SecurityList.lifecycle_state sec_list) "AVAILABLE"
              then
                let permissive_rules := permissive_rules_of sec_list in
                if list_truthy permissive_rules
                then append (security_list_row compartment_id vcn sec_list permissive_rules)
                else ret tt
              else ret tt)
          else ret tt))
       (fun e => logger_warning ("Error checking security lists: " ++ e)) ;;
     get_locals).

(** ** Aggregation *)

(** The dict with the seven fixed category keys. *)
Record Results : Type := mkResults {
  database_instances : list Finding;
  compute_missing_automation : list Finding;
  oversized_compute : list Finding;
  unattached_volumes : list Finding;
  unused_public_ips : list Finding;
  empty_load_balancers : list Finding;
  permissive_security_lists : list Finding
}.

Definition empty_results : Results := mkResults [] [] [] [] [] [] [].

(** [results.items()], in the order the keys were inserted. *)
Definition results_items (r : Results) : dict string (list Finding) :=
  [ ("database_instances", database_instances r);
    ("compute_missing_automation", compute_missing_automation r);
    ("oversized_compute", oversized_compute r);
    ("unattached_volumes", unattached_volumes r);
    ("unused_public_ips", unused_public_ips r);
    ("empty_load_balancers", empty_load_balancers r);
    ("permissive_security_lists", permissive_security_lists r) ].

(** [analyze_compartment(compartment_id)] *)
Definition analyze_compartment {L : Type} (self : Chef) (compartment_id : string)
  : M L Results :=
  db <- check_database_instances self compartment_id ;;
  compute <- check_compute_instances self compartment_id ;;
  let missing_auto := fst compute in
  let oversized := snd compute in
  volumes <- check_unattached_volumes self compartment_id ;;
  ips <- check_unused_public_ips self compartment_id ;;
  lbs <- check_empty_load_balancers self compartment_id ;;
  sls <- check_permissive_security_lists self compartment_id ;;
  ret (mkResults db missing_auto oversized volumes ips lbs sls).

(** The merge loop of [main]: [all_results[category].extend(results)]. *)
Definition extend_results (all_results comp_results : Results) : Results :=
  mkResults
    (app (database_instances all_results) (database_instances comp_results))
    (app (compute_missing_automation all_results) (compute_missing_automation comp_results))
    (app (oversized_compute all_results) (oversized_compute comp_results))
    (app (unattached_volumes all_results) (unattached_volumes comp_results))
    (app (unused_public_ips all_results) (unused_public_ips comp_results))
    (app (empty_load_balancers all_results) (empty_load_balancers comp_results))
    (app (permissive_security_lists all_results) (permissive_security_lists comp_results)).

(** [get_compartments(compartment_ids)] *)
Definition get_compartments {L : Type} (self : Chef) (compartment_ids : option (list string))
  : M L (list Compartment.t) :=
  match compartment_ids with
  | Some ((_ :: _) as ids) =>
      frame ([] : list Compartment.t)
        (for_each ids (fun comp_id =>
           try_except
             (comp <- api (GetCompartment comp_id) (get_compartment (cloud self) comp_id) ;;
              append (Compartment.mk (Compartment.id comp) (Compartment.name comp)
                                     (Compartment.lifecycle_state comp)))
             (fun e => logger_warning ("Could not access compartment " ++ comp_id ++ ": " ++ e))) ;;
         get_locals)
  | _ =>
      let tenancy_id := tenancy self in
      try_except
        (tenancy <- api (GetCompartment tenancy_id) (get_compartment (cloud self) tenancy_id) ;;
         ret [Compartment.mk (Compartment.id tenancy) (Compartment.name tenancy)
                             (Compartment.lifecycle_state tenancy)])
        (fun e => logger_error ("Could not access root compartment: " ++ e) ;; ret [])
  end.

(** ** Report writer *)

(** [os.path.join(a, b)] for a relative [b]. *)
Definition os_path_join (a b : string) : string :=
  match a with
  | EmptyString => b
  | _ => if String.eqb (substring (String.length a - 1) 1 a) "/"
         then a ++ b
         else a ++ "/" ++ b
  end.

(** [with open(filename, 'w') as f: f.write(content)] *)
Definition write_file {L : Type} (self : Chef) (filename : string) (content : FileContent)
  : M L unit :=
  match open_w (host self) filename with
  | Some msg => raise (Exception msg)
  | None => emit (Wrote filename content)
  end.

Definition report_mappings : dict string string :=
  [ ("database_instances", "Database_Production_Shapes");
    ("compute_missing_automation", "Compute_Missing_Automation_Tags");
    ("oversized_compute", "Oversized_Compute_Instances");
    ("unattached_volumes", "Unattached_Block_Volumes");
    ("unused_public_ips", "Unused_Public_IPs");
    ("empty_load_balancers", "Empty_Load_Balancers");
    ("permissive_security_lists", "Permissive_Security_Lists") ].

(** [d[key]]: a [KeyError] when the key is missing. *)
Fixpoint subscript {L V : Type} (d : dict string V) (key : string) : M L V :=
  match d with
  | [] => raise (Exception ("'" ++ key ++ "'"))
  | (k, v) :: d' => if String.eqb key k then ret v else subscript d' key
  end.

(** What [csv.DictWriter] writes for [data]: the header from the keys of
    the first record, then one row per record.  All records of a category
    are built by the same dict literal, so no record has a field outside the
    header. *)
Definition csv_of (data : list Finding) : FileContent :=
  let fieldnames :=
    match data with
    | first :: _ => map fst first
    | [] => []
    end in
  Csv fieldnames (map (fun row => map (fun key => dict_get key row) fieldnames) data).

(** [export_to_csv(results, output_path)]; [tick] numbers the reading of
    the clock; the local is [csv_files]. *)
Definition export_to_csv {L : Type} (self : Chef) (tick : nat) (results : Results)
    (output_path : string) : M L (list string) :=
  frame ([] : list string)
    (let timestamp := strftime_stamp (now (host self) tick) in
     for_each (results_items results) (fun item =>
       let category := fst item in
       let data := snd item in
       if list_truthy data then
         label <- subscript report_mappings category ;;
         let filename := os_path_join output_path (label ++ "_" ++ timestamp ++ ".csv") in
         write_file self filename (csv_of data) ;;
         append filename ;;
         logger_info ("CSV report saved to: " ++ filename)
       else ret tt) ;;
     get_locals).

(** One section of the document: the table of the listed fields of every
    finding, or the message of the [else] branch. *)
Definition html_section (heading : string) (fields : list string) (empty_message : string)
    (data : list Finding) : string * SectionBody :=
  (heading,
   if list_truthy data
   then Table (map (fun row => map (fun key => py_str (dict_get key row)) fields) data)
   else Message empty_message).

(** The interpolated parts of [html_content]: the counts and one section
    per category. *)
Definition html_document (report_timestamp : string) (all_results : Results) : HtmlReport :=
  let total_counts :=
    map (fun kv => (fst kv, List.length (snd kv))) (results_items all_results) in
  let total_issues := fold_left Nat.add (map snd total_counts) 0%nat in
  mkHtmlReport report_timestamp total_counts total_issues
      [ html_section "🗄️ Database Instances Using Production-Grade Shapes"
          ["resource_type"; "name"; "shape"; "lifecycle_state"; "availability_domain";
           "cpu_core_count"; "tags"]
          "✅ Excellent! All dev/test database instances are using appropriate shapes."
          (database_instances all_results);
        html_section "🖥️ Compute Instances Missing Automation Tags"
          ["instance_name"; "shape"; "lifecycle_state"; "availability_domain";
           "time_created"; "tags"]
          "✅ All dev/test compute instances have automation tags configured!"
          (compute_missing_automation all_results);
        html_section "🍖 Oversized Compute Instances for Dev/Test"
          ["instance_name"; "shape"; "lifecycle_state"; "availability_domain";
           "time_created"; "tags"]
          "✅ No oversized compute instances found in dev/test environments!"
          (oversized_compute all_results);
        html_section "💽 Unattached Block Volumes"
          ["volume_name"; "size_gb"; "volume_type"; "availability_domain";
           "time_created"; "tags"]
          "✅ No unattached block volumes found!"
          (unattached_volumes all_results);
        html_section "🌐 Unused Public IP Addresses"
          ["public_ip_name"; "ip_address"; "scope"; "lifetime"; "time_created"; "tags"]
          "✅ No unused public IP addresses found!"
          (unused_public_ips all_results);
        html_section "⚖️ Load Balancers with No Backends"
          ["load_balancer_name"; "shape"; "lifecycle_state"; "ip_addresses";
           "time_created"; "tags"]
          "✅ All load balancers have active backends!"
          (empty_load_balancers all_results);
        html_section "🔓 Permissive Security Lists"
          ["security_list_name"; "vcn_name"; "permissive_rules_count";
           "permissive_rules"; "tags"]
          "✅ No overly permissive security lists found!"
          (permissive_security_lists all_results) ].

(** [generate_html_report(all_results, output_path)]; it reads the clock
    twice, at [tick] and [tick + 1]. *)
Definition generate_html_report {L : Type} (self : Chef) (tick : nat) (all_results : Results)
    (output_path : string) : M L string :=
  let timestamp := strftime_stamp (now (host self) tick) in
  let filename :=
    os_path_join output_path ("OCI_DevTest_Resource_Report_" ++ timestamp ++ ".html") in
  let report_timestamp := strftime_display (now (host self) (tick + 1)) in
  write_file self filename (Html (html_document report_timestamp all_results)) ;;
  logger_info ("HTML report saved to: " ++ filename) ;;
  ret filename.

(** ** Driver *)

Record Args : Type := mkArgs {
  output_path : string;
  compartment_ids : option (list string)
}.

(** [repr(s)] for a string, character by character.  The quote and the
    backslash get a backslash; tab, newline and carriage return are named;
    the other control characters of ASCII are written as [\xNN].  The bytes
    above 127 are copied: [repr] keeps every printable character beyond
    ASCII as it is. *)
Definition single_quote : ascii := ascii_of_nat 39.
Definition double_quote : ascii := ascii_of_nat 34.
Definition backslash : ascii := ascii_of_nat 92.

Definition hex_digit (n : nat) : ascii :=
  if (n <? 10)%nat then ascii_of_nat (48 + n) else ascii_of_nat (87 + n).

Definition py_repr_char (quote c : ascii) : string :=
  let n := nat_of_ascii c in
  if (Ascii.eqb c quote || Ascii.eqb c backslash)%bool then String backslash (String c "")
  else if (n =? 9)%nat then String backslash "t"
  else if (n =? 10)%nat then String backslash "n"
  else if (n =? 13)%nat then String backslash "r"
  else if ((n <? 32)%nat || (n =? 127)%nat)%bool
       then String backslash
                   ("x" ++ String (hex_digit (n / 16)) (String (hex_digit (n mod 16)) ""))
  else String c "".

Fixpoint py_repr_chars (quote : ascii) (s : string) : string :=
  match s with
  | EmptyString => EmptyString
  | String c s' => py_repr_char quote c ++ py_repr_chars quote s'
  end.

(** [repr(s)]: between single quotes, or between double quotes when [s]
    holds a single quote and no double quote. *)
Definition py_repr (s : string) : string :=
  let quote :=
    if (has_char single_quote s && negb (has_char double_quote s))%bool
    then double_quote else single_quote in
  String quote (py_repr_chars quote s ++ String quote "").

(** [str(names)] for a list of strings, as the f-string of line 824
    formats it. *)
Definition py_repr_list (names : list string) : string :=
  "[" ++ join ", " (map py_repr names) ++ "]".

(** [sum(len(results) for results in all_results.values())] *)
Definition total_of (all_results : Results) : nat :=
  fold_left Nat.add (map (fun kv => List.length (snd kv)) (results_items all_results)) 0%nat.

Definition total_line (total_issues : nat) : string :=
  "Total cost optimization opportunities found: " ++ of_nat total_issues.

(** The seven count lines of the final summary (lines 872-878), one
    [logger.info] call each; [main] below logs them in a loop. *)
Definition summary_lines (all_results : Results) : list string :=
  [ "- Database instances with production shapes: " ++
      of_nat (List.length (database_instances all_results));
    "- Compute instances missing automation tags: " ++
      of_nat (List.length (compute_missing_automation all_results));
    "- Oversized compute instances: " ++
      of_nat (List.length (oversized_compute all_results));
    "- Unattached block volumes: " ++
      of_nat (List.length (unattached_volumes all_results));
    "- Unused public IP addresses: " ++
      of_nat (List.length (unused_public_ips all_results));
    "- Empty load balancers: " ++
      of_nat (List.length (empty_load_balancers all_results));
    "- Permissive security lists: " ++
      of_nat (List.length (permissive_security_lists all_results)) ].

(** The body of [main] after the chef is built; the local is
    [all_results]. *)
Definition main (self : Chef) (args : Args) : M Results unit :=
  try_except
    (compartments <- get_compartments self (compartment_ids args) ;;
     (if negb (list_truthy compartments)
      then logger_error "No accessible compartments found" ;; raise (SystemExit 1)
      else ret tt) ;;
     logger_info ("Will check compartments: " ++
                  py_repr_list (map Compartment.name compartments)) ;;
     modify (fun _ => empty_results) ;;
     for_each compartments (fun compartment =>
       if negb (String.eqb (Compartment.lifecycle_state compartment) "ACTIVE")
       then logger_warning ("Skipping inactive compartment: " ++ Compartment.name compartment)
       else
         logger_info ("Processing compartment: " ++ Compartment.name compartment) ;;
         comp_results <- analyze_compartment self (Compartment.id compartment) ;;
         modify (fun all_results => extend_results all_results comp_results)) ;;
     all_results <- get_locals ;;
     let total_issues := total_of all_results in
     (if (0 <? total_issues)%nat then
        csv_files <- export_to_csv self 0 all_results (output_path args) ;;
        html_file <- generate_html_report self 1 all_results (output_path args) ;;
        try_except
          (let url := "file://" ++ abspath (host self) html_file in
           match webbrowser_open (host self) url with
           | Some msg => raise (Exception msg)
           | None => emit (Browsed url)
           end ;;
           logger_info "Opening HTML report in default browser...")
          (fun _ => logger_warning
                      ("Could not auto-open HTML report. Please open manually: " ++ html_file))
      else logger_info "No cost optimization opportunities found in dev/test resources.") ;;
     logger_info "🍳 OCI Dev/Test Cost Analysis Complete!" ;;
     logger_info "Summary:" ;;
     for_each (summary_lines all_results) logger_info ;;
     if (0 <? total_issues)%nat then
       logger_info (total_line total_issues) ;;
       logger_info "Chef's Tip: Review the detailed reports and start cooking up some serious OCI savings!"
     else
       logger_info "🎉 Your OCI dev/test kitchen is perfectly optimized—no waste detected!")
    (fun e => emit (Printed ("❌ Error: " ++ e)) ;; raise (SystemExit 1)).

(** One run of the script: the exit status, the final [all_results] and
    the events. *)
Definition run (self : Chef) (args : Args) : Z * Results * list Event :=
  match main self args empty_results with
  | (inr _, all_results, ev) => (0%Z, all_results, ev)
  | (inl (SystemExit code), all_results, ev) => (code, all_results, ev)
  | (inl (Exception _), all_results, ev) => (1%Z, all_results, ev)
  end.

(** ** The command line

    [main] reads [--compartments] as one string and cuts it into ids
    (lines 809-812):
    [[c.strip() for c in args.compartments.split(',')]]. *)

(** [s.split(sep)] for a separator of one ASCII character: the pieces
    between the separators, one more than there are separators.  A byte of
    an ASCII character never occurs inside the UTF-8 bytes of another
    character. *)
Fixpoint str_split (sep : ascii) (s : string) : list string :=
  match s with
  | EmptyString => [EmptyString]
  | String c s' =>
      if Ascii.eqb c sep then EmptyString :: str_split sep s'
      else match str_split sep s' with
           | piece :: pieces => String c piece :: pieces
           | [] => [String c EmptyString]
           end
  end.

(** The white space [str.strip] removes.  In ASCII: the characters 9 to 13
    and 28 to 32. *)
Definition space1 (c : ascii) : bool :=
  let n := nat_of_ascii c in
  ((9 <=? n)%nat && (n <=? 13)%nat) || ((28 <=? n)%nat && (n <=? 32)%nat).

(** With two bytes: U+0085 and U+00A0. *)
Definition space2 (c d : ascii) : bool :=
  (nat_of_ascii c =? 194)%nat &&
  ((nat_of_ascii d =? 133)%nat || (nat_of_ascii d =? 160)%nat).

(** With three bytes: U+1680, U+2000 to U+200A, U+2028, U+2029, U+202F,
    U+205F and U+3000. *)
Definition space3 (c d e : ascii) : bool :=
  let c := nat_of_ascii c in
  let d := nat_of_ascii d in
  let e := nat_of_ascii e in
  ((c =? 225)%nat && (d =? 154)%nat && (e =? 128)%nat) ||
  ((c =? 226)%nat && (d =? 128)%nat &&
   (((128 <=? e)%nat && (e <=? 138)%nat) || (e =? 168)%nat || (e =? 169)%nat ||
    (e =? 175)%nat)) ||
  ((c =? 226)%nat && (d =? 129)%nat && (e =? 159)%nat) ||
  ((c =? 227)%nat && (d =? 128)%nat && (e =? 128)%nat).

(** The string without the white space it starts with.  On a reversed
    string ([backwards]) the bytes of a character come last byte first. *)
Fixpoint strip_front (backwards : bool) (s : string) : string :=
  match s with
  | EmptyString => s
  | String c s1 =>
      if space1 c then strip_front backwards s1
      else
        match s1 with
        | EmptyString => s
        | String d s2 =>
            if (if backwards then space2 d c else space2 c d)
            then strip_front backwards s2
            else
              match s2 with
              | EmptyString => s
              | String e s3 =>
                  if (if backwards then space3 e d c else space3 c d e)
                  then strip_front backwards s3
                  else s
              end
        end
  end.

Definition reversed (s : string) : string :=
  string_of_list_ascii (rev (list_ascii_of_string s)).

(** [s.lstrip()], [s.rstrip()] and [s.strip()] *)
Definition lstrip (s : string) : string := strip_front false s.
Definition rstrip (s : string) : string := reversed (strip_front true (reversed s)).
Definition strip (s : string) : string := rstrip (lstrip s).

(** Lines 809-812: [compartment_ids] from [args.compartments], which is
    [None] when the option is not given; an empty string is falsy. *)
Definition parse_compartments (compartments : option string) : option (list string) :=
  match compartments with
  | Some (String _ _ as s) => Some (map strip (str_split ","%char s))
  | _ => None
  end.

(** * Vocabulary of the specification *)

(** ** Tag classifier *)

(** Every tag value of a tag set: the free-form values, then the values of
    each namespace. *)
Definition tag_values (resource_tags : option TagSet) : list string :=
  match resource_tags with
  | None => []
  | Some t =>
      app (map snd (items (freeform_tags t)))
          (flat_map (fun ns => map snd (snd ns)) (items (defined_tags t)))
  end.

(** Two strings are equal up to the case of their letters. *)
Definition eq_nocase (a b : string) : Prop := lower a = lower b.

(** The number of tags of a tag set. *)
Definition tag_count (resource_tags : option TagSet) : nat :=
  match resource_tags with
  | None => 0
  | Some t =>
      List.length (items (freeform_tags t)) +
      fold_right (fun ns n => List.length (snd ns) + n) 0 (items (defined_tags t))
  end.

(** The rendering the specification gives: [key=value] for each free-form
    tag, then [namespace.key=value] for each namespaced tag. *)
Definition rendered_tags (resource_tags : option TagSet) : list string :=
  match resource_tags with
  | None => []
  | Some t =>
      app (map (fun kv => fst kv ++ "=" ++ snd kv) (items (freeform_tags t)))
          (flat_map (fun ns =>
                       map (fun kv => fst ns ++ "." ++ fst kv ++ "=" ++ snd kv) (snd ns))
                    (items (defined_tags t)))
  end.

(** ** A program logic for method bodies

    [triple P m Q E Ev]: started with locals satisfying [P], the
    computation [m] emits only events satisfying [Ev]; when it returns [a]
    its locals satisfy [Q a], when it raises [e] they satisfy [E e]. *)
Definition triple {L A : Type} (P : L -> Prop) (m : M L A)
    (Q : A -> L -> Prop) (E : Exn -> L -> Prop) (Ev : Event -> Prop) : Prop :=
  forall l, P l ->
    Forall Ev (events (m l)) /\
    match outcome (m l) with
    | inr a => Q a (locals (m l))
    | inl e => E e (locals (m l))
    end.

(** The shape five of the scanners share: log, list the resources, loop
    over them, and turn an exception into a warning; [init] is the value of
    the locals at entry and the locals at the end are returned. *)
Definition scanner_shell {L S X : Type} (init : S) (info warn : string)
    (c : ApiCall) (answer : Answer (list X)) (loop : list X -> M S unit) : M L S :=
  frame init
    (try_except
       (logger_info info ;;
        xs <- api c answer ;;
        loop xs)
       (fun e => logger_warning (warn ++ e)) ;;
     get_locals).

(** The exceptions that [except Exception] catches. *)
Definition is_exception (e : Exn) : Prop := exists msg, e = Exception msg.

(** What a method returns when run on its own; [default] stands for a
    raised exception. *)
Definition returned {A : Type} (m : M unit A) (default : A) : A :=
  match outcome (m tt) with
  | inr a => a
  | inl _ => default
  end.

(** ** Security lists *)

(** The decision the scanner takes on one security list. *)
Definition flags_security_list (sec_list : SecurityList.t) : bool :=
  is_dev_test_resource (Some (SecurityList.tags sec_list)) &&
  String.eqb (SecurityList.lifecycle_state sec_list) "AVAILABLE" &&
  list_truthy (permissive_rules_of sec_list).

(** The findings of the security lists of one network. *)
Definition security_list_findings (compartment_id : string) (vcn : Vcn.t)
    (security_lists : list SecurityList.t) : list Finding :=
  map (fun sec_list =>
         security_list_row compartment_id vcn sec_list (permissive_rules_of sec_list))
      (filter flags_security_list security_lists).

(** The body of the outer loop, over the networks. *)
Definition vcn_body (self : Chef) (compartment_id : string) (vcn : Vcn.t)
  : M (list Finding) unit :=
  if String.eqb (Vcn.lifecycle_state vcn) "AVAILABLE" then
    security_lists <- api (ListSecurityLists compartment_id (Vcn.id vcn))
                          (list_security_lists (cloud self) compartment_id
                                               (Vcn.id vcn)) ;;
    for_each security_lists (fun sec_list =>
      if is_dev_test_resource (Some (SecurityList.tags sec_list)) &&
         String.eqb (SecurityList.lifecycle_state sec_list) "AVAILABLE"
      then
        let permissive_rules := permissive_rules_of sec_list in
        if list_truthy permissive_rules
        then append (security_list_row compartment_id vcn sec_list permissive_rules)
        else ret tt
      else ret tt)
  else ret tt.

(** The findings of one network: none unless it is available and its
    security lists can be listed. *)
Definition vcn_findings (self : Chef) (compartment_id : string) (vcn : Vcn.t)
  : list Finding :=
  if String.eqb (Vcn.lifecycle_state vcn) "AVAILABLE" then
    match list_security_lists (cloud self) compartment_id (Vcn.id vcn) with
    | inr security_lists => security_list_findings compartment_id vcn security_lists
    | inl _ => []
    end
  else [].

(** The calls made for one network when its security lists can be
    listed. *)
Definition vcn_calls (compartment_id : string) (vcn : Vcn.t) : list Event :=
  if String.eqb (Vcn.lifecycle_state vcn) "AVAILABLE"
  then [Called (ListSecurityLists compartment_id (Vcn.id vcn))]
  else [].

(** Every available network of the list has its security lists listed
    without error. *)
Definition security_lists_listed (self : Chef) (compartment_id : string)
    (vcns : list Vcn.t) : Prop :=
  forall vcn, In vcn vcns -> Vcn.lifecycle_state vcn = "AVAILABLE" ->
    exists security_lists,
      list_security_lists (cloud self) compartment_id (Vcn.id vcn) = inr security_lists.

(** The rule test in the words of the specification: the TCP options
    impose no port restriction, or restrict the rule to one given port. *)
Definition no_port_restriction (rule : IngressSecurityRule.t) : Prop :=
  match IngressSecurityRule.tcp_options rule with
  | None => True
  | Some tcp_options =>
      TcpOptions.destination_port_range tcp_options = None /\
      TcpOptions.source_port_range tcp_options = None
  end.

Definition restricted_to_port (rule : IngressSecurityRule.t) (port : Z) : Prop :=
  exists tcp_options range,
    IngressSecurityRule.tcp_options rule = Some tcp_options /\
    TcpOptions.destination_port_range tcp_options = Some range /\
    PortRange.min range = port /\ PortRange.max range = port.

Definition stated_permissive_rule (rule : IngressSecurityRule.t) : Prop :=
  IngressSecurityRule.source rule = "0.0.0.0/0" /\
  (no_port_restriction rule \/ restricted_to_port rule 22 \/ restricted_to_port rule 3389).

Definition stated_flagged (sec_list : SecurityList.t) : Prop :=
  is_dev_test_resource (Some (SecurityList.tags sec_list)) = true /\
  SecurityList.lifecycle_state sec_list = "AVAILABLE" /\
  exists rule, In rule (SecurityList.ingress_security_rules sec_list) /\
               stated_permissive_rule rule.

(** The rule test the code makes: no TCP options at all, or a destination
    port range that starts at 22 or at 3389. *)
Definition tested_permissive_rule (rule : IngressSecurityRule.t) : Prop :=
  IngressSecurityRule.source rule = "0.0.0.0/0" /\
  (IngressSecurityRule.tcp_options rule = None \/
   exists tcp_options range,
     IngressSecurityRule.tcp_options rule = Some tcp_options /\
     TcpOptions.destination_port_range tcp_options = Some range /\
     (PortRange.min range = 22%Z \/ PortRange.min range = 3389%Z)).

(** A dev-tagged, available security list with one ingress rule open to
    the world on the ports 22 to 65535, in an available network. *)
Module OpenSsh.
Definition dev_tags : TagSet := mkTagSet (Some [("env", "dev")]) None.
Definition rule : IngressSecurityRule.t :=
  IngressSecurityRule.mk "0.0.0.0/0" "6"
    (Some (TcpOptions.mk (Some (PortRange.mk 22 65535)) None)).
Definition sec_list : SecurityList.t :=
  SecurityList.mk "ocid1.securitylist.1" "ssh-and-up" "AVAILABLE" [rule] dev_tags.
Definition vcn : Vcn.t := Vcn.mk "ocid1.vcn.1" "dev-net" "AVAILABLE".
Definition inventory : Cloud :=
  mkCloud (fun _ => inl "not found")
          (fun _ => inr []) (fun _ => inr []) (fun _ => inr []) (fun _ => inr [])
          (fun _ _ => inr []) (fun _ => inr []) (fun _ => inr [])
          (fun _ => inl "not found")
          (fun _ => inr [vcn]) (fun _ _ => inr [sec_list]).
Definition machine : Host :=
  mkHost (fun _ => mkDatetime 2025 6 10 12 0 0) (fun _ => None) (fun p => p)
         (fun _ => None).
Definition chef : Chef := mkChef inventory machine "ocid1.tenancy.1".
End OpenSsh.

(** A dev-tagged, available security list whose only ingress rule lets
    every UDP datagram in from anywhere, in an available network. *)
Module WideOpen.
Definition rule : IngressSecurityRule.t :=
  IngressSecurityRule.mk "0.0.0.0/0" "17" None.
Definition sec_list : SecurityList.t :=
  SecurityList.mk "ocid1.securitylist.2" "open-udp" "AVAILABLE" [rule]
                  OpenSsh.dev_tags.
Definition inventory : Cloud :=
  mkCloud (fun _ => inl "not found")
          (fun _ => inr []) (fun _ => inr []) (fun _ => inr []) (fun _ => inr [])
          (fun _ _ => inr []) (fun _ => inr []) (fun _ => inr [])
          (fun _ => inl "not found")
          (fun _ => inr [OpenSsh.vcn]) (fun _ _ => inr [sec_list]).
Definition chef : Chef := mkChef inventory OpenSsh.machine "ocid1.tenancy.1".
End WideOpen.

(** ** Compute instances *)

(** The guard of the compute loop: a dev/test tag and a status of RUNNING
    or STOPPED. *)
Definition eligible_instance (instance : Instance.t) : bool :=
  is_dev_test_resource (Some (Instance.tags instance)) &&
  py_in (Instance.lifecycle_state instance) ["RUNNING"; "STOPPED"].

Definition lacks_automation (instance : Instance.t) : bool :=
  negb (has_automation_tags (Some (Instance.tags instance))).

Definition is_oversized (instance : Instance.t) : bool :=
  py_in (Instance.shape instance) oversized_compute_shapes.

(** How many elements of a list pass a test. *)
Definition count {X : Type} (p : X -> bool) (xs : list X) : nat :=
  List.length (filter p xs).

(** How many times the instances of a compartment were listed. *)
Definition list_instances_calls (compartment_id : string) (ev : list Event) : nat :=
  count (fun e =>
           match e with
           | Called (ListInstances c) => String.eqb c compartment_id
           | _ => false
           end) ev.

(** One running instance on an oversized shape, without any tag. *)
Module Untagged.
Definition instance : Instance.t :=
  Instance.mk "ocid1.instance.1" "build-box" "VM.Standard2.2" "RUNNING" "AD-1"
              (mkDatetime 2025 5 2 8 30 0) no_tags.
Definition inventory : Cloud :=
  mkCloud (fun _ => inl "not found")
          (fun _ => inr []) (fun _ => inr []) (fun _ => inr [instance])
          (fun _ => inr []) (fun _ _ => inr []) (fun _ => inr []) (fun _ => inr [])
          (fun _ => inl "not found") (fun _ => inr []) (fun _ _ => inr []).
Definition chef : Chef := mkChef inventory OpenSsh.machine "ocid1.tenancy.1".
End Untagged.

(** Three dev-tagged instances: an oversized one without automation tags,
    a small stopped one without automation tags, and an oversized one with
    a schedule tag; and a terminated dev-tagged oversized one. *)
Module Fleet.
Definition dev : TagSet := mkTagSet (Some [("env", "dev")]) None.
Definition dev_scheduled : TagSet :=
  mkTagSet (Some [("env", "dev"); ("Auto-Shutdown-Schedule", "19:00")]) None.
Definition created : datetime := mkDatetime 2025 5 2 8 30 0.
Definition big : Instance.t :=
  Instance.mk "ocid1.instance.10" "big" "VM.Standard2.8" "RUNNING" "AD-1" created dev.
Definition small : Instance.t :=
  Instance.mk "ocid1.instance.11" "small" "VM.Standard.E2.1" "STOPPED" "AD-1" created dev.
Definition big_scheduled : Instance.t :=
  Instance.mk "ocid1.instance.12" "nightly" "VM.GPU3.1" "RUNNING" "AD-2" created
              dev_scheduled.
Definition gone : Instance.t :=
  Instance.mk "ocid1.instance.13" "gone" "VM.Standard2.8" "TERMINATED" "AD-2" created dev.
Definition inventory : Cloud :=
  mkCloud (fun _ => inl "not found")
          (fun _ => inr []) (fun _ => inr [])
          (fun _ => inr [big; small; big_scheduled; gone])
          (fun _ => inr []) (fun _ _ => inr []) (fun _ => inr []) (fun _ => inr [])
          (fun _ => inl "not found") (fun _ => inr []) (fun _ _ => inr []).
Definition chef : Chef := mkChef inventory OpenSsh.machine "ocid1.tenancy.1".
End Fleet.

(** ** Scanners with a secondary call per resource *)

(** The loop body the volume and load-balancer scanners share: a guarded
    secondary call whose answer decides whether the resource is appended. *)
Definition secondary_body {X D : Type} (guard : X -> bool) (c : X -> ApiCall)
    (answer : X -> Answer D) (keep : X -> D -> bool) (row : X -> Finding) (x : X)
  : M (list Finding) unit :=
  if guard x then
    d <- api (c x) (answer x) ;;
    if keep x d then append (row x) else ret tt
  else ret tt.

(** The findings of one resource whose secondary call answers. *)
Definition secondary_findings {X D : Type} (guard : X -> bool)
    (answer : X -> Answer D) (keep : X -> D -> bool) (row : X -> Finding) (x : X)
  : list Finding :=
  if guard x then
    match answer x with
    | inr d => if keep x d then [row x] else []
    | inl _ => []
    end
  else [].

Definition secondary_calls {X : Type} (guard : X -> bool) (c : X -> ApiCall) (x : X)
  : list Event :=
  if guard x then [Called (c x)] else [].

(** The secondary call of every guarded resource of the list answers. *)
Definition secondary_answered {X D : Type} (guard : X -> bool)
    (answer : X -> Answer D) (xs : list X) : Prop :=
  forall x, In x xs -> guard x = true -> exists d, answer x = inr d.

Definition eligible_volume (volume : Volume.t) : bool :=
  is_dev_test_resource (Some (Volume.tags volume)) &&
  String.eqb (Volume.lifecycle_state volume) "AVAILABLE".

Definition volume_attachments (self : Chef) (compartment_id : string) (volume : Volume.t)
  : Answer (list VolumeAttachment.t) :=
  list_volume_attachments (cloud self) compartment_id (Volume.id volume).

Definition unattached (volume : Volume.t) (attachments : list VolumeAttachment.t) : bool :=
  negb (list_truthy attachments).

Definition volume_findings (self : Chef) (compartment_id : string)
  : Volume.t -> list Finding :=
  secondary_findings eligible_volume (volume_attachments self compartment_id)
                     unattached (volume_row compartment_id).

Definition volume_calls (compartment_id : string) : Volume.t -> list Event :=
  secondary_calls eligible_volume
                  (fun volume => ListVolumeAttachments compartment_id (Volume.id volume)).

Definition eligible_load_balancer (lb : LoadBalancer.t) : bool :=
  is_dev_test_resource (Some (LoadBalancer.tags lb)) &&
  String.eqb (LoadBalancer.lifecycle_state lb) "ACTIVE".

Definition load_balancer_details (self : Chef) (lb : LoadBalancer.t)
  : Answer LoadBalancer.t :=
  get_load_balancer (cloud self) (LoadBalancer.id lb).

Definition without_backends (lb lb_details : LoadBalancer.t) : bool :=
  negb (has_backends lb_details).

Definition load_balancer_findings (self : Chef) (compartment_id : string)
  : LoadBalancer.t -> list Finding :=
  secondary_findings eligible_load_balancer (load_balancer_details self)
                     without_backends (load_balancer_row compartment_id).

Definition load_balancer_calls : LoadBalancer.t -> list Event :=
  secondary_calls eligible_load_balancer
                  (fun lb => GetLoadBalancer (LoadBalancer.id lb)).

(** Two dev-tagged, available, unattached volumes; the attachment lookup
    of the first one times out. *)
Module Flaky.
Definition created : datetime := mkDatetime 2025 4 1 10 0 0.
Definition first : Volume.t :=
  Volume.mk "ocid1.volume.1" "scratch-a" 50 None "AD-1" "AVAILABLE" created
            OpenSsh.dev_tags.
Definition second : Volume.t :=
  Volume.mk "ocid1.volume.2" "scratch-b" 100 None "AD-1" "AVAILABLE" created
            OpenSsh.dev_tags.
Definition inventory : Cloud :=
  mkCloud (fun _ => inl "not found")
          (fun _ => inr []) (fun _ => inr []) (fun _ => inr [])
          (fun _ => inr [first; second])
          (fun _ volume_id =>
             if String.eqb volume_id "ocid1.volume.1" then inl "timed out" else inr [])
          (fun _ => inr []) (fun _ => inr [])
          (fun _ => inl "not found") (fun _ => inr []) (fun _ _ => inr []).
Definition chef : Chef := mkChef inventory OpenSsh.machine "ocid1.tenancy.1".
(** The same volumes in the other order: the lookup of the second listed
    volume times out. *)
Definition inventory' : Cloud :=
  mkCloud (fun _ => inl "not found")
          (fun _ => inr []) (fun _ => inr []) (fun _ => inr [])
          (fun _ => inr [second; first])
          (fun _ volume_id =>
             if String.eqb volume_id "ocid1.volume.1" then inl "timed out" else inr [])
          (fun _ => inr []) (fun _ => inr [])
          (fun _ => inl "not found") (fun _ => inr []) (fun _ _ => inr []).
Definition chef' : Chef := mkChef inventory' OpenSsh.machine "ocid1.tenancy.1".
End Flaky.

(** ** The full predicate of each category *)

(** A scanner only calls clients and logs. *)
Definition scan_event (ev : Event) : Prop :=
  match ev with
  | Called _ | Logged _ _ => True
  | _ => False
  end.

(** A finding of the database category comes from a listed dev/test DB
    system on a production shape, or from a listed dev/test autonomous
    database with four cores or more; both AVAILABLE. *)
Definition justified_database (self : Chef) (compartment_id : string) (f : Finding) : Prop :=
  (exists db_systems db_system,
     list_db_systems (cloud self) compartment_id = inr db_systems /\
     In db_system db_systems /\
     is_dev_test_resource (Some (DbSystem.tags db_system)) = true /\
     In (DbSystem.shape db_system) production_db_shapes /\
     DbSystem.lifecycle_state db_system = "AVAILABLE" /\
     f = db_system_row compartment_id db_system)
  \/
  (exists autonomous_dbs adb cores,
     list_autonomous_databases (cloud self) compartment_id = inr autonomous_dbs /\
     In adb autonomous_dbs /\
     is_dev_test_resource (Some (AutonomousDatabase.tags adb)) = true /\
     AutonomousDatabase.cpu_core_count adb = PInt cores /\ (4 <= cores)%Z /\
     AutonomousDatabase.lifecycle_state adb = "AVAILABLE" /\
     f = autonomous_db_row compartment_id adb).

(** A listed dev/test instance that is RUNNING or STOPPED. *)
Definition listed_instance (self : Chef) (compartment_id : string) (instance : Instance.t)
  : Prop :=
  exists instances,
    list_instances (cloud self) compartment_id = inr instances /\
    In instance instances /\
    is_dev_test_resource (Some (Instance.tags instance)) = true /\
    (Instance.lifecycle_state instance = "RUNNING" \/
     Instance.lifecycle_state instance = "STOPPED").

Definition justified_missing_automation (self : Chef) (compartment_id : string)
    (f : Finding) : Prop :=
  exists instance,
    listed_instance self compartment_id instance /\
    has_automation_tags (Some (Instance.tags instance)) = false /\
    f = instance_row compartment_id instance.

Definition justified_oversized (self : Chef) (compartment_id : string) (f : Finding) : Prop :=
  exists instance,
    listed_instance self compartment_id instance /\
    In (Instance.shape instance) oversized_compute_shapes /\
    f = instance_row compartment_id instance.

Definition justified_volume (self : Chef) (compartment_id : string) (f : Finding) : Prop :=
  exists volumes volume,
    list_volumes (cloud self) compartment_id = inr volumes /\
    In volume volumes /\
    is_dev_test_resource (Some (Volume.tags volume)) = true /\
    Volume.lifecycle_state volume = "AVAILABLE" /\
    list_volume_attachments (cloud self) compartment_id (Volume.id volume) = inr [] /\
    f = volume_row compartment_id volume.

Definition justified_public_ip (self : Chef) (compartment_id : string) (f : Finding) : Prop :=
  exists public_ips public_ip,
    list_public_ips (cloud self) compartment_id = inr public_ips /\
    In public_ip public_ips /\
    is_dev_test_resource (Some (PublicIp.tags public_ip)) = true /\
    PublicIp.lifecycle_state public_ip = "AVAILABLE" /\
    (PublicIp.assigned_entity_id public_ip = None \/
     PublicIp.assigned_entity_id public_ip = Some "") /\
    f = public_ip_row compartment_id public_ip.

(** No backend set of the load balancer has a backend. *)
Definition no_backends (lb_details : LoadBalancer.t) : Prop :=
  forall name backend_set,
    In (name, backend_set) (items (LoadBalancer.backend_sets lb_details)) ->
    BackendSet.backends backend_set = [].

Definition justified_load_balancer (self : Chef) (compartment_id : string) (f : Finding)
  : Prop :=
  exists load_balancers lb lb_details,
    list_load_balancers (cloud self) compartment_id = inr load_balancers /\
    In lb load_balancers /\
    is_dev_test_resource (Some (LoadBalancer.tags lb)) = true /\
    LoadBalancer.lifecycle_state lb = "ACTIVE" /\
    get_load_balancer (cloud self) (LoadBalancer.id lb) = inr lb_details /\
    no_backends lb_details /\
    f = load_balancer_row compartment_id lb.

Definition justified_security_list (self : Chef) (compartment_id : string) (f : Finding)
  : Prop :=
  exists vcns vcn security_lists sec_list,
    list_vcns (cloud self) compartment_id = inr vcns /\
    In vcn vcns /\ Vcn.lifecycle_state vcn = "AVAILABLE" /\
    list_security_lists (cloud self) compartment_id (Vcn.id vcn) = inr security_lists /\
    In sec_list security_lists /\
    is_dev_test_resource (Some (SecurityList.tags sec_list)) = true /\
    SecurityList.lifecycle_state sec_list = "AVAILABLE" /\
    (exists rule, In rule (SecurityList.ingress_security_rules sec_list) /\
                  tested_permissive_rule rule) /\
    f = security_list_row compartment_id vcn sec_list (permissive_rules_of sec_list).

(** Every finding of every category is justified in some scope. *)
Definition all_justified (self : Chef) (r : Results) : Prop :=
  Forall (fun f => exists c, justified_database self c f) (database_instances r) /\
  Forall (fun f => exists c, justified_missing_automation self c f)
         (compute_missing_automation r) /\
  Forall (fun f => exists c, justified_oversized self c f) (oversized_compute r) /\
  Forall (fun f => exists c, justified_volume self c f) (unattached_volumes r) /\
  Forall (fun f => exists c, justified_public_ip self c f) (unused_public_ips r) /\
  Forall (fun f => exists c, justified_load_balancer self c f) (empty_load_balancers r) /\
  Forall (fun f => exists c, justified_security_list self c f)
         (permissive_security_lists r).

(** ** Scopes *)

(** What the seven scanners return for one scope, each run on its own. *)
Definition scope_results (self : Chef) (compartment_id : string) : Results :=
  let compute := returned (check_compute_instances self compartment_id) ([], []) in
  mkResults
    (returned (check_database_instances self compartment_id) [])
    (fst compute) (snd compute)
    (returned (check_unattached_volumes self compartment_id) [])
    (returned (check_unused_public_ips self compartment_id) [])
    (returned (check_empty_load_balancers self compartment_id) [])
    (returned (check_permissive_security_lists self compartment_id) []).

Definition active (compartment : Compartment.t) : bool :=
  String.eqb (Compartment.lifecycle_state compartment) "ACTIVE".

(** The results of the active scopes, merged in the order of the scopes. *)
Definition merged_results (self : Chef) (compartments : list Compartment.t) : Results :=
  fold_left (fun all_results compartment =>
               extend_results all_results
                              (scope_results self (Compartment.id compartment)))
            (filter active compartments) empty_results.

(** The scopes [get_compartments] resolves. *)
Definition resolved_compartments (self : Chef) (args : Args) : list Compartment.t :=
  returned (get_compartments self (compartment_ids args)) [].

(** ** The phases of [main] *)

(** The loop of [main] over the scopes. *)
Definition scope_loop (self : Chef) (compartments : list Compartment.t) : M Results unit :=
  for_each compartments (fun compartment =>
    if negb (String.eqb (Compartment.lifecycle_state compartment) "ACTIVE")
    then logger_warning ("Skipping inactive compartment: " ++ Compartment.name compartment)
    else
      logger_info ("Processing compartment: " ++ Compartment.name compartment) ;;
      comp_results <- analyze_compartment self (Compartment.id compartment) ;;
      modify (fun all_results => extend_results all_results comp_results)).

(** What [main] does once [all_results] is complete. *)
Definition report_phase (self : Chef) (args : Args) (all_results : Results)
  : M Results unit :=
  let total_issues := total_of all_results in
  (if (0 <? total_issues)%nat then
     csv_files <- export_to_csv self 0 all_results (output_path args) ;;
     html_file <- generate_html_report self 1 all_results (output_path args) ;;
     try_except
       (let url := "file://" ++ abspath (host self) html_file in
        match webbrowser_open (host self) url with
        | Some msg => raise (Exception msg)
        | None => emit (Browsed url)
        end ;;
        logger_info "Opening HTML report in default browser...")
       (fun _ => logger_warning
                   ("Could not auto-open HTML report. Please open manually: " ++ html_file))
   else logger_info "No cost optimization opportunities found in dev/test resources.") ;;
  logger_info "🍳 OCI Dev/Test Cost Analysis Complete!" ;;
  logger_info "Summary:" ;;
  for_each (summary_lines all_results) logger_info ;;
  if (0 <? total_issues)%nat then
    logger_info (total_line total_issues) ;;
    logger_info "Chef's Tip: Review the detailed reports and start cooking up some serious OCI savings!"
  else
    logger_info "🎉 Your OCI dev/test kitchen is perfectly optimized—no waste detected!".

(** The body of the [try] of [main]. *)
Definition main_body (self : Chef) (args : Args) : M Results unit :=
  compartments <- get_compartments self (compartment_ids args) ;;
  (if negb (list_truthy compartments)
   then logger_error "No accessible compartments found" ;; raise (SystemExit 1)
   else ret tt) ;;
  logger_info ("Will check compartments: " ++
               py_repr_list (map Compartment.name compartments)) ;;
  modify (fun _ => empty_results) ;;
  scope_loop self compartments ;;
  all_results <- get_locals ;;
  report_phase self args all_results.

(** ** What a completed run writes and logs *)

(** The categories under the names of their files, in the order of
    [results_items]. *)
Definition labelled_items (r : Results) : list (string * list Finding) :=
  [ ("Database_Production_Shapes", database_instances r);
    ("Compute_Missing_Automation_Tags", compute_missing_automation r);
    ("Oversized_Compute_Instances", oversized_compute r);
    ("Unattached_Block_Volumes", unattached_volumes r);
    ("Unused_Public_IPs", unused_public_ips r);
    ("Empty_Load_Balancers", empty_load_balancers r);
    ("Permissive_Security_Lists", permissive_security_lists r) ].

Definition csv_name (self : Chef) (args : Args) (label : string) : string :=
  os_path_join (output_path args)
               (label ++ "_" ++ strftime_stamp (now (host self) 0) ++ ".csv").

Definition html_name (self : Chef) (args : Args) : string :=
  os_path_join (output_path args)
               ("OCI_DevTest_Resource_Report_" ++ strftime_stamp (now (host self) 1) ++
                ".html").

(** The events of the export of one category: none when it is empty. *)
Definition csv_events (self : Chef) (args : Args) (item : string * list Finding)
  : list Event :=
  if list_truthy (snd item)
  then [ Wrote (csv_name self args (fst item)) (csv_of (snd item));
         Logged INFO ("CSV report saved to: " ++ csv_name self args (fst item)) ]
  else [].

Definition html_events (self : Chef) (args : Args) (r : Results) : list Event :=
  [ Wrote (html_name self args)
          (Html (html_document (strftime_display (now (host self) 2)) r));
    Logged INFO ("HTML report saved to: " ++ html_name self args) ].

Definition browser_events (self : Chef) (args : Args) : list Event :=
  let url := "file://" ++ abspath (host self) (html_name self args) in
  match webbrowser_open (host self) url with
  | None => [Browsed url; Logged INFO "Opening HTML report in default browser..."]
  | Some _ =>
      [Logged WARNING ("Could not auto-open HTML report. Please open manually: " ++
                       html_name self args)]
  end.

Definition report_events (self : Chef) (args : Args) (r : Results) : list Event :=
  if (0 <? total_of r)%nat
  then app (flat_map (csv_events self args) (labelled_items r))
           (app (html_events self args r) (browser_events self args))
  else [Logged INFO "No cost optimization opportunities found in dev/test resources."].

(** The final summary: the seven counts, then the total when it is
    positive and the no-waste line otherwise. *)
Definition summary_block (r : Results) : list string :=
  app ["🍳 OCI Dev/Test Cost Analysis Complete!"; "Summary:"]
      (app (summary_lines r)
           (if (0 <? total_of r)%nat
            then [ total_line (total_of r);
                   "Chef's Tip: Review the detailed reports and start cooking up some serious OCI savings!" ]
            else [ "🎉 Your OCI dev/test kitchen is perfectly optimized—no waste detected!" ])).

Definition summary_events (r : Results) : list Event :=
  map (Logged INFO) (summary_block r).

(** The files of a list of events, in the order they were written. *)
Definition written (ev : list Event) : list (string * FileContent) :=
  flat_map (fun e =>
              match e with
              | Wrote filename content => [(filename, content)]
              | _ => []
              end) ev.

(** [d.get(key)] *)
Fixpoint dict_lookup {V : Type} (d : dict string V) (key : string) : option V :=
  match d with
  | [] => None
  | (k, v) :: d' => if String.eqb key k then Some v else dict_lookup d' key
  end.

(** The events of the scan of one scope: those of the seven scanners, in
    the order [analyze_compartment] calls them. *)
Definition scope_events (self : Chef) (compartment_id : string) : list Event :=
  app (events (check_database_instances self compartment_id tt))
  (app (events (check_compute_instances self compartment_id tt))
  (app (events (check_unattached_volumes self compartment_id tt))
  (app (events (check_unused_public_ips self compartment_id tt))
  (app (events (check_empty_load_balancers self compartment_id tt))
       (events (check_permissive_security_lists self compartment_id tt)))))).

(** The events of the loop of [main] for one scope. *)
Definition compartment_events (self : Chef) (compartment : Compartment.t) : list Event :=
  if active compartment
  then Logged INFO ("Processing compartment: " ++ Compartment.name compartment)
       :: scope_events self (Compartment.id compartment)
  else [Logged WARNING ("Skipping inactive compartment: " ++ Compartment.name compartment)].

(** Every finding of the seven categories of one scope is justified in
    that scope. *)
Definition scope_justified (self : Chef) (compartment_id : string) (r : Results) : Prop :=
  Forall (justified_database self compartment_id) (database_instances r) /\
  Forall (justified_missing_automation self compartment_id) (compute_missing_automation r) /\
  Forall (justified_oversized self compartment_id) (oversized_compute r) /\
  Forall (justified_volume self compartment_id) (unattached_volumes r) /\
  Forall (justified_public_ip self compartment_id) (unused_public_ips r) /\
  Forall (justified_load_balancer self compartment_id) (empty_load_balancers r) /\
  Forall (justified_security_list self compartment_id) (permissive_security_lists r).

(** The events of a run before the reports: the resolution of the scopes,
    the list of their names, and the scan of each of them. *)
Definition scan_prefix (self : Chef) (args : Args) : list Event :=
  app (events (get_compartments self (compartment_ids args) tt))
      (Logged INFO ("Will check compartments: " ++
                    py_repr_list (map Compartment.name (resolved_compartments self args)))
       :: flat_map (compartment_events self) (resolved_compartments self args)).

(** The findings of a run: those of its active scopes. *)
Definition run_results (self : Chef) (args : Args) : Results :=
  merged_results self (resolved_compartments self args).

(** The end of a computation that started by emitting [ev]. *)
Definition prepend {L A : Type} (ev : list Event) (o : Response A * L * list Event)
  : Response A * L * list Event :=
  (outcome o, locals o, app ev (events o)).

(** The files a run may write: one per non-empty category, then the
    consolidated document. *)
Definition report_files (self : Chef) (args : Args) (r : Results)
  : list (string * FileContent) :=
  written (app (flat_map (csv_events self args) (labelled_items r))
               (html_events self args r)).

(** An event of a run whose findings are [r]: a file is one of
    [report_files]. *)
Definition report_event (self : Chef) (args : Args) (r : Results) (e : Event) : Prop :=
  match e with
  | Wrote filename content => In (filename, content) (report_files self args r)
  | _ => True
  end.

(** The events of the export of one item of [results.items()]. *)
Definition export_events (self : Chef) (args : Args) (item : string * list Finding)
  : list Event :=
  if list_truthy (snd item) then
    match dict_lookup report_mappings (fst item) with
    | Some label => csv_events self args (label, snd item)
    | None => []
    end
  else [].

(** The body of the loop of [export_to_csv]. *)
Definition export_body (self : Chef) (args : Args) (item : string * list Finding)
  : M (list string) unit :=
  let timestamp := strftime_stamp (now (host self) 0) in
  let category := fst item in
  let data := snd item in
  if list_truthy data then
    label <- subscript report_mappings category ;;
    let filename := os_path_join (output_path args) (label ++ "_" ++ timestamp ++ ".csv") in
    write_file self filename (csv_of data) ;;
    append filename ;;
    logger_info ("CSV report saved to: " ++ filename)
  else ret tt.

(** The log records of the summary, as [main] emits them. *)
Definition summary_phase (all_results : Results) : M Results unit :=
  logger_info "🍳 OCI Dev/Test Cost Analysis Complete!" ;;
  logger_info "Summary:" ;;
  for_each (summary_lines all_results) logger_info ;;
  if (0 <? total_of all_results)%nat then
    logger_info (total_line (total_of all_results)) ;;
    logger_info "Chef's Tip: Review the detailed reports and start cooking up some serious OCI savings!"
  else
    logger_info "🎉 Your OCI dev/test kitchen is perfectly optimized—no waste detected!".

(** The attempt of [main] to open the document in the browser. *)
Definition browser_phase (self : Chef) (html_file : string) : M Results unit :=
  try_except
    (let url := "file://" ++ abspath (host self) html_file in
     match webbrowser_open (host self) url with
     | Some msg => raise (Exception msg)
     | None => emit (Browsed url)
     end ;;
     logger_info "Opening HTML report in default browser...")
    (fun _ => logger_warning
                ("Could not auto-open HTML report. Please open manually: " ++ html_file)).

(** The first half of the report phase: the files, or the log record that
    there is nothing to report. *)
Definition files_phase (self : Chef) (args : Args) (all_results : Results)
  : M Results unit :=
  if (0 <? total_of all_results)%nat then
    csv_files <- export_to_csv self 0 all_results (output_path args) ;;
    html_file <- generate_html_report self 1 all_results (output_path args) ;;
    browser_phase self html_file
  else logger_info "No cost optimization opportunities found in dev/test resources.".

(** The three parts of a run. *)
Definition exit_status (self : Chef) (args : Args) : Z := fst (fst (run self args)).
Definition all_results_of (self : Chef) (args : Args) : Results := snd (fst (run self args)).
Definition events_of (self : Chef) (args : Args) : list Event := snd (run self args).

(** ** Failures *)

(** The test of the DB system loop. *)
Definition flags_db_system (db_system : DbSystem.t) : bool :=
  is_dev_test_resource (Some (DbSystem.tags db_system)) &&
  py_in (DbSystem.shape db_system) production_db_shapes &&
  String.eqb (DbSystem.lifecycle_state db_system) "AVAILABLE".

(** One dev-tagged DB system on a production shape; the listing of the
    autonomous databases fails. *)
Module HalfListed.
Definition db_system : DbSystem.t :=
  DbSystem.mk "ocid1.dbsystem.1" "orders-dev" "VM.Standard2.4" "AVAILABLE" "AD-1"
              (Some (PInt 4)) (Some (PStr "ENTERPRISE_EDITION")) OpenSsh.dev_tags.
Definition inventory : Cloud :=
  mkCloud (fun id => inr (Compartment.mk id "root" "ACTIVE"))
          (fun _ => inr [db_system]) (fun _ => inl "service unavailable")
          (fun _ => inr []) (fun _ => inr []) (fun _ _ => inr [])
          (fun _ => inr []) (fun _ => inr [])
          (fun _ => inl "not found") (fun _ => inr []) (fun _ _ => inr []).
Definition chef : Chef := mkChef inventory OpenSsh.machine "ocid1.tenancy.1".
End HalfListed.

(** The seven finding collections of a run. *)
Definition collections (r : Results) : list (list Finding) :=
  map snd (results_items r).

(** ** What a completed run leaves *)

Definition nonempty (item : string * list Finding) : bool := list_truthy (snd item).

Definition csv_file (self : Chef) (args : Args) (item : string * list Finding)
  : string * FileContent :=
  (csv_name self args (fst item), csv_of (snd item)).

Definition html_file (self : Chef) (args : Args) (r : Results) : string * FileContent :=
  (html_name self args, Html (html_document (strftime_display (now (host self) 2)) r)).

(** The files of a completed run: none without a finding; otherwise one
    delimited file per non-empty category, then the document. *)
Definition expected_files (self : Chef) (args : Args) (r : Results)
  : list (string * FileContent) :=
  if (0 <? total_of r)%nat
  then app (map (csv_file self args) (filter nonempty (labelled_items r)))
           [html_file self args r]
  else [].

(** Does a log record give the grand total? *)
Definition gives_total (e : Event) : bool :=
  match e with
  | Logged _ msg => String.prefix "Total cost optimization opportunities found" msg
  | _ => false
  end.

(** An account whose root compartment is active and holds nothing. *)
Module Quiet.
Definition inventory : Cloud :=
  mkCloud (fun id => inr (Compartment.mk id "root" "ACTIVE"))
          (fun _ => inr []) (fun _ => inr []) (fun _ => inr []) (fun _ => inr [])
          (fun _ _ => inr []) (fun _ => inr []) (fun _ => inr [])
          (fun _ => inl "not found") (fun _ => inr []) (fun _ _ => inr []).
Definition chef : Chef := mkChef inventory OpenSsh.machine "ocid1.tenancy.1".
Definition args : Args := mkArgs "." None.
End Quiet.

(** The account of [HalfListed], with every listing answering: one finding,
    in the database category. *)
Module OneFinding.
Definition inventory : Cloud :=
  mkCloud (fun id => inr (Compartment.mk id "root" "ACTIVE"))
          (fun _ => inr [HalfListed.db_system]) (fun _ => inr [])
          (fun _ => inr []) (fun _ => inr []) (fun _ _ => inr [])
          (fun _ => inr []) (fun _ => inr [])
          (fun _ => inl "not found") (fun _ => inr []) (fun _ _ => inr []).
Definition chef : Chef := mkChef inventory OpenSsh.machine "ocid1.tenancy.1".
Definition args : Args := mkArgs "reports" None.
End OneFinding.

(** ** Two runs *)

(** The finding contents of a file: everything but its name and the time
    stamp of the document. *)
Definition finding_contents (file : string * FileContent) : FileContent :=
  match snd file with
  | Csv fieldnames rows => Csv fieldnames rows
  | Html doc =>
      Html (mkHtmlReport "" (total_counts doc) (total_issues doc) (sections doc))
  end.

(** A second machine: another clock, no browser. *)
Module Elsewhere.
Definition machine : Host :=
  mkHost (fun n => mkDatetime 2026 1 (2 + n) 23 59 58) (fun _ => None)
         (fun p => "/srv/" ++ p) (fun _ => Some "no display").
End Elsewhere.

(** ** Warnings of a scan *)

(** The scanner [scan] ends by logging the warning [text], and the warning
    is among the events of the scan of the scope. *)
Definition warned {A : Type} (self : Chef) (compartment_id : string) (scan : M unit A)
    (text : string) : Prop :=
  (exists before, events (scan tt) = app before [Logged WARNING text]) /\
  In (Logged WARNING text) (scope_events self compartment_id).

(** ** Categories *)

(** The seven categories of findings, in the order of [results_items]. *)
Inductive Category : Type :=
| DatabaseInstances
| ComputeMissingAutomation
| OversizedCompute
| UnattachedVolumes
| UnusedPublicIps
| EmptyLoadBalancers
| PermissiveSecurityLists.

(** The findings of a category. *)
Definition findings_of (k : Category) (r : Results) : list Finding :=
  match k with
  | DatabaseInstances => database_instances r
  | ComputeMissingAutomation => compute_missing_automation r
  | OversizedCompute => oversized_compute r
  | UnattachedVolumes => unattached_volumes r
  | UnusedPublicIps => unused_public_ips r
  | EmptyLoadBalancers => empty_load_balancers r
  | PermissiveSecurityLists => permissive_security_lists r
  end.

(** The label that starts the name of the delimited file of a category. *)
Definition label_of (k : Category) : string :=
  match k with
  | DatabaseInstances => "Database_Production_Shapes"
  | ComputeMissingAutomation => "Compute_Missing_Automation_Tags"
  | OversizedCompute => "Oversized_Compute_Instances"
  | UnattachedVolumes => "Unattached_Block_Volumes"
  | UnusedPublicIps => "Unused_Public_IPs"
  | EmptyLoadBalancers => "Empty_Load_Balancers"
  | PermissiveSecurityLists => "Permissive_Security_Lists"
  end.

(** The heading of the section of a category in the document. *)
Definition heading_of (k : Category) : string :=
  match k with
  | DatabaseInstances => "🗄️ Database Instances Using Production-Grade Shapes"
  | ComputeMissingAutomation => "🖥️ Compute Instances Missing Automation Tags"
  | OversizedCompute => "🍖 Oversized Compute Instances for Dev/Test"
  | UnattachedVolumes => "💽 Unattached Block Volumes"
  | UnusedPublicIps => "🌐 Unused Public IP Addresses"
  | EmptyLoadBalancers => "⚖️ Load Balancers with No Backends"
  | PermissiveSecurityLists => "🔓 Permissive Security Lists"
  end.

(** The fields of a finding that the table of its category shows. *)
Definition shown_fields (k : Category) : list string :=
  match k with
  | DatabaseInstances =>
      ["resource_type"; "name"; "shape"; "lifecycle_state"; "availability_domain";
       "cpu_core_count"; "tags"]
  | ComputeMissingAutomation | OversizedCompute =>
      ["instance_name"; "shape"; "lifecycle_state"; "availability_domain";
       "time_created"; "tags"]
  | UnattachedVolumes =>
      ["volume_name"; "size_gb"; "volume_type"; "availability_domain";
       "time_created"; "tags"]
  | UnusedPublicIps =>
      ["public_ip_name"; "ip_address"; "scope"; "lifetime"; "time_created"; "tags"]
  | EmptyLoadBalancers =>
      ["load_balancer_name"; "shape"; "lifecycle_state"; "ip_addresses";
       "time_created"; "tags"]
  | PermissiveSecurityLists =>
      ["security_list_name"; "vcn_name"; "permissive_rules_count";
       "permissive_rules"; "tags"]
  end.

(** The full predicate of a category, as its scanner tests it: the finding
    [f] comes from a resource listed in the scope [compartment_id] that has
    a dev/test tag, an accepted status and meets the condition of the
    category. *)
Definition justified (k : Category) (self : Chef) (compartment_id : string) (f : Finding)
  : Prop :=
  match k with
  | DatabaseInstances => justified_database self compartment_id f
  | ComputeMissingAutomation => justified_missing_automation self compartment_id f
  | OversizedCompute => justified_oversized self compartment_id f
  | UnattachedVolumes => justified_volume self compartment_id f
  | UnusedPublicIps => justified_public_ip self compartment_id f
  | EmptyLoadBalancers => justified_load_balancer self compartment_id f
  | PermissiveSecurityLists => justified_security_list self compartment_id f
  end.

(** The row of a finding in the delimited file with the header
    [fieldnames], and in the table of the category [k]. *)
Definition csv_row (fieldnames : list string) (f : Finding) : list PyVal :=
  map (fun key => dict_get key f) fieldnames.

Definition table_row (k : Category) (f : Finding) : list string :=
  map (fun key => py_str (dict_get key f)) (shown_fields k).

(** The predicate of the security-list category in the words of the
    specification: the finding comes from a listed security list that is
    flagged as the specification states it. *)
Definition stated_justified_security_list (self : Chef) (compartment_id : string)
    (f : Finding) : Prop :=
  exists vcns vcn security_lists sec_list,
    list_vcns (cloud self) compartment_id = inr vcns /\
    In vcn vcns /\ Vcn.lifecycle_state vcn = "AVAILABLE" /\
    list_security_lists (cloud self) compartment_id (Vcn.id vcn) = inr security_lists /\
    In sec_list security_lists /\
    stated_flagged sec_list /\
    f = security_list_row compartment_id vcn sec_list (permissive_rules_of sec_list).

(** The account of [OpenSsh] with an active root compartment: its one
    security list lets the ports 22 to 65535 in from anywhere. *)
Module SshAndUp.
Definition inventory : Cloud :=
  mkCloud (fun id => inr (Compartment.mk id "root" "ACTIVE"))
          (fun _ => inr []) (fun _ => inr []) (fun _ => inr []) (fun _ => inr [])
          (fun _ _ => inr []) (fun _ => inr []) (fun _ => inr [])
          (fun _ => inl "not found")
          (fun _ => inr [OpenSsh.vcn]) (fun _ _ => inr [OpenSsh.sec_list]).
Definition chef : Chef := mkChef inventory OpenSsh.machine "ocid1.tenancy.1".
Definition args : Args := mkArgs "." None.
Definition finding : Finding :=
  security_list_row "ocid1.tenancy.1" OpenSsh.vcn OpenSsh.sec_list ["TCP:22"].
End SshAndUp.

(** A dev-tagged, available security list with an SSH rule and a rule that
    lets every ICMP packet in, in the network of [OpenSsh]. *)
Module Mixed.
Definition icmp : IngressSecurityRule.t := IngressSecurityRule.mk "0.0.0.0/0" "1" None.
Definition sec_list : SecurityList.t :=
  SecurityList.mk "ocid1.securitylist.3" "mixed" "AVAILABLE" [OpenSsh.rule; icmp]
                  OpenSsh.dev_tags.
Definition inventory : Cloud :=
  mkCloud (fun _ => inl "not found")
          (fun _ => inr []) (fun _ => inr []) (fun _ => inr []) (fun _ => inr [])
          (fun _ _ => inr []) (fun _ => inr []) (fun _ => inr [])
          (fun _ => inl "not found")
          (fun _ => inr [OpenSsh.vcn]) (fun _ _ => inr [sec_list]).
Definition chef : Chef := mkChef inventory OpenSsh.machine "ocid1.tenancy.1".
End Mixed.

(** * Vocabulary of the further properties *)

(** ** Automation tags *)

(** Every tag key of a tag set: the free-form keys, then the keys inside
    each namespace.  The names of the namespaces are not keys. *)
Definition tag_keys (resource_tags : option TagSet) : list string :=
  match resource_tags with
  | None => []
  | Some t =>
      app (map fst (items (freeform_tags t)))
          (flat_map (fun ns => map fst (snd ns)) (items (defined_tags t)))
  end.

(** The string [sub] occurs somewhere in [s]. *)
Definition occurs_in (sub s : string) : Prop :=
  exists before after, s = before ++ sub ++ after.

(** ** The tests of the scanners *)

(** The test of the public IP loop. *)
Definition flags_public_ip (public_ip : PublicIp.t) : bool :=
  is_dev_test_resource (Some (PublicIp.tags public_ip)) &&
  String.eqb (PublicIp.lifecycle_state public_ip) "AVAILABLE" &&
  negb (str_truthy (PublicIp.assigned_entity_id public_ip)).

(** The test of the autonomous database loop, when the comparison of the
    core count does not raise. *)
Definition flags_autonomous_db (adb : AutonomousDatabase.t) : bool :=
  is_dev_test_resource (Some (AutonomousDatabase.tags adb)) &&
  match AutonomousDatabase.cpu_core_count adb with
  | PInt cores => (4 <=? cores)%Z
  | _ => false
  end &&
  String.eqb (AutonomousDatabase.lifecycle_state adb) "AVAILABLE".

(** The comparison [adb.cpu_core_count >= 4] is only reached for a
    dev/test database; it needs an integer. *)
Definition core_count_known (adb : AutonomousDatabase.t) : Prop :=
  is_dev_test_resource (Some (AutonomousDatabase.tags adb)) = true ->
  exists cores, AutonomousDatabase.cpu_core_count adb = PInt cores.

(** The events of a database scan whose two listings answer. *)
Definition database_calls (compartment_id : string) : list Event :=
  [ Logged INFO ("Checking database instances in compartment: " ++ compartment_id);
    Called (ListDbSystems compartment_id);
    Called (ListAutonomousDatabases compartment_id) ].

(** An eligible volume whose attachment lookup answers the empty list. *)
Definition flags_volume (self : Chef) (compartment_id : string) (volume : Volume.t) : bool :=
  eligible_volume volume &&
  match volume_attachments self compartment_id volume with
  | inr [] => true
  | _ => false
  end.

(** An eligible load balancer whose details show no backend set with a
    backend. *)
Definition flags_load_balancer (self : Chef) (lb : LoadBalancer.t) : bool :=
  eligible_load_balancer lb &&
  match load_balancer_details self lb with
  | inr lb_details => negb (has_backends lb_details)
  | inl _ => false
  end.

(** Some backend set of the load balancer has a backend. *)
Definition some_backend (lb_details : LoadBalancer.t) : Prop :=
  exists name backend_set backend,
    In (name, backend_set) (items (LoadBalancer.backend_sets lb_details)) /\
    In backend (BackendSet.backends backend_set).

(** A dev-tagged autonomous database on the ECPU compute model, whose
    [cpu_core_count] is [None], listed between two dev-tagged databases with
    eight cores. *)
Module Ecpu.
Definition first : AutonomousDatabase.t :=
  AutonomousDatabase.mk "ocid1.autonomousdatabase.1" "orders" (PInt 8) "AVAILABLE"
                        (Some (PStr "OLTP")) OpenSsh.dev_tags.
Definition ecpu : AutonomousDatabase.t :=
  AutonomousDatabase.mk "ocid1.autonomousdatabase.2" "reports" PNone "AVAILABLE"
                        (Some (PStr "DW")) OpenSsh.dev_tags.
Definition last : AutonomousDatabase.t :=
  AutonomousDatabase.mk "ocid1.autonomousdatabase.3" "billing" (PInt 8) "AVAILABLE"
                        (Some (PStr "OLTP")) OpenSsh.dev_tags.
Definition inventory : Cloud :=
  mkCloud (fun id => inr (Compartment.mk id "root" "ACTIVE"))
          (fun _ => inr [HalfListed.db_system]) (fun _ => inr [first; ecpu; last])
          (fun _ => inr []) (fun _ => inr []) (fun _ _ => inr [])
          (fun _ => inr []) (fun _ => inr [])
          (fun _ => inl "not found") (fun _ => inr []) (fun _ _ => inr []).
Definition chef : Chef := mkChef inventory OpenSsh.machine "ocid1.tenancy.1".
End Ecpu.

(** The body of the loop over the autonomous databases. *)
Definition autonomous_db_body (compartment_id : string) (adb : AutonomousDatabase.t)
  : M (list Finding) unit :=
  if is_dev_test_resource (Some (AutonomousDatabase.tags adb)) then
    production_grade <- py_ge_int (AutonomousDatabase.cpu_core_count adb) 4 ;;
    if production_grade &&
       String.eqb (AutonomousDatabase.lifecycle_state adb) "AVAILABLE"
    then append (autonomous_db_row compartment_id adb)
    else ret tt
  else ret tt.

(** The body of the [try] of the database scanner. *)
Definition database_body (self : Chef) (compartment_id : string) : M (list Finding) unit :=
  logger_info ("Checking database instances in compartment: " ++ compartment_id) ;;
  db_systems <- api (ListDbSystems compartment_id)
                    (list_db_systems (cloud self) compartment_id) ;;
  for_each db_systems (fun db_system =>
    if is_dev_test_resource (Some (DbSystem.tags db_system)) &&
       py_in (DbSystem.shape db_system) production_db_shapes &&
       String.eqb (DbSystem.lifecycle_state db_system) "AVAILABLE"
    then append (db_system_row compartment_id db_system)
    else ret tt) ;;
  autonomous_dbs <- api (ListAutonomousDatabases compartment_id)
                        (list_autonomous_databases (cloud self) compartment_id) ;;
  for_each autonomous_dbs (autonomous_db_body compartment_id).

(** What Python says when [None >= 4] is evaluated. *)
Definition none_ge_int : string :=
  "'>=' not supported between instances of 'NoneType' and 'int'".

(** Four dev-tagged public IPs and a production one: unassigned, assigned
    to the empty string, assigned, being released, and unassigned. *)
Module Addresses.
Definition created : datetime := mkDatetime 2025 3 9 7 5 0.
Definition prod_tags : TagSet := mkTagSet (Some [("env", "production")]) None.
Definition free : PublicIp.t :=
  PublicIp.mk "ocid1.publicip.1" "spare" "203.0.113.10" "REGION" "RESERVED" "AVAILABLE"
              None created OpenSsh.dev_tags.
Definition blank : PublicIp.t :=
  PublicIp.mk "ocid1.publicip.2" "blank" "203.0.113.11" "REGION" "RESERVED" "AVAILABLE"
              (Some "") created OpenSsh.dev_tags.
Definition used : PublicIp.t :=
  PublicIp.mk "ocid1.publicip.3" "web" "203.0.113.12" "REGION" "RESERVED" "ASSIGNED"
              (Some "ocid1.privateip.7") created OpenSsh.dev_tags.
Definition going : PublicIp.t :=
  PublicIp.mk "ocid1.publicip.4" "old" "203.0.113.13" "REGION" "RESERVED" "TERMINATING"
              None created OpenSsh.dev_tags.
Definition prod : PublicIp.t :=
  PublicIp.mk "ocid1.publicip.5" "prod-spare" "203.0.113.14" "REGION" "RESERVED"
              "AVAILABLE" None created prod_tags.
Definition inventory : Cloud :=
  mkCloud (fun id => inr (Compartment.mk id "root" "ACTIVE"))
          (fun _ => inr []) (fun _ => inr []) (fun _ => inr []) (fun _ => inr [])
          (fun _ _ => inr []) (fun _ => inr [free; blank; used; going; prod])
          (fun _ => inr [])
          (fun _ => inl "not found") (fun _ => inr []) (fun _ _ => inr []).
Definition chef : Chef := mkChef inventory OpenSsh.machine "ocid1.tenancy.1".
End Addresses.

(** Three dev-tagged active load balancers: one without backend sets, one
    whose only backend set is empty, one with a backend; and a fourth one,
    being created. *)
Module Balancers.
Definition created : datetime := mkDatetime 2025 2 1 9 0 0.
Definition address : IpAddress.t := IpAddress.mk "198.51.100.7" true.
Definition bare : LoadBalancer.t :=
  LoadBalancer.mk "ocid1.loadbalancer.1" "bare" "100Mbps" "ACTIVE" [address] None
                  created OpenSsh.dev_tags.
Definition hollow : LoadBalancer.t :=
  LoadBalancer.mk "ocid1.loadbalancer.2" "hollow" "100Mbps" "ACTIVE" [address]
                  (Some [("web", BackendSet.mk [])]) created OpenSsh.dev_tags.
Definition busy : LoadBalancer.t :=
  LoadBalancer.mk "ocid1.loadbalancer.3" "busy" "100Mbps" "ACTIVE" [address]
                  (Some [("idle", BackendSet.mk []); ("web", BackendSet.mk ["10.0.0.5:80"])])
                  created OpenSsh.dev_tags.
Definition young : LoadBalancer.t :=
  LoadBalancer.mk "ocid1.loadbalancer.4" "young" "100Mbps" "CREATING" [address] None
                  created OpenSsh.dev_tags.
Definition inventory : Cloud :=
  mkCloud (fun id => inr (Compartment.mk id "root" "ACTIVE"))
          (fun _ => inr []) (fun _ => inr []) (fun _ => inr []) (fun _ => inr [])
          (fun _ _ => inr []) (fun _ => inr [])
          (fun _ => inr [bare; hollow; busy; young])
          (fun id => if String.eqb id "ocid1.loadbalancer.1" then inr bare
                     else if String.eqb id "ocid1.loadbalancer.2" then inr hollow
                     else if String.eqb id "ocid1.loadbalancer.3" then inr busy
                     else inl "not found")
          (fun _ => inr []) (fun _ _ => inr []).
Definition chef : Chef := mkChef inventory OpenSsh.machine "ocid1.tenancy.1".
End Balancers.

(** Two dev-tagged available volumes, the second one attached, and a
    dev-tagged volume being provisioned. *)
Module Disks.
Definition loose : Volume.t :=
  Volume.mk "ocid1.volume.10" "loose" 50 None "AD-1" "AVAILABLE" Flaky.created
            OpenSsh.dev_tags.
Definition mounted : Volume.t :=
  Volume.mk "ocid1.volume.11" "mounted" 200 (Some (PInt 20)) "AD-1" "AVAILABLE"
            Flaky.created OpenSsh.dev_tags.
Definition fresh : Volume.t :=
  Volume.mk "ocid1.volume.12" "fresh" 50 None "AD-1" "PROVISIONING" Flaky.created
            OpenSsh.dev_tags.
Definition inventory : Cloud :=
  mkCloud (fun id => inr (Compartment.mk id "root" "ACTIVE"))
          (fun _ => inr []) (fun _ => inr []) (fun _ => inr [])
          (fun _ => inr [loose; mounted; fresh])
          (fun _ volume_id =>
             if String.eqb volume_id "ocid1.volume.11"
             then inr [VolumeAttachment.mk "ocid1.volumeattachment.1" "ocid1.instance.1"]
             else inr [])
          (fun _ => inr []) (fun _ => inr [])
          (fun _ => inl "not found") (fun _ => inr []) (fun _ _ => inr []).
Definition chef : Chef := mkChef inventory OpenSsh.machine "ocid1.tenancy.1".
End Disks.

(** ** Scopes *)

(** What the lookup of one requested compartment adds to the scopes:
    nothing when the lookup raises. *)
Definition lookup_compartment (self : Chef) (comp_id : string) : list Compartment.t :=
  match get_compartment (cloud self) comp_id with
  | inr comp => [comp]
  | inl _ => []
  end.

(** The events of the lookup of one requested compartment. *)
Definition lookup_events (self : Chef) (comp_id : string) : list Event :=
  Called (GetCompartment comp_id) ::
  match get_compartment (cloud self) comp_id with
  | inr _ => []
  | inl msg => [Logged WARNING ("Could not access compartment " ++ comp_id ++ ": " ++ msg)]
  end.

(** The compartments a run asks for: the given ones, or the tenancy when
    none is given. *)
Definition requested_ids (self : Chef) (args : Args) : list string :=
  match compartment_ids args with
  | Some ((_ :: _) as ids) => ids
  | _ => [tenancy self]
  end.

(** An account in which only the compartments [ocid1.compartment.a] and
    [ocid1.compartment.b] can be read; the second one is being deleted. *)
Module Partial.
Definition inventory : Cloud :=
  mkCloud (fun id => if String.eqb id "ocid1.compartment.a"
                     then inr (Compartment.mk id "alpha" "ACTIVE")
                     else if String.eqb id "ocid1.compartment.b"
                     then inr (Compartment.mk id "beta" "DELETING")
                     else inl "NotAuthorizedOrNotFound")
          (fun _ => inr []) (fun _ => inr []) (fun _ => inr []) (fun _ => inr [])
          (fun _ _ => inr []) (fun _ => inr []) (fun _ => inr [])
          (fun _ => inl "not found") (fun _ => inr []) (fun _ _ => inr []).
Definition chef : Chef := mkChef inventory OpenSsh.machine "ocid1.tenancy.1".
End Partial.

(** ** Writing the reports *)

(** Writing the files of a list in order, up to the first one that cannot
    be opened: the files written, and the message of the error if any. *)
Fixpoint write_all (self : Chef) (files : list (string * FileContent))
  : list (string * FileContent) * option string :=
  match files with
  | [] => ([], None)
  | file :: rest =>
      match open_w (host self) (fst file) with
      | Some msg => ([], Some msg)
      | None => (file :: fst (write_all self rest), snd (write_all self rest))
      end
  end.

(** The events of one file written: the file and the log record that names
    it. *)
Definition file_events (file : string * FileContent) : list Event :=
  [ Wrote (fst file) (snd file);
    Logged INFO (match snd file with
                 | Csv _ _ => "CSV report saved to: "
                 | Html _ => "HTML report saved to: "
                 end ++ fst file) ].

(** An item of [results.items()] under the name of its file. *)
Definition relabel (item : string * list Finding) : string * list Finding :=
  (match dict_lookup report_mappings (fst item) with
   | Some label => label
   | None => fst item
   end, snd item).

(** The events of a run between the scan and the summary, when every file
    can be written. *)
Definition after_files (self : Chef) (args : Args) (r : Results) : list Event :=
  if (0 <? total_of r)%nat
  then browser_events self args
  else [Logged INFO "No cost optimization opportunities found in dev/test resources."].

(** A run, as a function of what it finds and of what it can write. *)
Definition run_outline (self : Chef) (args : Args) : Z * Results * list Event :=
  match resolved_compartments self args with
  | [] =>
      (1%Z, empty_results,
       app (events (get_compartments self (compartment_ids args) tt))
           [Logged ERROR "No accessible compartments found"])
  | _ :: _ =>
      let r := run_results self args in
      let w := write_all self (expected_files self args r) in
      match snd w with
      | None =>
          (0%Z, r,
           app (scan_prefix self args)
               (app (flat_map file_events (fst w))
                    (app (after_files self args r) (summary_events r))))
      | Some msg =>
          (1%Z, r,
           app (scan_prefix self args)
               (app (flat_map file_events (fst w)) [Printed ("❌ Error: " ++ msg)]))
      end
  end.

(** The same machine with another browser. *)
Definition with_browser (h : Host) (browser : string -> option string) : Host :=
  mkHost (now h) (open_w h) (abspath h) browser.

(** A machine on which no file with [Oversized] in its name can be
    written. *)
Module ReadOnly.
Definition machine : Host :=
  mkHost (fun _ => mkDatetime 2025 6 10 12 0 0)
         (fun name => if contains "Oversized" name then Some "Permission denied" else None)
         (fun p => p) (fun _ => None).
(** The instances of [Fleet] in an account whose root compartment is
    active. *)
Definition inventory : Cloud :=
  mkCloud (fun id => inr (Compartment.mk id "root" "ACTIVE"))
          (fun _ => inr []) (fun _ => inr [])
          (fun _ => inr [Fleet.big; Fleet.small; Fleet.big_scheduled; Fleet.gone])
          (fun _ => inr []) (fun _ _ => inr []) (fun _ => inr []) (fun _ => inr [])
          (fun _ => inl "not found") (fun _ => inr []) (fun _ _ => inr []).
Definition chef : Chef := mkChef inventory machine "ocid1.tenancy.1".
Definition args : Args := mkArgs "out" None.
End ReadOnly.

(** The same chef on a machine with another browser. *)
Definition with_other_browser (self : Chef) (browser : string -> option string) : Chef :=
  mkChef (cloud self) (with_browser (host self) browser) (tenancy self).

(** The file can be opened for writing. *)
Definition openable (self : Chef) (file : string * FileContent) : Prop :=
  open_w (host self) (fst file) = None.

(** The lookup of the compartment raises. *)
Definition unreadable (self : Chef) (comp_id : string) : Prop :=
  exists msg, get_compartment (cloud self) comp_id = inl msg.

(** The log record of a compartment that is skipped. *)
Definition skipped (compartment : Compartment.t) : Event :=
  Logged WARNING ("Skipping inactive compartment: " ++ Compartment.name compartment).

(** The account of [OneFinding] on a machine without a browser. *)
Module Headless.
Definition chef : Chef :=
  with_other_browser OneFinding.chef (fun _ => Some "no display").
End Headless.

(** ** The columns of the reports *)

(** The keys of the dict literals the scanners append, in the order they
    are written (lines 214-225 and 234-245, 267-276 and 280-289, 315-325,
    349-359, 389-398, 438-447). *)
Definition database_columns : list string :=
  ["resource_type"; "name"; "shape"; "lifecycle_state"; "availability_domain";
   "cpu_core_count"; "database_edition"; "compartment_id"; "tags"; "resource_id"].

Definition instance_columns : list string :=
  ["instance_name"; "shape"; "lifecycle_state"; "availability_domain"; "time_created";
   "compartment_id"; "tags"; "resource_id"].

Definition volume_columns : list string :=
  ["volume_name"; "size_gb"; "volume_type"; "availability_domain"; "lifecycle_state";
   "time_created"; "compartment_id"; "tags"; "resource_id"].

Definition public_ip_columns : list string :=
  ["public_ip_name"; "ip_address"; "scope"; "lifetime"; "lifecycle_state";
   "time_created"; "compartment_id"; "tags"; "resource_id"].

Definition load_balancer_columns : list string :=
  ["load_balancer_name"; "shape"; "lifecycle_state"; "ip_addresses"; "time_created";
   "compartment_id"; "tags"; "resource_id"].

Definition security_list_columns : list string :=
  ["security_list_name"; "vcn_name"; "lifecycle_state"; "permissive_rules_count";
   "permissive_rules"; "compartment_id"; "tags"; "resource_id"].

(** The columns of each category, in the order of [results_items]. *)
Definition category_columns : list (list string) :=
  [ database_columns; instance_columns; instance_columns; volume_columns;
    public_ip_columns; load_balancer_columns; security_list_columns ].

(** The findings of each category with the columns of the category. *)
Definition with_columns (r : Results) : list (list Finding * list string) :=
  combine (collections r) category_columns.

(** Every finding of every category has exactly the columns of its
    category, in order. *)
Definition well_formed (r : Results) : Prop :=
  Forall (fun dc => Forall (fun f => map fst f = snd dc) (fst dc)) (with_columns r).



(** The columns of the findings of a category. *)
Definition columns_of (k : Category) : list string :=
  match k with
  | DatabaseInstances => database_columns
  | ComputeMissingAutomation | OversizedCompute => instance_columns
  | UnattachedVolumes => volume_columns
  | UnusedPublicIps => public_ip_columns
  | EmptyLoadBalancers => load_balancer_columns
  | PermissiveSecurityLists => security_list_columns
  end.




(** ** Merging *)

(** The findings of a list of scopes, category by category, in the order of
    the scopes. *)
Definition concat_scopes (self : Chef) (compartments : list Compartment.t) : Results :=
  let gather (category : Results -> list Finding) :=
    flat_map (fun c => category (scope_results self (Compartment.id c))) compartments in
  mkResults (gather database_instances) (gather compute_missing_automation)
            (gather oversized_compute) (gather unattached_volumes)
            (gather unused_public_ips) (gather empty_load_balancers)
            (gather permissive_security_lists).

(** ** The calls of a scan *)

(** An event of the scan of the scope [compartment_id]: a log record, the
    listing of a kind of resource of this scope, or a secondary call about a
    resource that was listed in this scope and passed the guard of its
    scanner. *)
Definition in_scope (self : Chef) (compartment_id : string) (e : Event) : Prop :=
  match e with
  | Logged _ _ => True
  | Called c =>
      match c with
      | GetCompartment _ => False
      | ListDbSystems scope | ListAutonomousDatabases scope | ListInstances scope
      | ListVolumes scope | ListPublicIps scope | ListLoadBalancers scope
      | ListVcns scope => scope = compartment_id
      | ListVolumeAttachments scope volume_id =>
          scope = compartment_id /\
          exists volumes volume,
            list_volumes (cloud self) compartment_id = inr volumes /\
            In volume volumes /\ eligible_volume volume = true /\
            Volume.id volume = volume_id
      | GetLoadBalancer load_balancer_id =>
          exists load_balancers lb,
            list_load_balancers (cloud self) compartment_id = inr load_balancers /\
            In lb load_balancers /\ eligible_load_balancer lb = true /\
            LoadBalancer.id lb = load_balancer_id
      | ListSecurityLists scope vcn_id =>
          scope = compartment_id /\
          exists vcns vcn,
            list_vcns (cloud self) compartment_id = inr vcns /\
            In vcn vcns /\ Vcn.lifecycle_state vcn = "AVAILABLE" /\
            Vcn.id vcn = vcn_id
      end
  | _ => False
  end.

(** The calls that list a kind of resource of a compartment. *)
Definition is_listing (c : ApiCall) : bool :=
  match c with
  | ListDbSystems _ | ListAutonomousDatabases _ | ListInstances _ | ListVolumes _
  | ListPublicIps _ | ListLoadBalancers _ | ListVcns _ => true
  | _ => false
  end.

(** The listing calls of a list of events, in order. *)
Definition listings (ev : list Event) : list ApiCall :=
  flat_map (fun e =>
              match e with
              | Called c => if is_listing c then [c] else []
              | _ => []
              end) ev.

(** An event of the loop of a scanner: an event of the scope that is not a
    listing call. *)
Definition loop_event (self : Chef) (compartment_id : string) (e : Event) : Prop :=
  in_scope self compartment_id e /\ listings [e] = [].

(** The listing calls of the scan of one scope: one per kind of resource;
    the autonomous databases are only listed when the DB systems were. *)
Definition scope_listings (self : Chef) (compartment_id : string) : list ApiCall :=
  app (ListDbSystems compartment_id ::
       match list_db_systems (cloud self) compartment_id with
       | inr _ => [ListAutonomousDatabases compartment_id]
       | inl _ => []
       end)
      [ ListInstances compartment_id; ListVolumes compartment_id;
        ListPublicIps compartment_id; ListLoadBalancers compartment_id;
        ListVcns compartment_id ].

(** ** The ids of the command line *)

(** How many times a character occurs in a string. *)
Fixpoint occurrences (c : ascii) (s : string) : nat :=
  match s with
  | EmptyString => 0
  | String d s' => (if Ascii.eqb c d then 1 else 0) + occurrences c s'
  end.

(** Does the string start with a character of white space?  On a reversed
    string ([backwards]) the bytes of a character come last byte first. *)
Definition front_space (backwards : bool) (s : string) : bool :=
  match s with
  | EmptyString => false
  | String c s1 =>
      space1 c ||
      match s1 with
      | EmptyString => false
      | String d s2 =>
          (if backwards then space2 d c else space2 c d) ||
          match s2 with
          | EmptyString => false
          | String e _ => if backwards then space3 e d c else space3 c d e
          end
      end
  end.

Definition starts_with_space (s : string) : bool := front_space false s.
Definition ends_with_space (s : string) : bool := front_space true (reversed s).

(** A string of white space only. *)
Inductive blank : string -> Prop :=
| blank_empty : blank ""
| blank_one (c : ascii) (s : string) :
    space1 c = true -> blank s -> blank (String c s)
| blank_two (c d : ascii) (s : string) :
    space2 c d = true -> blank s -> blank (String c (String d s))
| blank_three (c d e : ascii) (s : string) :
    space3 c d e = true -> blank s -> blank (String c (String d (String e s))).

(** An id as it stands between two commas: it holds no comma and has no
    white space at either end. *)
Definition clean_id (id : string) : Prop :=
  has_char ","%char id = false /\
  starts_with_space id = false /\ ends_with_space id = false.

(** The piece of the command line an id was cut from: the id between two
    strings of white space. *)
Definition padded (piece id : string) : Prop :=
  exists l r, blank l /\ blank r /\ piece = l ++ id ++ r.

(** * Properties *)

(** ** Strings and loops *)

Lemma py_in_In (x : string) (xs : list string) :
  py_in x xs = true <-> In x xs.
Proof.
  unfold py_in. rewrite existsb_exists. split.
  - intros [y [Hy He]]. apply String.eqb_eq in He. now subst.
  - intros Hx. exists x. split; [assumption | apply String.eqb_refl].
Qed.

Lemma dict_truthy_items {K V : Type} (d : option (dict K V)) :
  dict_truthy d = false -> items d = [].
Proof. destruct d as [[|? ?]|]; simpl; congruence. Qed.

(** A guard on the truth value of a dict does not change what a search of
    its items finds. *)
Lemma guarded_existsb {K V : Type} (d : option (dict K V)) (p : K * V -> bool) :
  dict_truthy d && existsb p (items d) = existsb p (items d).
Proof.
  destruct (dict_truthy d) eqn:E; simpl; [reflexivity|].
  now rewrite (dict_truthy_items d E).
Qed.

Lemma fold_append_map {X Y : Type} (f : X -> Y) (xs : list X) (acc : list Y) :
  fold_left (fun acc x => app acc [f x]) xs acc = app acc (map f xs).
Proof.
  revert acc. induction xs as [|x xs IH]; intros acc; simpl.
  - now rewrite app_nil_r.
  - rewrite IH, <- app_assoc. reflexivity.
Qed.

Lemma fold_append_flat_map {X Y Z : Type} (f : X -> Y -> Z) (sub : X -> list Y)
    (xs : list X) (acc : list Z) :
  fold_left (fun acc x => fold_left (fun acc' y => app acc' [f x y]) (sub x) acc) xs acc
  = app acc (flat_map (fun x => map (f x) (sub x)) xs).
Proof.
  revert acc. induction xs as [|x xs IH]; intros acc; simpl.
  - now rewrite app_nil_r.
  - rewrite IH, fold_append_map, <- app_assoc. reflexivity.
Qed.

Lemma has_char_app (c : ascii) (a b : string) :
  has_char c (a ++ b) = has_char c a || has_char c b.
Proof.
  induction a as [|d a IH]; simpl; [reflexivity|].
  rewrite IH. now rewrite orb_assoc.
Qed.

Lemma has_char_join_head (c : ascii) (sep x : string) (xs : list string) :
  has_char c x = true -> has_char c (join sep (x :: xs)) = true.
Proof.
  intros Hx. unfold join. simpl. destruct xs as [|y ys].
  - exact Hx.
  - rewrite has_char_app, Hx. reflexivity.
Qed.

(** ** Tag classifier *)

Lemma existsb_map {X Y : Type} (p : Y -> bool) (f : X -> Y) (xs : list X) :
  existsb p (map f xs) = existsb (fun x => p (f x)) xs.
Proof.
  induction xs as [|x xs IH]; simpl; [reflexivity|]. now rewrite IH.
Qed.

Lemma existsb_flat_map {X Y : Type} (p : Y -> bool) (f : X -> list Y) (xs : list X) :
  existsb p (flat_map f xs) = existsb (fun x => existsb p (f x)) xs.
Proof.
  induction xs as [|x xs IH]; simpl; [reflexivity|].
  now rewrite existsb_app, IH.
Qed.

Lemma existsb_ext_eq {X : Type} (p q : X -> bool) (xs : list X) :
  (forall x, p x = q x) -> existsb p xs = existsb q xs.
Proof.
  intros H. induction xs as [|x xs IH]; simpl; [reflexivity|]. now rewrite H, IH.
Qed.

Lemma is_dev_test_resource_existsb (resource_tags : option TagSet) :
  is_dev_test_resource resource_tags =
  existsb (fun v => py_in (lower v) dev_test_tags) (tag_values resource_tags).
Proof.
  destruct resource_tags as [t|]; [|reflexivity].
  unfold is_dev_test_resource, tag_values.
  rewrite !guarded_existsb, existsb_app, existsb_map, existsb_flat_map.
  f_equal. apply existsb_ext_eq. intros ns. now rewrite existsb_map.
Qed.

Lemma dev_test_tags_lower (label : string) :
  In label dev_test_tags -> lower label = label.
Proof.
  unfold dev_test_tags. simpl.
  intros H. repeat (destruct H as [H|H]; [subst; reflexivity|]). contradiction.
Qed.

Lemma is_dev_test_resource_iff (resource_tags : option TagSet) :
  is_dev_test_resource resource_tags = true <->
  exists v label, In v (tag_values resource_tags) /\ In label dev_test_tags /\
                  eq_nocase v label.
Proof.
  rewrite is_dev_test_resource_existsb, existsb_exists. unfold eq_nocase. split.
  - intros [v [Hv Hin]]. apply py_in_In in Hin.
    exists v, (lower v). repeat split; try assumption.
    symmetry. now apply dev_test_tags_lower.
  - intros [v [label [Hv [Hl He]]]]. exists v. split; [assumption|].
    apply py_in_In. rewrite He, (dev_test_tags_lower label Hl). assumption.
Qed.

(** C6: [is_dev_test_resource] is true exactly when some free-form or
    namespaced tag value equals, up to letter case and as a whole string, one
    of dev, test, development, testing, staging, qa; it is false for an
    absent and for an empty tag set, true as soon as one value equals
    "staging" up to case, and false when the only value is "production". *)
Theorem is_dev_test_resource_spec :
  (forall resource_tags,
     is_dev_test_resource resource_tags = true <->
     exists v label, In v (tag_values resource_tags) /\ In label dev_test_tags /\
                     eq_nocase v label)
  /\ dev_test_tags = ["dev"; "test"; "development"; "testing"; "staging"; "qa"]
  /\ is_dev_test_resource None = false
  /\ (forall resource_tags,
        tag_values resource_tags = [] -> is_dev_test_resource resource_tags = false)
  /\ (forall resource_tags v,
        In v (tag_values resource_tags) -> eq_nocase v "staging" ->
        is_dev_test_resource resource_tags = true)
  /\ (forall resource_tags,
        tag_values resource_tags = ["production"] ->
        is_dev_test_resource resource_tags = false).
Proof.
  split; [exact is_dev_test_resource_iff|].
  split; [reflexivity|].
  split; [reflexivity|].
  split; [|split].
  - intros rt Hnil. rewrite is_dev_test_resource_existsb, Hnil. reflexivity.
  - intros rt v Hv He. apply is_dev_test_resource_iff.
    exists v, "staging". repeat split; try assumption.
    unfold dev_test_tags. simpl. tauto.
  - intros rt Hp. rewrite is_dev_test_resource_existsb, Hp. reflexivity.
Qed.

(** A tag set with the free-form value "Staging" and one with the
    namespaced value "STAGING" are both dev/test. *)
Lemma is_dev_test_resource_spec_witness :
  is_dev_test_resource
    (Some (mkTagSet (Some [("tier", "Staging")]) None)) = true /\
  is_dev_test_resource
    (Some (mkTagSet None (Some [("ops", [("stage", "STAGING")])]))) = true /\
  is_dev_test_resource
    (Some (mkTagSet (Some [("env", "production")]) None)) = false /\
  is_dev_test_resource (Some (mkTagSet (Some []) (Some []))) = false.
Proof.
  destruct is_dev_test_resource_spec as [_ [_ [_ [Hempty [Hstaging Hprod]]]]].
  split; [|split; [|split]].
  - apply (Hstaging _ "Staging"); [simpl; tauto | reflexivity].
  - apply (Hstaging _ "STAGING"); [simpl; tauto | reflexivity].
  - apply Hprod. reflexivity.
  - apply Hempty. reflexivity.
Defined.

Lemma format_tags_rendered (resource_tags : option TagSet) :
  format_tags resource_tags =
  match rendered_tags resource_tags with
  | [] => "N/A"
  | _ :: _ => join "; " (rendered_tags resource_tags)
  end.
Proof.
  destruct resource_tags as [t|]; [|reflexivity].
  unfold format_tags, rendered_tags.
  assert (Hfree :
    (if dict_truthy (freeform_tags t)
     then fold_left (fun acc kv => app acc [fst kv ++ "=" ++ snd kv])
                    (items (freeform_tags t)) []
     else []) = map (fun kv => fst kv ++ "=" ++ snd kv) (items (freeform_tags t))).
  { destruct (dict_truthy (freeform_tags t)) eqn:E.
    - now rewrite fold_append_map.
    - now rewrite (dict_truthy_items _ E). }
  rewrite Hfree.
  set (free := map (fun kv => fst kv ++ "=" ++ snd kv) (items (freeform_tags t))).
  assert (Hdef :
    (if dict_truthy (defined_tags t)
     then fold_left
            (fun acc ns =>
               fold_left (fun acc' kv => app acc' [fst ns ++ "." ++ fst kv ++ "=" ++ snd kv])
                         (snd ns) acc)
            (items (defined_tags t)) free
     else free) =
    app free (flat_map (fun ns =>
                          map (fun kv => fst ns ++ "." ++ fst kv ++ "=" ++ snd kv) (snd ns))
                       (items (defined_tags t)))).
  { destruct (dict_truthy (defined_tags t)) eqn:E.
    - apply (fold_append_flat_map
               (fun ns kv => fst ns ++ "." ++ fst kv ++ "=" ++ snd kv) snd).
    - rewrite (dict_truthy_items _ E). simpl. now rewrite app_nil_r. }
  rewrite Hdef. reflexivity.
Qed.

Lemma rendered_tags_length (resource_tags : option TagSet) :
  List.length (rendered_tags resource_tags) = tag_count resource_tags.
Proof.
  destruct resource_tags as [t|]; [|reflexivity].
  unfold rendered_tags, tag_count.
  rewrite length_app, length_map. f_equal.
  induction (items (defined_tags t)) as [|ns l IH]; [reflexivity|].
  cbn [flat_map fold_right]. now rewrite length_app, length_map, IH.
Qed.

Lemma rendered_tags_have_equals (resource_tags : option TagSet) :
  Forall (fun s => has_char "=" s = true) (rendered_tags resource_tags).
Proof.
  destruct resource_tags as [t|]; [|constructor].
  unfold rendered_tags. apply Forall_app. split.
  - apply Forall_forall. intros s Hs. apply in_map_iff in Hs.
    destruct Hs as [kv [<- _]]. rewrite has_char_app. simpl.
    now rewrite orb_true_r.
  - apply Forall_forall. intros s Hs. apply in_flat_map in Hs.
    destruct Hs as [ns [_ Hs]]. apply in_map_iff in Hs.
    destruct Hs as [kv [<- _]]. rewrite !has_char_app. simpl.
    now rewrite !orb_true_r.
Qed.

(** C7: [format_tags] gives the free-form tags as key=value and the
    namespaced tags as namespace.key=value, joined by "; "; it gives "N/A"
    exactly when the tag set has no tag; an empty tag set gives "N/A" and
    the single free-form tag env=dev gives "env=dev". *)
Theorem format_tags_spec :
  (forall resource_tags,
     tag_count resource_tags <> 0 ->
     format_tags resource_tags = join "; " (rendered_tags resource_tags))
  /\ (forall resource_tags,
        format_tags resource_tags = "N/A" <-> tag_count resource_tags = 0)
  /\ format_tags (Some (mkTagSet (Some []) (Some []))) = "N/A"
  /\ format_tags None = "N/A"
  /\ format_tags (Some (mkTagSet (Some [("env", "dev")]) None)) = "env=dev".
Proof.
  split; [|split; [|split; [|split]]]; try reflexivity.
  - intros rt Hn. rewrite format_tags_rendered.
    rewrite <- rendered_tags_length in Hn.
    destruct (rendered_tags rt); [now elim Hn | reflexivity].
  - intros rt. rewrite format_tags_rendered, <- rendered_tags_length.
    pose proof (rendered_tags_have_equals rt) as Hall.
    destruct (rendered_tags rt) as [|x xs]; simpl List.length.
    + split; reflexivity.
    + split; [|discriminate]. intros Heq. exfalso.
      inversion Hall as [|? ? Hx _]; subst.
      pose proof (has_char_join_head "=" "; " x xs Hx) as Hj.
      rewrite Heq in Hj. discriminate Hj.
Qed.

(** A resource with one free-form and two namespaced tags. *)
Lemma format_tags_spec_witness :
  format_tags
    (Some (mkTagSet (Some [("env", "dev")])
                    (Some [("ops", [("owner", "kim"); ("tier", "qa")])])))
  = "env=dev; ops.owner=kim; ops.tier=qa".
Proof.
  destruct format_tags_spec as [Hjoin _].
  rewrite Hjoin; [reflexivity | simpl; discriminate].
Defined.

(** ** Running a method body *)

Lemma run_eta {L A : Type} (o : Response A * L * list Event) :
  o = (outcome o, locals o, events o).
Proof. now destruct o as [[r l] ev]. Qed.

Lemma bind_returns {L A B : Type} (m : M L A) (k : A -> M L B) (l l1 : L)
    (a : A) (ev1 : list Event) :
  m l = (inr a, l1, ev1) ->
  bind m k l = (outcome (k a l1), locals (k a l1), app ev1 (events (k a l1))).
Proof.
  intros H. unfold bind. rewrite H. now destruct (k a l1) as [[r l2] ev2].
Qed.

Lemma bind_raises {L A B : Type} (m : M L A) (k : A -> M L B) (l l1 : L)
    (e : Exn) (ev1 : list Event) :
  m l = (inl e, l1, ev1) -> bind m k l = (inl e, l1, ev1).
Proof. intros H. unfold bind. now rewrite H. Qed.

Lemma bind_returned_inv {L A B : Type} (m : M L A) (k : A -> M L B) (l l2 : L)
    (b : B) (ev : list Event) :
  bind m k l = (inr b, l2, ev) ->
  exists a l1 ev1 ev2,
    m l = (inr a, l1, ev1) /\ k a l1 = (inr b, l2, ev2) /\ ev = app ev1 ev2.
Proof.
  unfold bind. destruct (m l) as [[[e|a] l1] ev1]; [discriminate|].
  destruct (k a l1) as [[r l2'] ev2] eqn:Ek. intros H. inversion H; subst.
  exists a, l1, ev1, ev2. auto.
Qed.

Lemma frame_run {L L' A : Type} (init : L') (m : M L' A) (l : L) :
  frame init m l = (outcome (m init), l, events (m init)).
Proof. unfold frame. now destruct (m init) as [[r l'] ev]. Qed.

Lemma try_except_catches {L A : Type} (body : M L A) (h : string -> M L A) (l l1 : L)
    (msg : string) (ev : list Event) :
  body l = (inl (Exception msg), l1, ev) ->
  try_except body h l =
  (outcome (h msg l1), locals (h msg l1), app ev (events (h msg l1))).
Proof.
  intros H. unfold try_except. rewrite H. now destruct (h msg l1) as [[r l2] ev2].
Qed.

Lemma for_each_app {L X : Type} (xs ys : list X) (body : X -> M L unit) (l : L) :
  for_each (app xs ys) body l = (for_each xs body ;; for_each ys body) l.
Proof.
  revert l. induction xs as [|x xs IH]; intros l; cbn [for_each app].
  - unfold bind, ret. now destruct (for_each ys body l) as [[r l'] ev].
  - unfold bind in *.
    destruct (body x l) as [[[e|[]] l1] ev1]; [reflexivity|].
    rewrite IH.
    destruct (for_each xs body l1) as [[[e|[]] l2] ev2]; [reflexivity|].
    destruct (for_each ys body l2) as [[r l3] ev3]. now rewrite app_assoc.
Qed.

(** A loop whose iterations all return, each changing the locals by
    [upd] and emitting [ev]. *)
Lemma for_each_returns {L X : Type} (body : X -> M L unit)
    (upd : X -> L -> L) (ev : X -> list Event) (xs : list X) (l : L) :
  (forall x l', In x xs -> body x l' = (inr tt, upd x l', ev x)) ->
  for_each xs body l =
  (inr tt, fold_left (fun l' x => upd x l') xs l, flat_map ev xs).
Proof.
  revert l. induction xs as [|x xs IH]; intros l Hbody; simpl; [reflexivity|].
  rewrite (bind_returns _ _ _ _ _ _ (Hbody x l (or_introl eq_refl))).
  rewrite IH by (intros; apply Hbody; now right). reflexivity.
Qed.

(** A loop that raises in the iteration after the prefix [xs1]: the
    iterations after it do not run. *)
Lemma for_each_raises {L X : Type} (body : X -> M L unit)
    (upd : X -> L -> L) (ev : X -> list Event) (xs1 xs2 : list X) (x : X)
    (l l2 : L) (e : Exn) (ev2 : list Event) :
  (forall x' l', In x' xs1 -> body x' l' = (inr tt, upd x' l', ev x')) ->
  body x (fold_left (fun l' x' => upd x' l') xs1 l) = (inl e, l2, ev2) ->
  for_each (app xs1 (x :: xs2)) body l = (inl e, l2, app (flat_map ev xs1) ev2).
Proof.
  intros Hpre Hx. rewrite for_each_app.
  rewrite (bind_returns _ _ _ _ _ _ (for_each_returns body upd ev xs1 l Hpre)).
  simpl for_each. rewrite (bind_raises _ _ _ _ _ _ Hx). reflexivity.
Qed.

Lemma fold_append_filter {X Y : Type} (p : X -> bool) (f : X -> Y)
    (xs : list X) (acc : list Y) :
  fold_left (fun acc x => if p x then app acc [f x] else acc) xs acc
  = app acc (map f (filter p xs)).
Proof.
  revert acc. induction xs as [|x xs IH]; intros acc; simpl.
  - now rewrite app_nil_r.
  - rewrite IH. destruct (p x); simpl; [|reflexivity].
    now rewrite <- app_assoc.
Qed.

(** ** Rules of the program logic *)

Section Rules.
Context {L : Type}.
Variable Ev : Event -> Prop.

Lemma triple_conseq {A : Type} (P P' : L -> Prop) (m : M L A)
    (Q Q' : A -> L -> Prop) (E E' : Exn -> L -> Prop) :
  triple P' m Q' E' Ev ->
  (forall l, P l -> P' l) ->
  (forall a l, Q' a l -> Q a l) ->
  (forall e l, E' e l -> E e l) ->
  triple P m Q E Ev.
Proof.
  intros H HP HQ HE l Hl. destruct (H l (HP l Hl)) as [Hev Hout].
  split; [assumption|]. destruct (outcome (m l)); auto.
Qed.

Lemma triple_ret {A : Type} (P : L -> Prop) (a : A)
    (Q : A -> L -> Prop) (E : Exn -> L -> Prop) :
  (forall l, P l -> Q a l) -> triple P (ret a) Q E Ev.
Proof. intros H l Hl. split; [constructor | now apply H]. Qed.

Lemma triple_raise {A : Type} (P : L -> Prop) (e : Exn)
    (Q : A -> L -> Prop) (E : Exn -> L -> Prop) :
  (forall l, P l -> E e l) -> triple P (raise e) Q E Ev.
Proof. intros H l Hl. split; [constructor | now apply H]. Qed.

Lemma triple_emit (P : L -> Prop) (ev : Event)
    (Q : unit -> L -> Prop) (E : Exn -> L -> Prop) :
  Ev ev -> (forall l, P l -> Q tt l) -> triple P (emit ev) Q E Ev.
Proof.
  intros Hev H l Hl. split; [repeat constructor; assumption | now apply H].
Qed.

Lemma triple_modify (P : L -> Prop) (f : L -> L)
    (Q : unit -> L -> Prop) (E : Exn -> L -> Prop) :
  (forall l, P l -> Q tt (f l)) -> triple P (modify f) Q E Ev.
Proof. intros H l Hl. split; [constructor | now apply H]. Qed.

Lemma triple_get_locals (P : L -> Prop)
    (Q : L -> L -> Prop) (E : Exn -> L -> Prop) :
  (forall l, P l -> Q l l) -> triple P get_locals Q E Ev.
Proof. intros H l Hl. split; [constructor | now apply H]. Qed.

Lemma triple_api {A : Type} (P : L -> Prop) (c : ApiCall) (answer : Answer A)
    (Q : A -> L -> Prop) (E : Exn -> L -> Prop) :
  Ev (Called c) ->
  (forall data l, answer = inr data -> P l -> Q data l) ->
  (forall msg l, answer = inl msg -> P l -> E (Exception msg) l) ->
  triple P (api c answer) Q E Ev.
Proof.
  intros Hev HQ HE l Hl. split; [repeat constructor; assumption|].
  unfold api, outcome, locals; simpl. destruct answer; auto.
Qed.

Lemma triple_bind {A B : Type} (P : L -> Prop) (m : M L A) (k : A -> M L B)
    (Q1 : A -> L -> Prop) (Q : B -> L -> Prop) (E : Exn -> L -> Prop) :
  triple P m Q1 E Ev ->
  (forall a, triple (Q1 a) (k a) Q E Ev) ->
  triple P (bind m k) Q E Ev.
Proof.
  intros Hm Hk l Hl. destruct (Hm l Hl) as [Hev Hout].
  unfold bind. destruct (m l) as [[[e|a] l1] ev1]; simpl in *.
  - split; assumption.
  - destruct (Hk a l1 Hout) as [Hev2 Hout2].
    destruct (k a l1) as [[r l2] ev2]; simpl in *.
    split; [now apply Forall_app | assumption].
Qed.

Lemma triple_try_except {A : Type} (P : L -> Prop) (body : M L A)
    (h : string -> M L A) (Q : A -> L -> Prop) (E' E : Exn -> L -> Prop) :
  triple P body Q E' Ev ->
  (forall msg, triple (E' (Exception msg)) (h msg) Q E Ev) ->
  (forall code l, E' (SystemExit code) l -> E (SystemExit code) l) ->
  triple P (try_except body h) Q E Ev.
Proof.
  intros Hb Hh Hexit l Hl. destruct (Hb l Hl) as [Hev Hout].
  unfold try_except. destruct (body l) as [[[[msg|code]|a] l1] ev1]; simpl in *.
  - destruct (Hh msg l1 Hout) as [Hev2 Hout2].
    destruct (h msg l1) as [[r l2] ev2]; simpl in *.
    split; [now apply Forall_app | assumption].
  - split; [assumption | now apply Hexit].
  - split; assumption.
Qed.

Lemma triple_for_each {X : Type} (I : L -> Prop) (xs : list X)
    (body : X -> M L unit) (E : Exn -> L -> Prop) :
  (forall x, In x xs -> triple I (body x) (fun _ => I) E Ev) ->
  triple I (for_each xs body) (fun _ => I) E Ev.
Proof.
  induction xs as [|x xs IH]; intros Hbody; simpl.
  - now apply triple_ret.
  - eapply triple_bind.
    + apply Hbody. now left.
    + intros u. apply IH. intros y Hy. apply Hbody. now right.
Qed.

Lemma triple_frame {L' A : Type} (P : L -> Prop) (init : L') (m : M L' A)
    (P' : L' -> Prop) (Q' : A -> L' -> Prop) (E' : Exn -> L' -> Prop)
    (Q : A -> L -> Prop) (E : Exn -> L -> Prop) :
  P' init ->
  triple P' m Q' E' Ev ->
  (forall a l' l, Q' a l' -> P l -> Q a l) ->
  (forall e l' l, E' e l' -> P l -> E e l) ->
  triple P (frame init m) Q E Ev.
Proof.
  intros Hinit Hm HQ HE l Hl. destruct (Hm init Hinit) as [Hev Hout].
  rewrite frame_run. split; [assumption|].
  destruct (outcome (m init)); simpl; eauto.
Qed.

End Rules.

(** ** The shell of a scanner: log, list, loop, and catch *)

Section ScannerShell.
Context {L S X : Type}.
Variables (init : S) (info warn : string) (c : ApiCall) (answer : Answer (list X)).
Variable loop : list X -> M S unit.

Lemma scanner_shell_listing_fails (msg : string) (l : L) :
  answer = inl msg ->
  @scanner_shell L S X init info warn c answer loop l =
  (inr init, l, [Logged INFO info; Called c; Logged WARNING (warn ++ msg)]).
Proof.
  intros Ha. unfold scanner_shell, frame, try_except, bind, logger_info,
    logger_warning, emit, api, get_locals.
  rewrite Ha. reflexivity.
Qed.

Lemma scanner_shell_returns (xs : list X) (res : S) (evs : list Event) (l : L) :
  answer = inr xs ->
  loop xs init = (inr tt, res, evs) ->
  @scanner_shell L S X init info warn c answer loop l = (inr res, l, Logged INFO info :: Called c :: evs).
Proof.
  intros Ha Hloop. unfold scanner_shell, frame, try_except, bind, logger_info,
    logger_warning, emit, api, get_locals.
  rewrite Ha, Hloop. simpl. now rewrite app_nil_r.
Qed.

Lemma scanner_shell_loop_raises (xs : list X) (res : S) (evs : list Event)
    (msg : string) (l : L) :
  answer = inr xs ->
  loop xs init = (inl (Exception msg), res, evs) ->
  @scanner_shell L S X init info warn c answer loop l =
  (inr res, l,
   Logged INFO info :: Called c :: app evs [Logged WARNING (warn ++ msg)]).
Proof.
  intros Ha Hloop. unfold scanner_shell, frame, try_except, bind, logger_info,
    logger_warning, emit, api, get_locals.
  rewrite Ha, Hloop. simpl. now rewrite app_nil_r.
Qed.

End ScannerShell.

(** ** Security lists *)

Lemma fold_append_flat {X Y : Type} (f : X -> list Y) (xs : list X) (acc : list Y) :
  fold_left (fun acc x => app acc (f x)) xs acc = app acc (flat_map f xs).
Proof.
  revert acc. induction xs as [|x xs IH]; intros acc; simpl.
  - now rewrite app_nil_r.
  - now rewrite IH, app_assoc.
Qed.

Lemma permissive_rules_of_filter (sec_list : SecurityList.t) :
  permissive_rules_of sec_list =
  map rule_description
      (filter rule_is_permissive (SecurityList.ingress_security_rules sec_list)).
Proof. unfold permissive_rules_of. now rewrite fold_append_filter. Qed.

(** The inner loop, over the security lists of one network. *)
Lemma security_lists_loop (compartment_id : string) (vcn : Vcn.t)
    (security_lists : list SecurityList.t) (results : list Finding) :
  for_each security_lists (fun sec_list =>
    if is_dev_test_resource (Some (SecurityList.tags sec_list)) &&
       String.eqb (SecurityList.lifecycle_state sec_list) "AVAILABLE"
    then
      let permissive_rules := permissive_rules_of sec_list in
      if list_truthy permissive_rules
      then append (security_list_row compartment_id vcn sec_list permissive_rules)
      else ret tt
    else ret tt) results
  = (inr tt, app results (security_list_findings compartment_id vcn security_lists), []).
Proof.
  rewrite (for_each_returns _
             (fun sec_list results' =>
                if flags_security_list sec_list
                then app results'
                       [security_list_row compartment_id vcn sec_list
                          (permissive_rules_of sec_list)]
                else results')
             (fun _ => [])).
  - rewrite fold_append_filter. unfold security_list_findings. f_equal.
    induction security_lists; simpl; auto.
  - intros sec_list l' _. unfold flags_security_list.
    destruct (is_dev_test_resource _ && (_ =? _)); simpl; [|reflexivity].
    destruct (list_truthy _); reflexivity.
Qed.

Lemma vcn_body_returns (self : Chef) (compartment_id : string) (vcn : Vcn.t)
    (results : list Finding) :
  (Vcn.lifecycle_state vcn = "AVAILABLE" ->
   exists security_lists,
     list_security_lists (cloud self) compartment_id (Vcn.id vcn) = inr security_lists) ->
  vcn_body self compartment_id vcn results =
  (inr tt, app results (vcn_findings self compartment_id vcn),
   vcn_calls compartment_id vcn).
Proof.
  intros Hlisted. unfold vcn_body, vcn_findings, vcn_calls.
  destruct (Vcn.lifecycle_state vcn =? "AVAILABLE") eqn:Ea.
  - apply String.eqb_eq in Ea. destruct (Hlisted Ea) as [sls Hsls].
    rewrite Hsls. unfold bind, api. rewrite security_lists_loop. reflexivity.
  - unfold ret. now rewrite app_nil_r.
Qed.

Lemma vcn_body_raises (self : Chef) (compartment_id : string) (vcn : Vcn.t)
    (results : list Finding) (msg : string) :
  Vcn.lifecycle_state vcn = "AVAILABLE" ->
  list_security_lists (cloud self) compartment_id (Vcn.id vcn) = inl msg ->
  vcn_body self compartment_id vcn results =
  (inl (Exception msg), results,
   [Called (ListSecurityLists compartment_id (Vcn.id vcn))]).
Proof.
  intros Ha Hm. unfold vcn_body. rewrite Ha, Hm. reflexivity.
Qed.

Lemma check_permissive_security_lists_shell {L : Type} (self : Chef)
    (compartment_id : string) :
  @check_permissive_security_lists L self compartment_id =
  scanner_shell ([] : list Finding)
    ("Checking security lists in compartment: " ++ compartment_id)
    "Error checking security lists: "
    (ListVcns compartment_id) (list_vcns (cloud self) compartment_id)
    (fun vcns => for_each vcns (vcn_body self compartment_id)).
Proof. reflexivity. Qed.

Lemma vcns_loop_returns (self : Chef) (compartment_id : string) (vcns : list Vcn.t)
    (results : list Finding) :
  security_lists_listed self compartment_id vcns ->
  for_each vcns (vcn_body self compartment_id) results =
  (inr tt, app results (flat_map (vcn_findings self compartment_id) vcns),
   flat_map (vcn_calls compartment_id) vcns).
Proof.
  intros Hl.
  rewrite (for_each_returns _
             (fun vcn results => app results (vcn_findings self compartment_id vcn))
             (vcn_calls compartment_id)).
  - now rewrite fold_append_flat.
  - intros vcn l' Hin. apply vcn_body_returns. intros Ha. now apply Hl.
Qed.

(** When every call answers, the scanner returns the findings of every
    network, in listing order. *)
Lemma check_permissive_security_lists_returns {L : Type} (self : Chef)
    (compartment_id : string) (vcns : list Vcn.t) (l : L) :
  list_vcns (cloud self) compartment_id = inr vcns ->
  security_lists_listed self compartment_id vcns ->
  check_permissive_security_lists self compartment_id l =
  (inr (flat_map (vcn_findings self compartment_id) vcns), l,
   Logged INFO ("Checking security lists in compartment: " ++ compartment_id)
   :: Called (ListVcns compartment_id)
   :: flat_map (vcn_calls compartment_id) vcns).
Proof.
  intros Hv Hl. rewrite check_permissive_security_lists_shell.
  apply (scanner_shell_returns _ _ _ _ _ _ vcns); [assumption|].
  now rewrite vcns_loop_returns.
Qed.

Lemma rule_is_permissive_iff (rule : IngressSecurityRule.t) :
  rule_is_permissive rule = true <-> tested_permissive_rule rule.
Proof.
  unfold rule_is_permissive, tested_permissive_rule.
  rewrite andb_true_iff, String.eqb_eq.
  destruct (IngressSecurityRule.tcp_options rule) as [o|].
  - destruct (TcpOptions.destination_port_range o) as [r|] eqn:Er.
    + rewrite orb_true_iff, !Z.eqb_eq. split.
      * intros [Hs Hp]. split; [assumption|]. right. exists o, r. auto.
      * intros [Hs [Hn|[o' [r' [Ho [Hr Hp]]]]]]; [discriminate|].
        inversion Ho; subst o'. rewrite Er in Hr. inversion Hr; subst r'. auto.
    + split.
      * intros [_ Hf]. discriminate.
      * intros [_ [Hn|[o' [r' [Ho [Hr _]]]]]]; [discriminate|].
        inversion Ho; subst o'. rewrite Er in Hr. discriminate.
  - split; intros [Hs _]; auto.
Qed.

Lemma list_truthy_map_filter {X Y : Type} (f : X -> Y) (p : X -> bool) (xs : list X) :
  list_truthy (map f (filter p xs)) = true <-> exists x, In x xs /\ p x = true.
Proof.
  split.
  - intros H. destruct (filter p xs) as [|x ys] eqn:E; [discriminate|].
    exists x. apply filter_In. rewrite E. now left.
  - intros [x Hx]. apply filter_In in Hx.
    destruct (filter p xs); [contradiction | reflexivity].
Qed.

Lemma flags_security_list_iff (sec_list : SecurityList.t) :
  flags_security_list sec_list = true <->
  is_dev_test_resource (Some (SecurityList.tags sec_list)) = true /\
  SecurityList.lifecycle_state sec_list = "AVAILABLE" /\
  exists rule, In rule (SecurityList.ingress_security_rules sec_list) /\
               tested_permissive_rule rule.
Proof.
  unfold flags_security_list.
  rewrite !andb_true_iff, String.eqb_eq, permissive_rules_of_filter,
    list_truthy_map_filter.
  split.
  - intros [[Hd Ha] [rule [Hin Hp]]]. repeat split; try assumption.
    exists rule. split; [assumption | now apply rule_is_permissive_iff].
  - intros [Hd [Ha [rule [Hin Hp]]]]. repeat split; try assumption.
    exists rule. split; [assumption | now apply rule_is_permissive_iff].
Qed.

(** C1, as the code has it: when its calls answer, the scanner returns one
    finding for each flagged security list of each available network; a
    security list is flagged exactly when it has a dev/test tag, its status
    is AVAILABLE and one of its ingress rules has the source 0.0.0.0/0 and
    either no TCP options or a destination port range that starts at 22 or
    3389.  A flagged list with a single rule from 0.0.0.0/0 without TCP
    options has a rule count of 1; with the source 10.0.0.0/8 it is not
    flagged. *)
Theorem check_permissive_security_lists_spec :
  (forall self compartment_id vcns,
     list_vcns (cloud self) compartment_id = inr vcns ->
     security_lists_listed self compartment_id vcns ->
     outcome (check_permissive_security_lists self compartment_id tt) =
     inr (flat_map (vcn_findings self compartment_id) vcns))
  /\ (forall sec_list,
        flags_security_list sec_list = true <->
        is_dev_test_resource (Some (SecurityList.tags sec_list)) = true /\
        SecurityList.lifecycle_state sec_list = "AVAILABLE" /\
        exists rule, In rule (SecurityList.ingress_security_rules sec_list) /\
                     tested_permissive_rule rule)
  /\ (forall compartment_id vcn sec_list rule,
        SecurityList.ingress_security_rules sec_list = [rule] ->
        is_dev_test_resource (Some (SecurityList.tags sec_list)) = true ->
        SecurityList.lifecycle_state sec_list = "AVAILABLE" ->
        IngressSecurityRule.source rule = "0.0.0.0/0" ->
        IngressSecurityRule.tcp_options rule = None ->
        security_list_findings compartment_id vcn [sec_list] =
        [security_list_row compartment_id vcn sec_list ["TCP:ALL"]] /\
        dict_get "permissive_rules_count"
                 (security_list_row compartment_id vcn sec_list ["TCP:ALL"]) = PInt 1)
  /\ (forall compartment_id vcn sec_list rule,
        SecurityList.ingress_security_rules sec_list = [rule] ->
        IngressSecurityRule.source rule = "10.0.0.0/8" ->
        security_list_findings compartment_id vcn [sec_list] = []).
Proof.
  split; [|split; [|split]].
  - intros self cid vcns Hv Hl.
    now rewrite (check_permissive_security_lists_returns self cid vcns tt Hv Hl).
  - exact flags_security_list_iff.
  - intros cid vcn sl rule Hr Hd Ha Hs Ht. split; [|reflexivity].
    assert (Hp : permissive_rules_of sl = ["TCP:ALL"]).
    { rewrite permissive_rules_of_filter, Hr. cbn [filter].
      unfold rule_is_permissive. rewrite Hs, Ht. cbn.
      unfold rule_description. rewrite Ht. reflexivity. }
    unfold security_list_findings. cbn [filter]. unfold flags_security_list.
    rewrite Hd, Ha, Hp. cbn [andb String.eqb Ascii.eqb Bool.eqb list_truthy map].
    now rewrite Hp.
  - intros cid vcn sl rule Hr Hs.
    assert (Hp : permissive_rules_of sl = []).
    { rewrite permissive_rules_of_filter, Hr. cbn [filter].
      unfold rule_is_permissive. rewrite Hs. reflexivity. }
    unfold security_list_findings. cbn [filter]. unfold flags_security_list.
    rewrite Hp. cbn [list_truthy]. now rewrite andb_false_r.
Qed.

(** The scan of the inventory [WideOpen]. *)
Lemma check_permissive_security_lists_spec_witness :
  outcome (check_permissive_security_lists WideOpen.chef "ocid1.compartment.1" tt) =
  inr [security_list_row "ocid1.compartment.1" OpenSsh.vcn WideOpen.sec_list ["TCP:ALL"]].
Proof.
  destruct check_permissive_security_lists_spec as [Hscan [_ [Hone _]]].
  rewrite (Hscan WideOpen.chef "ocid1.compartment.1" [OpenSsh.vcn]).
  - cbn [flat_map]. unfold vcn_findings. cbn [Vcn.lifecycle_state OpenSsh.vcn].
    change (list_security_lists (cloud WideOpen.chef) "ocid1.compartment.1"
              (Vcn.id OpenSsh.vcn)) with (@inr string _ [WideOpen.sec_list]).
    destruct (Hone "ocid1.compartment.1" OpenSsh.vcn WideOpen.sec_list WideOpen.rule
                eq_refl eq_refl eq_refl eq_refl eq_refl) as [Hf _].
    cbn [String.eqb Ascii.eqb Bool.eqb]. rewrite Hf. reflexivity.
  - reflexivity.
  - intros vcn _ _. exists [WideOpen.sec_list]. reflexivity.
Defined.

(** C1 as stated fails on the inventory [OpenSsh]: its security list is
    flagged for a rule that lets the ports 22 to 65535 in, which neither has
    no port restriction nor is restricted to port 22 or to port 3389. *)
Lemma stated_flagged_counterexample :
  outcome (check_permissive_security_lists OpenSsh.chef "ocid1.compartment.1" tt) =
  inr [security_list_row "ocid1.compartment.1" OpenSsh.vcn OpenSsh.sec_list ["TCP:22"]]
  /\ ~ stated_flagged OpenSsh.sec_list.
Proof.
  split; [reflexivity|].
  intros [_ [_ [rule [Hin [_ Hp]]]]].
  simpl in Hin. destruct Hin as [<-|[]].
  destruct Hp as [Hn|[Hr|Hr]].
  - destruct Hn as [Hn _]. discriminate Hn.
  - destruct Hr as [o [r [Ho [Hr [_ Hmax]]]]].
    inversion Ho; subst o. inversion Hr; subst r. discriminate Hmax.
  - destruct Hr as [o [r [Ho [Hr [Hmin _]]]]].
    inversion Ho; subst o. inversion Hr; subst r. discriminate Hmin.
Qed.

(** A listed security list that the scanner flags has its finding in the
    result of the scan, when the listings answer. *)
Lemma flagged_security_list_found (self : Chef) (compartment_id : string)
    (vcns : list Vcn.t) (vcn : Vcn.t) (security_lists : list SecurityList.t)
    (sec_list : SecurityList.t) :
  list_vcns (cloud self) compartment_id = inr vcns ->
  security_lists_listed self compartment_id vcns ->
  In vcn vcns -> Vcn.lifecycle_state vcn = "AVAILABLE" ->
  list_security_lists (cloud self) compartment_id (Vcn.id vcn) = inr security_lists ->
  In sec_list security_lists ->
  flags_security_list sec_list = true ->
  exists findings,
    outcome (check_permissive_security_lists self compartment_id tt) = inr findings /\
    In (security_list_row compartment_id vcn sec_list (permissive_rules_of sec_list))
       findings.
Proof.
  intros Hv Hl Hvcn Hav Hs Hin Hf.
  exists (flat_map (vcn_findings self compartment_id) vcns). split.
  - now rewrite (check_permissive_security_lists_returns self compartment_id vcns tt Hv Hl).
  - apply in_flat_map. exists vcn. split; [assumption|].
    unfold vcn_findings. rewrite Hav, Hs. cbn [String.eqb Ascii.eqb Bool.eqb].
    unfold security_list_findings.
    apply (in_map (fun sl => security_list_row compartment_id vcn sl (permissive_rules_of sl))).
    apply filter_In. now split.
Qed.

(** C10: an ingress rule from 0.0.0.0/0 without TCP options is counted as
    permissive whatever its protocol, and it is written "TCP:ALL" in the
    rule descriptions of the finding.  When the listings answer, the
    scanner returns the finding of every listed dev/test, AVAILABLE security
    list of an AVAILABLE network that holds such a rule: the rule adds one
    to the count of the finding and the entry "TCP:ALL" to its
    descriptions, at the place of the rule among the matched rules. *)
Theorem absent_tcp_options_counted :
  forall (compartment_id : string) (vcn : Vcn.t) (sec_list : SecurityList.t)
         (before after : list IngressSecurityRule.t) (protocol : string),
    SecurityList.ingress_security_rules sec_list =
    app before (IngressSecurityRule.mk "0.0.0.0/0" protocol None :: after) ->
    let rule := IngressSecurityRule.mk "0.0.0.0/0" protocol None in
    let described rules := map rule_description (filter rule_is_permissive rules) in
    let finding : Finding :=
      [ ("security_list_name", PStr (SecurityList.display_name sec_list));
        ("vcn_name", PStr (Vcn.display_name vcn));
        ("lifecycle_state", PStr (SecurityList.lifecycle_state sec_list));
        ("permissive_rules_count",
         PInt (Z.of_nat (S (List.length (described before) +
                            List.length (described after)))));
        ("permissive_rules",
         PStr (join "; " (app (described before) ("TCP:ALL" :: described after))));
        ("compartment_id", PStr compartment_id);
        ("tags", PStr (format_tags (Some (SecurityList.tags sec_list))));
        ("resource_id", PStr (SecurityList.id sec_list)) ] in
    rule_is_permissive rule = true /\
    rule_description rule = "TCP:ALL" /\
    permissive_rules_of sec_list = app (described before) ("TCP:ALL" :: described after) /\
    security_list_row compartment_id vcn sec_list (permissive_rules_of sec_list) = finding /\
    (forall (self : Chef) (vcns : list Vcn.t) (security_lists : list SecurityList.t),
       list_vcns (cloud self) compartment_id = inr vcns ->
       security_lists_listed self compartment_id vcns ->
       In vcn vcns -> Vcn.lifecycle_state vcn = "AVAILABLE" ->
       list_security_lists (cloud self) compartment_id (Vcn.id vcn) = inr security_lists ->
       In sec_list security_lists ->
       is_dev_test_resource (Some (SecurityList.tags sec_list)) = true ->
       SecurityList.lifecycle_state sec_list = "AVAILABLE" ->
       exists findings,
         outcome (check_permissive_security_lists self compartment_id tt) = inr findings /\
         In finding findings).
Proof.
  intros cid vcn sl before after protocol Hr rule described finding.
  assert (Hp : permissive_rules_of sl =
               app (described before) ("TCP:ALL" :: described after)).
  { rewrite permissive_rules_of_filter, Hr, filter_app, map_app. reflexivity. }
  assert (Hrow : security_list_row cid vcn sl (permissive_rules_of sl) = finding).
  { unfold security_list_row, finding. rewrite Hp, length_app. simpl List.length.
    now rewrite Nat.add_succ_r. }
  split; [reflexivity|]. split; [reflexivity|]. split; [assumption|].
  split; [assumption|].
  intros self vcns sls Hv Hl Hvcn Hav Hs Hin Hd Ha. rewrite <- Hrow.
  apply (flagged_security_list_found self cid vcns vcn sls sl); try assumption.
  unfold flags_security_list. rewrite Hd, Ha, Hp.
  cbn [andb String.eqb Ascii.eqb Bool.eqb].
  destruct (described before); reflexivity.
Qed.

(** The scans of [WideOpen], whose list has a single UDP rule, and of
    [Mixed], whose list has an ICMP rule after an SSH rule. *)
Lemma absent_tcp_options_counted_witness :
  (exists findings,
     outcome (check_permissive_security_lists WideOpen.chef "ocid1.compartment.1" tt) =
     inr findings /\
     In (security_list_row "ocid1.compartment.1" OpenSsh.vcn WideOpen.sec_list ["TCP:ALL"])
        findings) /\
  (exists findings,
     outcome (check_permissive_security_lists Mixed.chef "ocid1.compartment.1" tt) =
     inr findings /\
     In (security_list_row "ocid1.compartment.1" OpenSsh.vcn Mixed.sec_list
                           ["TCP:22"; "TCP:ALL"])
        findings).
Proof.
  split.
  - destruct (absent_tcp_options_counted "ocid1.compartment.1" OpenSsh.vcn
                WideOpen.sec_list [] [] "17" eq_refl) as [_ [_ [_ [_ Hscan]]]].
    apply (Hscan WideOpen.chef [OpenSsh.vcn] [WideOpen.sec_list]);
      try reflexivity; try (now left).
    intros vcn _ _. exists [WideOpen.sec_list]. reflexivity.
  - destruct (absent_tcp_options_counted "ocid1.compartment.1" OpenSsh.vcn
                Mixed.sec_list [OpenSsh.rule] [] "1" eq_refl) as [_ [_ [_ [_ Hscan]]]].
    apply (Hscan Mixed.chef [OpenSsh.vcn] [Mixed.sec_list]);
      try reflexivity; try (now left).
    intros vcn _ _. exists [Mixed.sec_list]. reflexivity.
Defined.

(** ** Compute instances *)

Lemma check_compute_instances_shell {L : Type} (self : Chef) (compartment_id : string) :
  @check_compute_instances L self compartment_id =
  scanner_shell (([] : list Finding), ([] : list Finding))
    ("Checking compute instances in compartment: " ++ compartment_id)
    "Error checking compute instances: "
    (ListInstances compartment_id) (list_instances (cloud self) compartment_id)
    (fun instances =>
       for_each instances (fun instance =>
         if is_dev_test_resource (Some (Instance.tags instance)) &&
            py_in (Instance.lifecycle_state instance) ["RUNNING"; "STOPPED"]
         then
           (if negb (has_automation_tags (Some (Instance.tags instance)))
            then modify (fun l => (app (fst l) [instance_row compartment_id instance], snd l))
            else ret tt) ;;
           (if py_in (Instance.shape instance) oversized_compute_shapes
            then modify (fun l => (fst l, app (snd l) [instance_row compartment_id instance]))
            else ret tt)
         else ret tt)).
Proof. reflexivity. Qed.

Lemma fold_pair {X Y Z : Type} (f : X -> list Y -> list Y) (g : X -> list Z -> list Z)
    (xs : list X) (a : list Y) (b : list Z) :
  fold_left (fun l x => (f x (fst l), g x (snd l))) xs (a, b) =
  (fold_left (fun l x => f x l) xs a, fold_left (fun l x => g x l) xs b).
Proof.
  revert a b. induction xs as [|x xs IH]; intros a b; simpl; [reflexivity|].
  now rewrite IH.
Qed.

(** The single pass over the listing fills both lists and never raises. *)
Lemma instances_loop (compartment_id : string) (instances : list Instance.t)
    (l : list Finding * list Finding) :
  for_each instances (fun instance =>
    if is_dev_test_resource (Some (Instance.tags instance)) &&
       py_in (Instance.lifecycle_state instance) ["RUNNING"; "STOPPED"]
    then
      (if negb (has_automation_tags (Some (Instance.tags instance)))
       then modify (fun l => (app (fst l) [instance_row compartment_id instance], snd l))
       else ret tt) ;;
      (if py_in (Instance.shape instance) oversized_compute_shapes
       then modify (fun l => (fst l, app (snd l) [instance_row compartment_id instance]))
       else ret tt)
    else ret tt) l
  = (inr tt,
     (app (fst l)
          (map (instance_row compartment_id)
               (filter (fun i => eligible_instance i && lacks_automation i) instances)),
      app (snd l)
          (map (instance_row compartment_id)
               (filter (fun i => eligible_instance i && is_oversized i) instances))),
     []).
Proof.
  rewrite (for_each_returns _
             (fun i l' =>
                ((fun i m => if eligible_instance i && lacks_automation i
                             then app m [instance_row compartment_id i] else m)
                   i (fst l'),
                 (fun i o => if eligible_instance i && is_oversized i
                             then app o [instance_row compartment_id i] else o)
                   i (snd l')))
             (fun _ => [])).
  - destruct l as [m o].
    rewrite (fold_pair
               (fun i m => if eligible_instance i && lacks_automation i
                           then app m [instance_row compartment_id i] else m)
               (fun i o => if eligible_instance i && is_oversized i
                           then app o [instance_row compartment_id i] else o)).
    rewrite !fold_append_filter. cbn [fst snd]. f_equal.
    induction instances; simpl; auto.
  - intros i [m o] _. unfold eligible_instance, lacks_automation, is_oversized.
    destruct (is_dev_test_resource _ && py_in _ _); cbn [andb fst snd];
      [|reflexivity].
    destruct (negb _); destruct (py_in _ oversized_compute_shapes); reflexivity.
Qed.

Lemma check_compute_instances_returns {L : Type} (self : Chef) (compartment_id : string)
    (instances : list Instance.t) (l : L) :
  list_instances (cloud self) compartment_id = inr instances ->
  check_compute_instances self compartment_id l =
  (inr (map (instance_row compartment_id)
            (filter (fun i => eligible_instance i && lacks_automation i) instances),
        map (instance_row compartment_id)
            (filter (fun i => eligible_instance i && is_oversized i) instances)),
   l,
   [Logged INFO ("Checking compute instances in compartment: " ++ compartment_id);
    Called (ListInstances compartment_id)]).
Proof.
  intros Hl. rewrite check_compute_instances_shell.
  apply (scanner_shell_returns _ _ _ _ _ _ instances); [assumption|].
  now rewrite instances_loop.
Qed.

Lemma check_compute_instances_listing_fails {L : Type} (self : Chef)
    (compartment_id msg : string) (l : L) :
  list_instances (cloud self) compartment_id = inl msg ->
  check_compute_instances self compartment_id l =
  (inr ([], []), l,
   [Logged INFO ("Checking compute instances in compartment: " ++ compartment_id);
    Called (ListInstances compartment_id);
    Logged WARNING ("Error checking compute instances: " ++ msg)]).
Proof.
  intros Hl. rewrite check_compute_instances_shell.
  now apply scanner_shell_listing_fails.
Qed.

(** C4, as the code has it: the instances of a compartment are listed
    once; of the [N] listed instances, those counted are the ones with a
    dev/test tag and the status RUNNING or STOPPED: if [K] of these lack
    every automation tag key and [M] of these have an oversized shape, the
    automation-gap list has [K] entries and the oversized list has [M]. *)
Theorem check_compute_instances_spec :
  forall (self : Chef) (compartment_id : string) (instances : list Instance.t),
    list_instances (cloud self) compartment_id = inr instances ->
    exists missing_automation oversized_instances,
      outcome (check_compute_instances self compartment_id tt) =
      inr (missing_automation, oversized_instances) /\
      List.length missing_automation =
      count (fun i => eligible_instance i && lacks_automation i) instances /\
      List.length oversized_instances =
      count (fun i => eligible_instance i && is_oversized i) instances /\
      missing_automation =
      map (instance_row compartment_id)
          (filter (fun i => eligible_instance i && lacks_automation i) instances) /\
      oversized_instances =
      map (instance_row compartment_id)
          (filter (fun i => eligible_instance i && is_oversized i) instances) /\
      list_instances_calls compartment_id
        (events (check_compute_instances self compartment_id tt)) = 1.
Proof.
  intros self cid instances Hl.
  rewrite (check_compute_instances_returns self cid instances tt Hl).
  eexists. eexists. split; [reflexivity|].
  unfold count. rewrite !length_map. repeat split.
  unfold list_instances_calls, count, events. cbn [snd filter].
  now rewrite String.eqb_refl.
Qed.

(** The scan of [Fleet]: two automation gaps, two oversized instances. *)
Lemma check_compute_instances_spec_witness :
  exists missing_automation oversized_instances,
    outcome (check_compute_instances Fleet.chef "ocid1.compartment.1" tt) =
    inr (missing_automation, oversized_instances) /\
    List.length missing_automation = 2 /\
    List.length oversized_instances = 2 /\
    list_instances_calls "ocid1.compartment.1"
      (events (check_compute_instances Fleet.chef "ocid1.compartment.1" tt)) = 1.
Proof.
  destruct (check_compute_instances_spec Fleet.chef "ocid1.compartment.1"
              [Fleet.big; Fleet.small; Fleet.big_scheduled; Fleet.gone] eq_refl)
    as [m [o [Ho [Hm [Hov [_ [_ Hc]]]]]]].
  exists m, o. repeat split; assumption.
Defined.

(** C4 as stated fails on [Untagged]: its one instance lacks every
    automation tag key and has an oversized shape, so K = M = 1, but it has
    no dev/test tag and both lists are empty. *)
Lemma untagged_instance_counterexample :
  list_instances (cloud Untagged.chef) "ocid1.compartment.1" = inr [Untagged.instance] /\
  count lacks_automation [Untagged.instance] = 1 /\
  count is_oversized [Untagged.instance] = 1 /\
  outcome (check_compute_instances Untagged.chef "ocid1.compartment.1" tt) =
  inr ([], []) /\
  List.length
    (fst (returned (check_compute_instances Untagged.chef "ocid1.compartment.1") ([], [])))
  <> count lacks_automation [Untagged.instance] /\
  List.length
    (snd (returned (check_compute_instances Untagged.chef "ocid1.compartment.1") ([], [])))
  <> count is_oversized [Untagged.instance].
Proof.
  split; [reflexivity|]. split; [reflexivity|]. split; [reflexivity|].
  split; [reflexivity|]. split; discriminate.
Qed.

(** ** Scanners with a secondary call per resource *)

Section SecondaryLoop.
Context {X D : Type}.
Variables (guard : X -> bool) (c : X -> ApiCall) (answer : X -> Answer D).
Variables (keep : X -> D -> bool) (row : X -> Finding).

Lemma secondary_body_returns (x : X) (results : list Finding) :
  (guard x = true -> exists d, answer x = inr d) ->
  secondary_body guard c answer keep row x results =
  (inr tt, app results (secondary_findings guard answer keep row x),
   secondary_calls guard c x).
Proof.
  intros Ha. unfold secondary_body, secondary_findings, secondary_calls.
  destruct (guard x).
  - destruct (Ha eq_refl) as [d Hd]. unfold bind, api. rewrite Hd.
    destruct (keep x d); simpl; [reflexivity | now rewrite app_nil_r].
  - unfold ret. now rewrite app_nil_r.
Qed.

Lemma secondary_body_raises (x : X) (results : list Finding) (msg : string) :
  guard x = true -> answer x = inl msg ->
  secondary_body guard c answer keep row x results =
  (inl (Exception msg), results, [Called (c x)]).
Proof.
  intros Hg Ha. unfold secondary_body, bind, api. now rewrite Hg, Ha.
Qed.

Lemma secondary_loop_returns (xs : list X) (results : list Finding) :
  secondary_answered guard answer xs ->
  for_each xs (secondary_body guard c answer keep row) results =
  (inr tt, app results (flat_map (secondary_findings guard answer keep row) xs),
   flat_map (secondary_calls guard c) xs).
Proof.
  intros Ha.
  rewrite (for_each_returns _
             (fun x results' => app results' (secondary_findings guard answer keep row x))
             (secondary_calls guard c)).
  - now rewrite fold_append_flat.
  - intros x l' Hin. apply secondary_body_returns. now apply Ha.
Qed.

(** The loop stops at the first resource whose secondary call raises: the
    resources after it are not looked at. *)
Lemma secondary_loop_raises (before after : list X) (x : X) (results : list Finding)
    (msg : string) :
  secondary_answered guard answer before ->
  guard x = true -> answer x = inl msg ->
  for_each (app before (x :: after)) (secondary_body guard c answer keep row) results =
  (inl (Exception msg),
   app results (flat_map (secondary_findings guard answer keep row) before),
   app (flat_map (secondary_calls guard c) before) [Called (c x)]).
Proof.
  intros Ha Hg Hx.
  rewrite (for_each_raises _
             (fun x results' => app results' (secondary_findings guard answer keep row x))
             (secondary_calls guard c) before after x results
             (app results (flat_map (secondary_findings guard answer keep row) before))
             (Exception msg) [Called (c x)]).
  - reflexivity.
  - intros x' l' Hin. apply secondary_body_returns. now apply Ha.
  - rewrite fold_append_flat. now apply secondary_body_raises.
Qed.

End SecondaryLoop.

Lemma check_unattached_volumes_shell {L : Type} (self : Chef) (compartment_id : string) :
  @check_unattached_volumes L self compartment_id =
  scanner_shell ([] : list Finding)
    ("Checking block volumes in compartment: " ++ compartment_id)
    "Error checking block volumes: "
    (ListVolumes compartment_id) (list_volumes (cloud self) compartment_id)
    (fun volumes =>
       for_each volumes
         (secondary_body eligible_volume
            (fun volume => ListVolumeAttachments compartment_id (Volume.id volume))
            (volume_attachments self compartment_id) unattached
            (volume_row compartment_id))).
Proof. reflexivity. Qed.

Lemma check_empty_load_balancers_shell {L : Type} (self : Chef) (compartment_id : string) :
  @check_empty_load_balancers L self compartment_id =
  scanner_shell ([] : list Finding)
    ("Checking load balancers in compartment: " ++ compartment_id)
    "Error checking load balancers: "
    (ListLoadBalancers compartment_id) (list_load_balancers (cloud self) compartment_id)
    (fun load_balancers =>
       for_each load_balancers
         (secondary_body eligible_load_balancer
            (fun lb => GetLoadBalancer (LoadBalancer.id lb))
            (load_balancer_details self) without_backends
            (load_balancer_row compartment_id))).
Proof. reflexivity. Qed.

Lemma check_unattached_volumes_returns {L : Type} (self : Chef) (compartment_id : string)
    (volumes : list Volume.t) (l : L) :
  list_volumes (cloud self) compartment_id = inr volumes ->
  secondary_answered eligible_volume (volume_attachments self compartment_id) volumes ->
  check_unattached_volumes self compartment_id l =
  (inr (flat_map (volume_findings self compartment_id) volumes), l,
   Logged INFO ("Checking block volumes in compartment: " ++ compartment_id)
   :: Called (ListVolumes compartment_id)
   :: flat_map (volume_calls compartment_id) volumes).
Proof.
  intros Hl Ha. rewrite check_unattached_volumes_shell.
  apply (scanner_shell_returns _ _ _ _ _ _ volumes); [assumption|].
  now rewrite secondary_loop_returns.
Qed.

Lemma check_unattached_volumes_stops {L : Type} (self : Chef) (compartment_id : string)
    (before after : list Volume.t) (volume : Volume.t) (msg : string) (l : L) :
  list_volumes (cloud self) compartment_id = inr (app before (volume :: after)) ->
  secondary_answered eligible_volume (volume_attachments self compartment_id) before ->
  eligible_volume volume = true ->
  volume_attachments self compartment_id volume = inl msg ->
  check_unattached_volumes self compartment_id l =
  (inr (flat_map (volume_findings self compartment_id) before), l,
   Logged INFO ("Checking block volumes in compartment: " ++ compartment_id)
   :: Called (ListVolumes compartment_id)
   :: app (app (flat_map (volume_calls compartment_id) before)
               [Called (ListVolumeAttachments compartment_id (Volume.id volume))])
          [Logged WARNING ("Error checking block volumes: " ++ msg)]).
Proof.
  intros Hl Ha Hg Hx. rewrite check_unattached_volumes_shell.
  apply (scanner_shell_loop_raises _ _ _ _ _ _ (app before (volume :: after)));
    [assumption|].
  now rewrite (secondary_loop_raises _ _ _ _ _ before after volume [] msg Ha Hg Hx).
Qed.

Lemma check_empty_load_balancers_returns {L : Type} (self : Chef)
    (compartment_id : string) (load_balancers : list LoadBalancer.t) (l : L) :
  list_load_balancers (cloud self) compartment_id = inr load_balancers ->
  secondary_answered eligible_load_balancer (load_balancer_details self) load_balancers ->
  check_empty_load_balancers self compartment_id l =
  (inr (flat_map (load_balancer_findings self compartment_id) load_balancers), l,
   Logged INFO ("Checking load balancers in compartment: " ++ compartment_id)
   :: Called (ListLoadBalancers compartment_id)
   :: flat_map load_balancer_calls load_balancers).
Proof.
  intros Hl Ha. rewrite check_empty_load_balancers_shell.
  apply (scanner_shell_returns _ _ _ _ _ _ load_balancers); [assumption|].
  now rewrite secondary_loop_returns.
Qed.

Lemma check_empty_load_balancers_stops {L : Type} (self : Chef) (compartment_id : string)
    (before after : list LoadBalancer.t) (lb : LoadBalancer.t) (msg : string) (l : L) :
  list_load_balancers (cloud self) compartment_id = inr (app before (lb :: after)) ->
  secondary_answered eligible_load_balancer (load_balancer_details self) before ->
  eligible_load_balancer lb = true ->
  load_balancer_details self lb = inl msg ->
  check_empty_load_balancers self compartment_id l =
  (inr (flat_map (load_balancer_findings self compartment_id) before), l,
   Logged INFO ("Checking load balancers in compartment: " ++ compartment_id)
   :: Called (ListLoadBalancers compartment_id)
   :: app (app (flat_map load_balancer_calls before)
               [Called (GetLoadBalancer (LoadBalancer.id lb))])
          [Logged WARNING ("Error checking load balancers: " ++ msg)]).
Proof.
  intros Hl Ha Hg Hx. rewrite check_empty_load_balancers_shell.
  apply (scanner_shell_loop_raises _ _ _ _ _ _ (app before (lb :: after)));
    [assumption|].
  now rewrite (secondary_loop_raises _ _ _ _ _ before after lb [] msg Ha Hg Hx).
Qed.

Lemma check_permissive_security_lists_stops {L : Type} (self : Chef)
    (compartment_id : string) (before after : list Vcn.t) (vcn : Vcn.t)
    (msg : string) (l : L) :
  list_vcns (cloud self) compartment_id = inr (app before (vcn :: after)) ->
  security_lists_listed self compartment_id before ->
  Vcn.lifecycle_state vcn = "AVAILABLE" ->
  list_security_lists (cloud self) compartment_id (Vcn.id vcn) = inl msg ->
  check_permissive_security_lists self compartment_id l =
  (inr (flat_map (vcn_findings self compartment_id) before), l,
   Logged INFO ("Checking security lists in compartment: " ++ compartment_id)
   :: Called (ListVcns compartment_id)
   :: app (app (flat_map (vcn_calls compartment_id) before)
               [Called (ListSecurityLists compartment_id (Vcn.id vcn))])
          [Logged WARNING ("Error checking security lists: " ++ msg)]).
Proof.
  intros Hl Ha Hg Hx. rewrite check_permissive_security_lists_shell.
  apply (scanner_shell_loop_raises _ _ _ _ _ _ (app before (vcn :: after)));
    [assumption|].
  rewrite (for_each_raises _
             (fun vcn results => app results (vcn_findings self compartment_id vcn))
             (vcn_calls compartment_id) before after vcn []
             (flat_map (vcn_findings self compartment_id) before)
             (Exception msg)
             [Called (ListSecurityLists compartment_id (Vcn.id vcn))]).
  - reflexivity.
  - intros vcn' l' Hin. apply vcn_body_returns. intros Hav. now apply Ha.
  - rewrite fold_append_flat. now apply vcn_body_raises.
Qed.

(** C2, as the code has it: in the volume, load-balancer and security-list
    scanners, when the secondary call of one resource raises, the scanner
    logs a warning and stops: it returns the findings of the resources
    listed before that one and makes no call for the resources listed after
    it. *)
Theorem secondary_failure_stops_scan :
  (forall self compartment_id before volume after msg,
     list_volumes (cloud self) compartment_id = inr (app before (volume :: after)) ->
     secondary_answered eligible_volume (volume_attachments self compartment_id) before ->
     eligible_volume volume = true ->
     volume_attachments self compartment_id volume = inl msg ->
     check_unattached_volumes self compartment_id tt =
     (inr (flat_map (volume_findings self compartment_id) before), tt,
      Logged INFO ("Checking block volumes in compartment: " ++ compartment_id)
      :: Called (ListVolumes compartment_id)
      :: app (app (flat_map (volume_calls compartment_id) before)
                  [Called (ListVolumeAttachments compartment_id (Volume.id volume))])
             [Logged WARNING ("Error checking block volumes: " ++ msg)]))
  /\ (forall self compartment_id before lb after msg,
        list_load_balancers (cloud self) compartment_id = inr (app before (lb :: after)) ->
        secondary_answered eligible_load_balancer (load_balancer_details self) before ->
        eligible_load_balancer lb = true ->
        load_balancer_details self lb = inl msg ->
        check_empty_load_balancers self compartment_id tt =
        (inr (flat_map (load_balancer_findings self compartment_id) before), tt,
         Logged INFO ("Checking load balancers in compartment: " ++ compartment_id)
         :: Called (ListLoadBalancers compartment_id)
         :: app (app (flat_map load_balancer_calls before)
                     [Called (GetLoadBalancer (LoadBalancer.id lb))])
                [Logged WARNING ("Error checking load balancers: " ++ msg)]))
  /\ (forall self compartment_id before vcn after msg,
        list_vcns (cloud self) compartment_id = inr (app before (vcn :: after)) ->
        security_lists_listed self compartment_id before ->
        Vcn.lifecycle_state vcn = "AVAILABLE" ->
        list_security_lists (cloud self) compartment_id (Vcn.id vcn) = inl msg ->
        check_permissive_security_lists self compartment_id tt =
        (inr (flat_map (vcn_findings self compartment_id) before), tt,
         Logged INFO ("Checking security lists in compartment: " ++ compartment_id)
         :: Called (ListVcns compartment_id)
         :: app (app (flat_map (vcn_calls compartment_id) before)
                     [Called (ListSecurityLists compartment_id (Vcn.id vcn))])
                [Logged WARNING ("Error checking security lists: " ++ msg)])).
Proof.
  split; [|split].
  - intros. now apply check_unattached_volumes_stops with (after := after).
  - intros. now apply check_empty_load_balancers_stops with (after := after).
  - intros. now apply check_permissive_security_lists_stops with (after := after).
Qed.

(** In [Flaky.chef'] the lookup of the second listed volume times out: the
    finding of the first listed volume is returned. *)
Lemma secondary_failure_stops_scan_witness :
  outcome (check_unattached_volumes Flaky.chef' "ocid1.compartment.1" tt) =
  inr [volume_row "ocid1.compartment.1" Flaky.second].
Proof.
  destruct secondary_failure_stops_scan as [Hvol _].
  rewrite (Hvol Flaky.chef' "ocid1.compartment.1" [Flaky.second] Flaky.first []
             "timed out").
  - reflexivity.
  - reflexivity.
  - intros v [<-|[]] _. exists []. reflexivity.
  - reflexivity.
  - reflexivity.
Defined.

(** C2 as stated fails on [Flaky.chef]: the attachment lookup of the first
    volume raises; the second volume is dev-tagged, available and
    unattached, yet the scanner returns no finding for it. *)
Lemma remaining_volumes_counterexample :
  list_volumes (cloud Flaky.chef) "ocid1.compartment.1" = inr [Flaky.first; Flaky.second] /\
  volume_attachments Flaky.chef "ocid1.compartment.1" Flaky.first = inl "timed out" /\
  eligible_volume Flaky.second = true /\
  volume_attachments Flaky.chef "ocid1.compartment.1" Flaky.second = inr [] /\
  outcome (check_unattached_volumes Flaky.chef "ocid1.compartment.1" tt) = inr [] /\
  events (check_unattached_volumes Flaky.chef "ocid1.compartment.1" tt) =
  [Logged INFO "Checking block volumes in compartment: ocid1.compartment.1";
   Called (ListVolumes "ocid1.compartment.1");
   Called (ListVolumeAttachments "ocid1.compartment.1" "ocid1.volume.1");
   Logged WARNING "Error checking block volumes: timed out"] /\
  ~ In (volume_row "ocid1.compartment.1" Flaky.second)
       (returned (check_unattached_volumes Flaky.chef "ocid1.compartment.1") []).
Proof.
  split; [reflexivity|]. split; [reflexivity|]. split; [reflexivity|].
  split; [reflexivity|]. split; [reflexivity|]. split; [reflexivity|].
  intros H. exact H.
Qed.

(** ** Contracts of the scanners *)

Lemma triple_pure {L A : Type} (Ev : Event -> Prop) (fact : Prop) (P : L -> Prop)
    (m : M L A) (Q : A -> L -> Prop) (E : Exn -> L -> Prop) :
  (fact -> triple P m Q E Ev) ->
  triple (fun l => fact /\ P l) m Q E Ev.
Proof. intros H l [Hf Hl]. now apply H. Qed.

Lemma triple_append_if {X : Type} (Ev : Event -> Prop) (J : X -> Prop) (b : bool)
    (row : X) (E : Exn -> list X -> Prop) :
  (b = true -> J row) ->
  triple (Forall J) (if b then append row else ret tt) (fun _ => Forall J) E Ev.
Proof.
  intros Hrow. destruct b.
  - apply triple_modify. intros l Hl. apply Forall_app. split; [assumption|].
    constructor; [now apply Hrow | constructor].
  - now apply triple_ret.
Qed.

(** A scanner built on [scanner_shell] never raises, leaves the locals of
    its caller alone, and returns locals that satisfy the invariant of its
    loop. *)
Lemma triple_scanner_shell {L S X : Type} (P : L -> Prop) (I : S -> Prop) (init : S)
    (info warn : string) (c : ApiCall) (answer : Answer (list X))
    (loop : list X -> M S unit) :
  I init ->
  (forall xs, answer = inr xs ->
     triple I (loop xs) (fun _ => I) (fun e l => is_exception e /\ I l) scan_event) ->
  triple P (scanner_shell init info warn c answer loop)
         (fun res l => I res /\ P l) (fun _ _ => False) scan_event.
Proof.
  intros Hinit Hloop. unfold scanner_shell.
  apply (triple_frame scan_event P init _ I (fun res _ => I res) (fun _ _ => False));
    [assumption | | auto | contradiction].
  apply (triple_bind scan_event I _ _ (fun _ => I)).
  - apply (triple_try_except scan_event I _ _ (fun _ => I)
             (fun e l => is_exception e /\ I l)).
    + apply (triple_bind scan_event I _ _ (fun _ => I)).
      * apply triple_emit; [exact Logic.I | auto].
      * intros _.
        apply (triple_bind scan_event I _ _ (fun xs l => answer = inr xs /\ I l)).
        -- apply triple_api; [exact Logic.I | auto |].
           intros msg l _ Hl. split; [now exists msg | assumption].
        -- intros xs. apply triple_pure. intros Hxs. now apply Hloop.
    + intros msg. apply triple_emit; [exact Logic.I | now intros l [_ Hl]].
    + intros code l [[msg Hmsg] _]. discriminate Hmsg.
  - intros _. apply triple_get_locals. auto.
Qed.

Lemma eligible_volume_true (volume : Volume.t) :
  eligible_volume volume = true ->
  is_dev_test_resource (Some (Volume.tags volume)) = true /\
  Volume.lifecycle_state volume = "AVAILABLE".
Proof.
  unfold eligible_volume. rewrite andb_true_iff, String.eqb_eq. auto.
Qed.

Lemma eligible_load_balancer_true (lb : LoadBalancer.t) :
  eligible_load_balancer lb = true ->
  is_dev_test_resource (Some (LoadBalancer.tags lb)) = true /\
  LoadBalancer.lifecycle_state lb = "ACTIVE".
Proof.
  unfold eligible_load_balancer. rewrite andb_true_iff, String.eqb_eq. auto.
Qed.

Lemma unattached_true (volume : Volume.t) (attachments : list VolumeAttachment.t) :
  unattached volume attachments = true -> attachments = [].
Proof. destruct attachments; [reflexivity | discriminate]. Qed.

Lemma without_backends_true (lb lb_details : LoadBalancer.t) :
  without_backends lb lb_details = true -> no_backends lb_details.
Proof.
  unfold without_backends, has_backends, no_backends.
  rewrite guarded_existsb, negb_true_iff.
  intros Hn name bs Hin.
  destruct (BackendSet.backends bs) eqn:Eb; [reflexivity|].
  assert (Ht : existsb (fun kv => list_truthy (BackendSet.backends (snd kv)))
                       (items (LoadBalancer.backend_sets lb_details)) = true).
  { apply existsb_exists. exists (name, bs). split; [assumption|].
    simpl. now rewrite Eb. }
  rewrite Ht in Hn. discriminate.
Qed.

(** The loop of a scanner with a secondary call keeps every invariant
    [Forall J] whose [J] holds of the rows it appends. *)
Lemma triple_secondary_loop {X D : Type} (J : Finding -> Prop) (guard : X -> bool)
    (c : X -> ApiCall) (answer : X -> Answer D) (keep : X -> D -> bool)
    (row : X -> Finding) (xs : list X) :
  (forall x d, In x xs -> guard x = true -> answer x = inr d -> keep x d = true ->
               J (row x)) ->
  triple (Forall J) (for_each xs (secondary_body guard c answer keep row))
         (fun _ => Forall J) (fun e l => is_exception e /\ Forall J l) scan_event.
Proof.
  intros Hrow. apply triple_for_each. intros x Hin. unfold secondary_body.
  destruct (guard x) eqn:Eg; [|now apply triple_ret].
  apply (triple_bind scan_event _ _ _ (fun d l => answer x = inr d /\ Forall J l)).
  - apply triple_api; [exact Logic.I | auto |].
    intros msg l _ Hl. split; [now exists msg | assumption].
  - intros d. apply triple_pure. intros Hd. apply triple_append_if.
    intros Hk. now apply (Hrow x d).
Qed.

Lemma check_unattached_volumes_contract {L : Type} (P : L -> Prop) (self : Chef)
    (compartment_id : string) :
  triple P (check_unattached_volumes self compartment_id)
         (fun res l => Forall (justified_volume self compartment_id) res /\ P l)
         (fun _ _ => False) scan_event.
Proof.
  rewrite check_unattached_volumes_shell.
  apply triple_scanner_shell; [constructor|].
  intros volumes Hl. apply triple_secondary_loop.
  intros volume attachments Hin Hg Ha Hk.
  apply eligible_volume_true in Hg. destruct Hg as [Hd Hs].
  apply unattached_true in Hk. subst attachments.
  exists volumes, volume. repeat split; assumption.
Qed.

Lemma check_empty_load_balancers_contract {L : Type} (P : L -> Prop) (self : Chef)
    (compartment_id : string) :
  triple P (check_empty_load_balancers self compartment_id)
         (fun res l => Forall (justified_load_balancer self compartment_id) res /\ P l)
         (fun _ _ => False) scan_event.
Proof.
  rewrite check_empty_load_balancers_shell.
  apply triple_scanner_shell; [constructor|].
  intros lbs Hl. apply triple_secondary_loop.
  intros lb details Hin Hg Ha Hk.
  apply eligible_load_balancer_true in Hg. destruct Hg as [Hd Hs].
  apply without_backends_true in Hk.
  exists lbs, lb, details. repeat split; assumption.
Qed.

Lemma check_permissive_security_lists_contract {L : Type} (P : L -> Prop) (self : Chef)
    (compartment_id : string) :
  triple P (check_permissive_security_lists self compartment_id)
         (fun res l => Forall (justified_security_list self compartment_id) res /\ P l)
         (fun _ _ => False) scan_event.
Proof.
  rewrite check_permissive_security_lists_shell.
  apply triple_scanner_shell; [constructor|].
  intros vcns Hl. apply triple_for_each. intros vcn Hin. unfold vcn_body.
  destruct (Vcn.lifecycle_state vcn =? "AVAILABLE") eqn:Ea; [|now apply triple_ret].
  apply String.eqb_eq in Ea.
  apply (triple_bind scan_event _ _ _
           (fun sls l => list_security_lists (cloud self) compartment_id (Vcn.id vcn)
                         = inr sls /\
                         Forall (justified_security_list self compartment_id) l)).
  - apply triple_api; [exact Logic.I | auto |].
    intros msg l _ Hl'. split; [now exists msg | assumption].
  - intros sls. apply triple_pure. intros Hsls. apply triple_for_each.
    intros sl Hsl.
    destruct (is_dev_test_resource (Some (SecurityList.tags sl)) &&
              (SecurityList.lifecycle_state sl =? "AVAILABLE")) eqn:Eg;
      [|now apply triple_ret].
    cbv zeta. apply triple_append_if. intros Ht.
    assert (Hf : flags_security_list sl = true).
    { unfold flags_security_list. now rewrite Eg, Ht. }
    apply flags_security_list_iff in Hf. destruct Hf as [Hd [Hs Hr]].
    exists vcns, vcn, sls, sl. repeat split; assumption.
Qed.

Lemma check_unused_public_ips_shell {L : Type} (self : Chef) (compartment_id : string) :
  @check_unused_public_ips L self compartment_id =
  scanner_shell ([] : list Finding)
    ("Checking public IPs in compartment: " ++ compartment_id)
    "Error checking public IPs: "
    (ListPublicIps compartment_id) (list_public_ips (cloud self) compartment_id)
    (fun public_ips =>
       for_each public_ips (fun public_ip =>
         if is_dev_test_resource (Some (PublicIp.tags public_ip)) &&
            String.eqb (PublicIp.lifecycle_state public_ip) "AVAILABLE" &&
            negb (str_truthy (PublicIp.assigned_entity_id public_ip))
         then append (public_ip_row compartment_id public_ip)
         else ret tt)).
Proof. reflexivity. Qed.

Lemma check_unused_public_ips_contract {L : Type} (P : L -> Prop) (self : Chef)
    (compartment_id : string) :
  triple P (check_unused_public_ips self compartment_id)
         (fun res l => Forall (justified_public_ip self compartment_id) res /\ P l)
         (fun _ _ => False) scan_event.
Proof.
  rewrite check_unused_public_ips_shell.
  apply triple_scanner_shell; [constructor|].
  intros ips Hl. apply triple_for_each. intros ip Hin.
  apply triple_append_if. rewrite !andb_true_iff, String.eqb_eq, negb_true_iff.
  intros [[Hd Hs] Hn]. exists ips, ip. repeat split; try assumption.
  destruct (PublicIp.assigned_entity_id ip) as [[|ch s]|]; auto. discriminate Hn.
Qed.

Lemma eligible_instance_listed (self : Chef) (compartment_id : string)
    (instances : list Instance.t) (instance : Instance.t) :
  list_instances (cloud self) compartment_id = inr instances ->
  In instance instances ->
  eligible_instance instance = true ->
  listed_instance self compartment_id instance.
Proof.
  intros Hl Hin. unfold eligible_instance. rewrite andb_true_iff, py_in_In.
  intros [Hd Hs]. exists instances. repeat split; try assumption.
  simpl in Hs. destruct Hs as [Hs|[Hs|[]]]; auto.
Qed.

Lemma check_compute_instances_contract {L : Type} (P : L -> Prop) (self : Chef)
    (compartment_id : string) :
  triple P (check_compute_instances self compartment_id)
         (fun res l =>
            (Forall (justified_missing_automation self compartment_id) (fst res) /\
             Forall (justified_oversized self compartment_id) (snd res)) /\ P l)
         (fun _ _ => False) scan_event.
Proof.
  rewrite check_compute_instances_shell.
  apply (triple_scanner_shell P
           (fun res => Forall (justified_missing_automation self compartment_id) (fst res) /\
                       Forall (justified_oversized self compartment_id) (snd res)));
    [split; constructor|].
  intros instances Hl. apply triple_for_each. intros i Hin.
  destruct (is_dev_test_resource (Some (Instance.tags i)) &&
            py_in (Instance.lifecycle_state i) ["RUNNING"; "STOPPED"]) eqn:Eg;
    [|now apply triple_ret].
  pose proof (eligible_instance_listed self compartment_id instances i Hl Hin Eg) as Hi.
  apply (triple_bind scan_event _ _ _
           (fun _ res =>
              Forall (justified_missing_automation self compartment_id) (fst res) /\
              Forall (justified_oversized self compartment_id) (snd res))).
  - destruct (negb (has_automation_tags (Some (Instance.tags i)))) eqn:Ea.
    + apply triple_modify. intros [m o] [Hm Ho]. cbn [fst snd]. split; [|exact Ho].
      apply Forall_app. split; [assumption|]. constructor; [|constructor].
      exists i. apply negb_true_iff in Ea. auto.
    + apply triple_ret. intros l Hl'. exact Hl'.
  - intros u.
    destruct (py_in (Instance.shape i) oversized_compute_shapes) eqn:Eo.
    + apply triple_modify. intros [m o] [Hm Ho]. cbn [fst snd]. split; [exact Hm|].
      apply Forall_app. split; [assumption|]. constructor; [|constructor].
      exists i. apply py_in_In in Eo. auto.
    + apply triple_ret. intros l Hl'. exact Hl'.
Qed.

Lemma triple_py_ge_int {L : Type} (P : L -> Prop) (v : PyVal) (n : Z) :
  triple P (py_ge_int v n)
         (fun b l => P l /\ (b = true -> exists z, v = PInt z /\ (n <= z)%Z))
         (fun e l => is_exception e /\ P l) scan_event.
Proof.
  destruct v as [s|z|]; simpl.
  - apply triple_raise. intros l Hl. split; [eexists; reflexivity | assumption].
  - apply triple_ret. intros l Hl. split; [assumption|].
    intros Hb. exists z. split; [reflexivity | now apply Z.leb_le].
  - apply triple_raise. intros l Hl. split; [eexists; reflexivity | assumption].
Qed.

Lemma check_database_instances_contract {L : Type} (P : L -> Prop) (self : Chef)
    (compartment_id : string) :
  triple P (check_database_instances self compartment_id)
         (fun res l => Forall (justified_database self compartment_id) res /\ P l)
         (fun _ _ => False) scan_event.
Proof.
  set (J := justified_database self compartment_id).
  unfold check_database_instances.
  apply (triple_frame scan_event P [] _ (Forall J) (fun res _ => Forall J res)
           (fun _ _ => False)); [constructor | | auto | contradiction].
  apply (triple_bind scan_event _ _ _ (fun _ => Forall J));
    [|intros u; apply triple_get_locals; auto].
  apply (triple_try_except scan_event _ _ _ (fun _ => Forall J)
           (fun e l => is_exception e /\ Forall J l)).
  2: { intros msg. apply triple_emit; [exact Logic.I | now intros l [_ Hl]]. }
  2: { intros code l [[msg Hmsg] _]. discriminate Hmsg. }
  apply (triple_bind scan_event _ _ _ (fun _ => Forall J));
    [apply triple_emit; [exact Logic.I | auto]|].
  intros u.
  apply (triple_bind scan_event _ _ _
           (fun dbs l => list_db_systems (cloud self) compartment_id = inr dbs /\
                         Forall J l)).
  { apply triple_api; [exact Logic.I | auto |].
    intros msg l _ Hl. split; [now exists msg | assumption]. }
  intros dbs. apply triple_pure. intros Hdbs.
  apply (triple_bind scan_event _ _ _ (fun _ => Forall J)).
  { apply triple_for_each. intros db Hin. apply triple_append_if.
    rewrite !andb_true_iff, String.eqb_eq, py_in_In. intros [[Hd Hs] Ha].
    left. exists dbs, db. repeat split; assumption. }
  intros u'.
  apply (triple_bind scan_event _ _ _
           (fun adbs l => list_autonomous_databases (cloud self) compartment_id = inr adbs /\
                          Forall J l)).
  { apply triple_api; [exact Logic.I | auto |].
    intros msg l _ Hl. split; [now exists msg | assumption]. }
  intros adbs. apply triple_pure. intros Hadbs.
  apply triple_for_each. intros adb Hin.
  destruct (is_dev_test_resource (Some (AutonomousDatabase.tags adb))) eqn:Ed;
    [|now apply triple_ret].
  eapply triple_bind; [apply triple_py_ge_int|].
  intros b.
  apply (triple_conseq scan_event _
           (fun l => (b = true -> exists z, AutonomousDatabase.cpu_core_count adb = PInt z /\
                                            (4 <= z)%Z) /\ Forall J l)
           _ _ (fun _ => Forall J) _ (fun e l => is_exception e /\ Forall J l));
    [| intros l [Hl Hb]; auto | auto | auto].
  apply triple_pure. intros Hb. apply triple_append_if.
  rewrite andb_true_iff, String.eqb_eq. intros [Hbt Ha].
  destruct (Hb Hbt) as [z [Hz Hle]].
  right. exists adbs, adb, z. repeat split; assumption.
Qed.

(** ** Scopes *)

Lemma main_unfold (self : Chef) (args : Args) :
  main self args =
  try_except (main_body self args)
             (fun e => emit (Printed ("❌ Error: " ++ e)) ;; raise (SystemExit 1)).
Proof. reflexivity. Qed.

Lemma triple_returns {L A : Type} (P : L -> Prop) (m : M L A) (Q : A -> L -> Prop)
    (Ev : Event -> Prop) (l : L) :
  triple P m Q (fun _ _ => False) Ev -> P l ->
  exists a, outcome (m l) = inr a /\ Q a (locals (m l)) /\ Forall Ev (events (m l)).
Proof.
  intros H Hl. destruct (H l Hl) as [Hev Hout].
  destruct (outcome (m l)) as [e|a]; [contradiction|]. exists a. auto.
Qed.

(** A method that never raises does the same in every caller: it returns
    what it returns on its own and leaves the locals of the caller alone. *)
Lemma method_run {L A : Type} (m : forall L', M L' A) (J : A -> Prop) (default : A)
    (l : L) :
  (forall L' (P : L' -> Prop),
     triple P (m L') (fun a l' => J a /\ P l') (fun _ _ => False) scan_event) ->
  (forall L' (l' : L'), outcome (m L' l') = outcome (m unit tt)) ->
  (forall L' (l' : L'), events (m L' l') = events (m unit tt)) ->
  m L l = (inr (returned (m unit) default), l, events (m unit tt)) /\
  Forall scan_event (events (m unit tt)) /\
  J (returned (m unit) default).
Proof.
  intros Hc Ho He.
  destruct (triple_returns (fun l' => l' = l) (m L) _ _ l (Hc L _) eq_refl)
    as [a [Ha [[Hj Hl] Hev]]].
  rewrite (run_eta (m L l)), Hl, He. unfold returned. rewrite <- (Ho L l), Ha.
  split; [reflexivity|]. split; [now rewrite <- (He L l) | assumption].
Qed.

Ltac frame_independent f :=
  intros; unfold f, scanner_shell; rewrite !frame_run; reflexivity.

Section ScannerRuns.
Context {L : Type}.
Variables (self : Chef) (compartment_id : string) (l : L).

Lemma check_database_instances_run :
  check_database_instances self compartment_id l =
  (inr (returned (check_database_instances self compartment_id) []), l,
   events (check_database_instances self compartment_id tt)) /\
  Forall scan_event (events (check_database_instances self compartment_id tt)) /\
  Forall (justified_database self compartment_id)
         (returned (check_database_instances self compartment_id) []).
Proof.
  apply (method_run (fun L' => @check_database_instances L' self compartment_id)
           (Forall (justified_database self compartment_id))).
  - intros. apply check_database_instances_contract.
  - frame_independent @check_database_instances.
  - frame_independent @check_database_instances.
Qed.

Lemma check_compute_instances_run :
  check_compute_instances self compartment_id l =
  (inr (returned (check_compute_instances self compartment_id) ([], [])), l,
   events (check_compute_instances self compartment_id tt)) /\
  Forall scan_event (events (check_compute_instances self compartment_id tt)) /\
  (Forall (justified_missing_automation self compartment_id)
          (fst (returned (check_compute_instances self compartment_id) ([], []))) /\
   Forall (justified_oversized self compartment_id)
          (snd (returned (check_compute_instances self compartment_id) ([], [])))).
Proof.
  apply (method_run (fun L' => @check_compute_instances L' self compartment_id)
           (fun res => Forall (justified_missing_automation self compartment_id) (fst res) /\
                       Forall (justified_oversized self compartment_id) (snd res))).
  - intros. apply check_compute_instances_contract.
  - frame_independent @check_compute_instances.
  - frame_independent @check_compute_instances.
Qed.

Lemma check_unattached_volumes_run :
  check_unattached_volumes self compartment_id l =
  (inr (returned (check_unattached_volumes self compartment_id) []), l,
   events (check_unattached_volumes self compartment_id tt)) /\
  Forall scan_event (events (check_unattached_volumes self compartment_id tt)) /\
  Forall (justified_volume self compartment_id)
         (returned (check_unattached_volumes self compartment_id) []).
Proof.
  apply (method_run (fun L' => @check_unattached_volumes L' self compartment_id)
           (Forall (justified_volume self compartment_id))).
  - intros. apply check_unattached_volumes_contract.
  - frame_independent @check_unattached_volumes.
  - frame_independent @check_unattached_volumes.
Qed.

Lemma check_unused_public_ips_run :
  check_unused_public_ips self compartment_id l =
  (inr (returned (check_unused_public_ips self compartment_id) []), l,
   events (check_unused_public_ips self compartment_id tt)) /\
  Forall scan_event (events (check_unused_public_ips self compartment_id tt)) /\
  Forall (justified_public_ip self compartment_id)
         (returned (check_unused_public_ips self compartment_id) []).
Proof.
  apply (method_run (fun L' => @check_unused_public_ips L' self compartment_id)
           (Forall (justified_public_ip self compartment_id))).
  - intros. apply check_unused_public_ips_contract.
  - frame_independent @check_unused_public_ips.
  - frame_independent @check_unused_public_ips.
Qed.

Lemma check_empty_load_balancers_run :
  check_empty_load_balancers self compartment_id l =
  (inr (returned (check_empty_load_balancers self compartment_id) []), l,
   events (check_empty_load_balancers self compartment_id tt)) /\
  Forall scan_event (events (check_empty_load_balancers self compartment_id tt)) /\
  Forall (justified_load_balancer self compartment_id)
         (returned (check_empty_load_balancers self compartment_id) []).
Proof.
  apply (method_run (fun L' => @check_empty_load_balancers L' self compartment_id)
           (Forall (justified_load_balancer self compartment_id))).
  - intros. apply check_empty_load_balancers_contract.
  - frame_independent @check_empty_load_balancers.
  - frame_independent @check_empty_load_balancers.
Qed.

Lemma check_permissive_security_lists_run :
  check_permissive_security_lists self compartment_id l =
  (inr (returned (check_permissive_security_lists self compartment_id) []), l,
   events (check_permissive_security_lists self compartment_id tt)) /\
  Forall scan_event (events (check_permissive_security_lists self compartment_id tt)) /\
  Forall (justified_security_list self compartment_id)
         (returned (check_permissive_security_lists self compartment_id) []).
Proof.
  apply (method_run (fun L' => @check_permissive_security_lists L' self compartment_id)
           (Forall (justified_security_list self compartment_id))).
  - intros. apply check_permissive_security_lists_contract.
  - frame_independent @check_permissive_security_lists.
  - frame_independent @check_permissive_security_lists.
Qed.

(** The scan of one scope never raises; each category holds what its own
    scanner returns. *)
Lemma analyze_compartment_run :
  analyze_compartment self compartment_id l =
  (inr (scope_results self compartment_id), l, scope_events self compartment_id) /\
  Forall scan_event (scope_events self compartment_id) /\
  scope_justified self compartment_id (scope_results self compartment_id).
Proof.
  destruct check_database_instances_run as [Hdb [Edb Jdb]].
  destruct check_compute_instances_run as [Hci [Eci [Jma Jov]]].
  destruct check_unattached_volumes_run as [Hvo [Evo Jvo]].
  destruct check_unused_public_ips_run as [Hip [Eip Jip]].
  destruct check_empty_load_balancers_run as [Hlb [Elb Jlb]].
  destruct check_permissive_security_lists_run as [Hsl [Esl Jsl]].
  split; [|split].
  - unfold analyze_compartment.
    rewrite (bind_returns _ _ _ _ _ _ Hdb).
    rewrite (bind_returns _ _ _ _ _ _ Hci).
    rewrite (bind_returns _ _ _ _ _ _ Hvo).
    rewrite (bind_returns _ _ _ _ _ _ Hip).
    rewrite (bind_returns _ _ _ _ _ _ Hlb).
    rewrite (bind_returns _ _ _ _ _ _ Hsl).
    unfold ret, outcome, locals, events, scope_events, scope_results.
    cbn [fst snd]. now rewrite app_nil_r.
  - unfold scope_events. repeat (apply Forall_app; split); assumption.
  - unfold scope_justified, scope_results. cbn. repeat split; assumption.
Qed.

End ScannerRuns.

Lemma fold_left_filter {X S : Type} (p : X -> bool) (f : S -> X -> S)
    (xs : list X) (s : S) :
  fold_left (fun s x => if p x then f s x else s) xs s = fold_left f (filter p xs) s.
Proof.
  revert s. induction xs as [|x xs IH]; intros s; simpl; [reflexivity|].
  rewrite IH. now destruct (p x).
Qed.

Lemma scan_event_app (a b : list Event) :
  Forall scan_event a -> Forall scan_event b -> Forall scan_event (app a b).
Proof. intros. apply Forall_app. now split. Qed.

Lemma compartment_events_scan (self : Chef) (compartments : list Compartment.t) :
  Forall scan_event (flat_map (compartment_events self) compartments).
Proof.
  induction compartments as [|c cs IH]; simpl; [constructor|].
  apply scan_event_app; [|assumption].
  unfold compartment_events. destruct (active c).
  - constructor; [exact I|].
    now destruct (@analyze_compartment_run unit self (Compartment.id c) tt) as [_ [H _]].
  - repeat constructor.
Qed.

(** The loop over the scopes never raises: it merges the results of the
    active scopes into [all_results], in order. *)
Lemma scope_loop_run (self : Chef) (compartments : list Compartment.t)
    (all_results : Results) :
  scope_loop self compartments all_results =
  (inr tt,
   fold_left (fun all_results compartment =>
                extend_results all_results
                               (scope_results self (Compartment.id compartment)))
             (filter active compartments) all_results,
   flat_map (compartment_events self) compartments).
Proof.
  unfold scope_loop.
  rewrite (for_each_returns _
             (fun c r => if active c
                         then extend_results r (scope_results self (Compartment.id c))
                         else r)
             (compartment_events self)).
  - now rewrite (fold_left_filter active
                   (fun r c => extend_results r (scope_results self (Compartment.id c)))).
  - intros c r _. unfold compartment_events, active.
    destruct (Compartment.lifecycle_state c =? "ACTIVE"); [|reflexivity].
    cbn [negb].
    destruct (@analyze_compartment_run Results self (Compartment.id c) r) as [Ha _].
    unfold bind at 1. unfold logger_info, emit.
    rewrite (bind_returns _ _ _ _ _ _ Ha). unfold modify. cbn.
    now rewrite app_nil_r.
Qed.

Lemma get_compartments_contract {L : Type} (P : L -> Prop) (self : Chef)
    (ids : option (list string)) :
  triple P (get_compartments self ids) (fun _ l => True /\ P l) (fun _ _ => False)
         scan_event.
Proof.
  assert (Hroot :
    triple P
      (try_except
         (tenancy <- api (GetCompartment (tenancy self))
                         (get_compartment (cloud self) (tenancy self)) ;;
          ret [Compartment.mk (Compartment.id tenancy) (Compartment.name tenancy)
                              (Compartment.lifecycle_state tenancy)])
         (fun e => logger_error ("Could not access root compartment: " ++ e) ;; ret []))
      (fun _ l => True /\ P l) (fun _ _ => False) scan_event).
  { apply (triple_try_except scan_event P _ _ _ (fun e l => is_exception e /\ P l)).
    - apply (triple_bind scan_event P _ _ (fun _ => P)).
      + apply triple_api; [exact I | auto |].
        intros msg l _ Hl. split; [now exists msg | assumption].
      + intros t. apply triple_ret. auto.
    - intros msg. apply (triple_bind scan_event _ _ _ (fun _ => P)).
      + apply triple_emit; [exact I | now intros l [_ Hl]].
      + intros u. apply triple_ret. auto.
    - intros code l [[msg Hmsg] _]. discriminate Hmsg. }
  destruct ids as [[|comp_id ids]|]; try exact Hroot.
  unfold get_compartments.
  apply (triple_frame scan_event P _ _ (fun _ => True) (fun _ _ => True)
           (fun _ _ => False)); [exact I | | auto | contradiction].
  apply (triple_bind scan_event _ _ _ (fun _ _ => True));
    [|intros u; apply triple_get_locals; auto].
  apply triple_for_each. intros id _.
  apply (triple_try_except scan_event _ _ _ _ (fun e l => is_exception e /\ True)).
  - apply (triple_bind scan_event _ _ _ (fun _ _ => True)).
    + apply triple_api; [exact I | auto |].
      intros msg l _ _. split; [now exists msg | exact I].
    + intros comp. apply triple_modify. auto.
  - intros msg. apply triple_emit; [exact I | auto].
  - intros code l [[msg Hmsg] _]. discriminate Hmsg.
Qed.

Lemma get_compartments_run {L : Type} (self : Chef) (args : Args) (l : L) :
  get_compartments self (compartment_ids args) l =
  (inr (resolved_compartments self args), l,
   events (get_compartments self (compartment_ids args) tt)) /\
  Forall scan_event (events (get_compartments self (compartment_ids args) tt)).
Proof.
  destruct (method_run (fun L' => @get_compartments L' self (compartment_ids args))
              (fun _ => True) [] l) as [H [Hev _]].
  - intros. apply get_compartments_contract.
  - intros L' l'. unfold get_compartments.
    destruct (compartment_ids args) as [[|comp_id ids]|];
      try (unfold try_except, bind, api;
           destruct (get_compartment (cloud self) (tenancy self)); reflexivity).
    now rewrite !frame_run.
  - intros L' l'. unfold get_compartments.
    destruct (compartment_ids args) as [[|comp_id ids]|];
      try (unfold try_except, bind, api;
           destruct (get_compartment (cloud self) (tenancy self)); reflexivity).
    now rewrite !frame_run.
  - split; assumption.
Qed.

Lemma scan_prefix_scan (self : Chef) (args : Args) :
  Forall scan_event (scan_prefix self args).
Proof.
  unfold scan_prefix. apply scan_event_app.
  - now destruct (@get_compartments_run unit self args tt) as [_ H].
  - constructor; [exact I | apply compartment_events_scan].
Qed.

Lemma bind_run {L A B : Type} (m : M L A) (k : A -> M L B) (l l1 : L)
    (a : A) (ev1 : list Event) :
  m l = (inr a, l1, ev1) -> bind m k l = prepend ev1 (k a l1).
Proof. apply bind_returns. Qed.

Lemma prepend_prepend {L A : Type} (ev ev' : list Event)
    (o : Response A * L * list Event) :
  prepend ev (prepend ev' o) = prepend (app ev ev') o.
Proof. unfold prepend. cbn. now rewrite app_assoc. Qed.

(** The body of [main] up to the reports: without a scope it exits with
    status 1; otherwise it goes on to the reports with the merged results of
    the active scopes. *)
Lemma main_body_run (self : Chef) (args : Args) (l : Results) :
  main_body self args l =
  match resolved_compartments self args with
  | [] =>
      (inl (SystemExit 1), l,
       app (events (get_compartments self (compartment_ids args) tt))
           [Logged ERROR "No accessible compartments found"])
  | _ :: _ =>
      prepend (scan_prefix self args)
              (report_phase self args (run_results self args) (run_results self args))
  end.
Proof.
  destruct (@get_compartments_run Results self args l) as [Hgc _].
  unfold main_body. rewrite (bind_run _ _ _ _ _ _ Hgc).
  unfold scan_prefix, run_results.
  destruct (resolved_compartments self args) as [|c cs] eqn:Ec.
  - reflexivity.
  - cbn [list_truthy negb].
    rewrite (bind_run (ret tt) _ l l tt [] eq_refl).
    rewrite (bind_run (logger_info _) _ l l tt _ eq_refl).
    rewrite (bind_run (modify _) _ l empty_results tt [] eq_refl).
    rewrite (bind_run _ _ _ _ _ _ (scope_loop_run self (c :: cs) empty_results)).
    rewrite (bind_run get_locals _ _ _ _ [] eq_refl).
    rewrite !prepend_prepend. unfold merged_results. f_equal.
    rewrite !app_nil_r, <- app_assoc. reflexivity.
Qed.

(** ** The reports *)

Lemma report_phase_unfold (self : Chef) (args : Args) (all_results : Results) :
  report_phase self args all_results =
  (files_phase self args all_results ;; summary_phase all_results).
Proof. reflexivity. Qed.

Lemma export_to_csv_unfold {L : Type} (self : Chef) (args : Args) (all_results : Results) :
  @export_to_csv L self 0 all_results (output_path args) =
  frame ([] : list string)
    (for_each (results_items all_results) (export_body self args) ;; get_locals).
Proof. reflexivity. Qed.

Lemma summary_phase_run (all_results l : Results) :
  summary_phase all_results l = (inr tt, l, summary_events all_results).
Proof.
  unfold summary_phase, summary_events, summary_block.
  rewrite (bind_run (logger_info _) _ l l tt _ eq_refl).
  rewrite (bind_run (logger_info _) _ l l tt _ eq_refl).
  rewrite (bind_run _ _ _ _ _ _
             (for_each_returns logger_info (fun _ l' => l')
                (fun line => [Logged INFO line]) (summary_lines all_results) l
                (fun _ _ _ => eq_refl))).
  rewrite !prepend_prepend.
  assert (Hfold : forall (xs : list string) (l0 : Results),
             fold_left (fun l' _ => l') xs l0 = l0).
  { induction xs; simpl; auto. }
  rewrite Hfold.
  assert (Hmap : forall xs : list string,
             flat_map (fun line => [Logged INFO line]) xs = map (Logged INFO) xs).
  { induction xs as [|x xs IH]; simpl; [reflexivity | now rewrite IH]. }
  rewrite Hmap.
  destruct (0 <? total_of all_results)%nat.
  - rewrite (bind_run (logger_info _) _ l l tt _ eq_refl). rewrite prepend_prepend.
    unfold logger_info, emit, prepend. cbn [outcome locals events fst snd].
    apply (f_equal (fun e => (@inr Exn unit tt, l, e))).
    rewrite !map_app. cbn [map]. rewrite <- !app_assoc. reflexivity.
  - unfold logger_info, emit, prepend. cbn [outcome locals events fst snd].
    apply (f_equal (fun e => (@inr Exn unit tt, l, e))).
    rewrite !map_app. cbn [map]. rewrite <- !app_assoc. reflexivity.
Qed.

Lemma browser_phase_run (self : Chef) (args : Args) (l : Results) :
  browser_phase self (html_name self args) l = (inr tt, l, browser_events self args).
Proof.
  unfold browser_phase, browser_events, try_except, bind, raise, emit, logger_info,
    logger_warning.
  cbv zeta. destruct (webbrowser_open (host self) _); reflexivity.
Qed.

Lemma generate_html_report_run {L : Type} (self : Chef) (args : Args) (r : Results)
    (l : L) :
  generate_html_report self 1 r (output_path args) l =
  match open_w (host self) (html_name self args) with
  | Some msg => (inl (Exception msg), l, [])
  | None => (inr (html_name self args), l, html_events self args r)
  end.
Proof.
  unfold generate_html_report, write_file, html_name, html_events. cbv zeta.
  fold (html_name self args).
  destruct (open_w (host self) (html_name self args)); reflexivity.
Qed.

Lemma subscript_run {L V : Type} (d : dict string V) (key : string) (l : L) :
  subscript d key l =
  match dict_lookup d key with
  | Some v => (inr v, l, [])
  | None => (inl (Exception ("'" ++ key ++ "'")), l, [])
  end.
Proof.
  induction d as [|[k v] d IH]; simpl; [reflexivity|].
  destruct (key =? k); [reflexivity | exact IH].
Qed.

(** One iteration of the export: nothing for an empty category, a raise
    when the file cannot be opened, otherwise the file and its log record. *)
Lemma export_body_run (self : Chef) (args : Args) (item : string * list Finding)
    (csv_files : list string) :
  export_body self args item csv_files =
  if list_truthy (snd item) then
    match dict_lookup report_mappings (fst item) with
    | Some label =>
        match open_w (host self) (csv_name self args label) with
        | Some msg => (inl (Exception msg), csv_files, [])
        | None =>
            (inr tt, app csv_files [csv_name self args label],
             csv_events self args (label, snd item))
        end
    | None => (inl (Exception ("'" ++ fst item ++ "'")), csv_files, [])
    end
  else (inr tt, csv_files, []).
Proof.
  unfold export_body. cbv zeta. destruct (list_truthy (snd item)) eqn:Et; [|reflexivity].
  unfold bind at 1. rewrite subscript_run.
  destruct (dict_lookup report_mappings (fst item)) as [label|]; [|reflexivity].
  unfold write_file, csv_events. cbn [fst snd]. rewrite Et.
  fold (csv_name self args label).
  destruct (open_w (host self) (csv_name self args label)); reflexivity.
Qed.

Lemma for_each_returned_inv {L X : Type} (body : X -> M L unit)
    (upd : X -> L -> L) (ev : X -> list Event) (xs : list X) (l l' : L)
    (evs : list Event) :
  (forall x l0 l1 e1, body x l0 = (inr tt, l1, e1) -> l1 = upd x l0 /\ e1 = ev x) ->
  for_each xs body l = (inr tt, l', evs) ->
  l' = fold_left (fun l0 x => upd x l0) xs l /\ evs = flat_map ev xs.
Proof.
  intros Hbody. revert l evs. induction xs as [|x xs IH]; intros l evs; simpl.
  - unfold ret. intros H. inversion H. auto.
  - intros H. apply bind_returned_inv in H.
    destruct H as [[] [l1 [ev1 [ev2 [Hx [Hrest ->]]]]]].
    destruct (Hbody x l l1 ev1 Hx) as [-> ->].
    destruct (IH _ _ Hrest) as [-> ->]. auto.
Qed.

Lemma export_events_items (self : Chef) (args : Args) (r : Results) :
  flat_map (export_events self args) (results_items r) =
  flat_map (csv_events self args) (labelled_items r).
Proof.
  unfold results_items, labelled_items, export_events, csv_events.
  cbn [flat_map fst snd dict_lookup report_mappings String.eqb Ascii.eqb Bool.eqb].
  repeat match goal with
         | |- context [list_truthy ?d] => destruct (list_truthy d)
         end; reflexivity.
Qed.

Lemma export_body_returned (self : Chef) (args : Args) (item : string * list Finding)
    (l0 l1 : list string) (e1 : list Event) :
  export_body self args item l0 = (inr tt, l1, e1) ->
  l1 = locals (export_body self args item l0) /\ e1 = export_events self args item.
Proof.
  intros Hx. rewrite Hx. split; [reflexivity|].
  rewrite export_body_run in Hx. unfold export_events.
  destruct (list_truthy (snd item)); [|now inversion Hx].
  destruct (dict_lookup report_mappings (fst item)) as [label|]; [|discriminate Hx].
  destruct (open_w (host self) (csv_name self args label)); [discriminate Hx|].
  now inversion Hx.
Qed.

Lemma export_to_csv_returned {L : Type} (self : Chef) (args : Args) (r : Results)
    (l l' : L) (csv_files : list string) (ev : list Event) :
  export_to_csv self 0 r (output_path args) l = (inr csv_files, l', ev) ->
  l' = l /\ ev = flat_map (csv_events self args) (labelled_items r).
Proof.
  rewrite export_to_csv_unfold, frame_run. unfold bind.
  destruct (for_each (results_items r) (export_body self args) [])
    as [[[e|[]] l1] e1] eqn:Eloop; cbn; intros H.
  - discriminate H.
  - inversion H; subst. split; [reflexivity|].
    destruct (for_each_returned_inv (export_body self args)
                (fun item l0 => locals (export_body self args item l0))
                (export_events self args) _ _ _ _
                (export_body_returned self args) Eloop) as [_ ->].
    now rewrite app_nil_r, export_events_items.
Qed.

(** A report phase that returns has exported every non-empty category,
    written the document when there is a finding, and logged the summary. *)
Lemma report_phase_returned (self : Chef) (args : Args) (r l l' : Results)
    (ev : list Event) :
  report_phase self args r l = (inr tt, l', ev) ->
  l' = l /\ ev = app (report_events self args r) (summary_events r).
Proof.
  rewrite report_phase_unfold. intros H. apply bind_returned_inv in H.
  destruct H as [u [l1 [ev1 [ev2 [H1 [H2 ->]]]]]].
  rewrite summary_phase_run in H2. inversion H2; subst l' ev2. clear H2.
  unfold report_events. unfold files_phase in H1. destruct (0 <? total_of r)%nat.
  - apply bind_returned_inv in H1.
    destruct H1 as [files [la [eva [evr [Hexp [H1 ->]]]]]].
    apply export_to_csv_returned in Hexp. destruct Hexp as [-> ->].
    apply bind_returned_inv in H1.
    destruct H1 as [html_file [lb [evb [evc [Hhtml [Hbr ->]]]]]].
    rewrite generate_html_report_run in Hhtml.
    destruct (open_w (host self) (html_name self args)); [discriminate Hhtml|].
    inversion Hhtml; subst html_file lb evb. clear Hhtml.
    rewrite browser_phase_run in Hbr. inversion Hbr; subst.
    split; [reflexivity|]. now rewrite <- !app_assoc.
  - unfold logger_info, emit in H1. inversion H1; subst. auto.
Qed.

Lemma written_In (ev : list Event) (filename : string) (content : FileContent) :
  In (filename, content) (written ev) <-> In (Wrote filename content) ev.
Proof.
  unfold written. rewrite in_flat_map. split.
  - intros [e [He Hin]]. destruct e; simpl in Hin; try contradiction.
    destruct Hin as [Heq|[]]. now inversion Heq; subst.
  - intros H. exists (Wrote filename content). split; [assumption | now left].
Qed.

Lemma scan_event_report_event (self : Chef) (args : Args) (r : Results) (e : Event) :
  scan_event e -> report_event self args r e.
Proof. destruct e; simpl; tauto. Qed.

Lemma label_in_items (r : Results) (item : string * list Finding) (label : string) :
  In item (results_items r) ->
  dict_lookup report_mappings (fst item) = Some label ->
  In (label, snd item) (labelled_items r).
Proof.
  unfold results_items, labelled_items. intros Hin.
  repeat (destruct Hin as [<-|Hin];
          [cbn; intros Hl; inversion Hl; subst; tauto|]).
  contradiction.
Qed.

Lemma csv_events_report_event (self : Chef) (args : Args) (r : Results)
    (label : string) (data : list Finding) :
  In (label, data) (labelled_items r) ->
  Forall (report_event self args r) (csv_events self args (label, data)).
Proof.
  intros Hin. apply Forall_forall. intros e He. destruct e; simpl; auto.
  unfold report_files. apply written_In. apply in_or_app. left.
  apply in_flat_map. exists (label, data). auto.
Qed.

Lemma html_events_report_event (self : Chef) (args : Args) (r : Results) :
  Forall (report_event self args r) (html_events self args r).
Proof.
  apply Forall_forall. intros e He. destruct e; simpl; auto.
  unfold report_files. apply written_In. apply in_or_app. now right.
Qed.

(** Whatever happens, the report phase leaves [all_results] alone, raises
    only exceptions [main] catches, and writes only files of
    [report_files]. *)
Lemma report_phase_contract (self : Chef) (args : Args) (r l : Results) :
  Forall (report_event self args r) (events (report_phase self args r l)) /\
  locals (report_phase self args r l) = l /\
  (forall e, outcome (report_phase self args r l) = inl e -> is_exception e).
Proof.
  assert (Hexport :
    triple (fun l' : Results => l' = l) (export_to_csv self 0 r (output_path args))
           (fun _ l' => l' = l) (fun e l' => is_exception e /\ l' = l)
           (report_event self args r)).
  { rewrite export_to_csv_unfold.
    apply (triple_frame _ _ _ _ (fun _ => True) (fun _ _ => True)
             (fun e _ => is_exception e)); [exact I | | auto | auto].
    apply (triple_bind _ _ _ _ (fun _ _ => True));
      [|intros u; apply triple_get_locals; auto].
    apply triple_for_each. intros item Hin files _.
    rewrite export_body_run.
    destruct (list_truthy (snd item)); [|repeat constructor].
    destruct (dict_lookup report_mappings (fst item)) as [label|] eqn:El;
      [|split; [constructor | cbn; eexists; reflexivity]].
    destruct (open_w (host self) (csv_name self args label));
      [split; [constructor | cbn; eexists; reflexivity]|].
    split; [|exact I]. cbn [events snd].
    apply csv_events_report_event. now apply label_in_items. }
  assert (Hfirst :
    triple (fun l' : Results => l' = l) (files_phase self args r)
      (fun _ l' => l' = l) (fun e l' => is_exception e /\ l' = l)
      (report_event self args r)).
  { unfold files_phase.
    destruct (0 <? total_of r)%nat; [|apply triple_emit; [exact I | auto]].
    apply (triple_bind _ _ _ _ (fun _ l' => l' = l)); [exact Hexport|].
    intros files l0 ->.
    unfold bind. rewrite generate_html_report_run.
    destruct (open_w (host self) (html_name self args)) as [msg|].
    - split; [constructor | cbn; split; [eexists; reflexivity | reflexivity]].
    - rewrite browser_phase_run. cbn [outcome locals events fst snd].
      split; [|reflexivity]. apply Forall_app. split.
      + apply html_events_report_event.
      + unfold browser_events. cbv zeta.
        destruct (webbrowser_open (host self) _); repeat constructor. }
  destruct (Hfirst l eq_refl) as [Hev Hout].
  rewrite report_phase_unfold. unfold bind.
  destruct (files_phase self args r l) as [[[e|u] l1] ev1].
  - cbn in *. destruct Hout as [He ->]. repeat split; try assumption.
    intros e0 Heq. now inversion Heq; subst.
  - cbn in Hout, Hev. subst l1. rewrite summary_phase_run.
    cbn [outcome locals events fst snd]. repeat split.
    + apply Forall_app. split; [assumption|].
      unfold summary_events. apply Forall_forall. intros e He.
      apply in_map_iff in He. destruct He as [line [<- _]]. exact I.
    + intros e Heq. discriminate Heq.
Qed.

(** ** Runs *)

(** In every run, [all_results] ends as the merged results of the active
    scopes, and every file written is one of [report_files]. *)
Lemma run_always (self : Chef) (args : Args) :
  all_results_of self args = run_results self args /\
  Forall (report_event self args (run_results self args)) (events_of self args).
Proof.
  unfold all_results_of, events_of, run. rewrite main_unfold. unfold try_except.
  rewrite main_body_run.
  destruct (resolved_compartments self args) as [|c cs] eqn:Ec.
  - assert (Hr : run_results self args = empty_results).
    { unfold run_results. now rewrite Ec. }
    rewrite Hr. cbn. split; [reflexivity|].
    apply Forall_app. split; [|repeat constructor].
    destruct (@get_compartments_run unit self args tt) as [_ Hev].
    eapply Forall_impl; [|exact Hev]. apply scan_event_report_event.
  - destruct (report_phase_contract self args (run_results self args)
                (run_results self args)) as [Hev [Hl He]].
    assert (Hpre : Forall (report_event self args (run_results self args))
                          (scan_prefix self args)).
    { eapply Forall_impl; [|apply scan_prefix_scan]. apply scan_event_report_event. }
    unfold prepend.
    destruct (report_phase self args _ _) as [[[e|u] l1] ev1];
      cbn [outcome locals events fst snd] in *.
    + destruct (He e eq_refl) as [msg ->]. subst l1.
      unfold bind, emit, raise. cbn [fst snd]. split; [reflexivity|].
      repeat (first [assumption | apply Forall_app; split]).
      all: repeat constructor.
    + subst l1. split; [reflexivity|]. now apply Forall_app.
Qed.

(** A run that ends with status 0 had a scope, and its events are those of
    the scan, then those of the reports, then the summary. *)
Lemma run_completed (self : Chef) (args : Args) :
  exit_status self args = 0%Z ->
  resolved_compartments self args <> [] /\
  events_of self args =
  app (scan_prefix self args)
      (app (report_events self args (run_results self args))
           (summary_events (run_results self args))).
Proof.
  unfold exit_status, events_of, run. rewrite main_unfold. unfold try_except.
  rewrite main_body_run.
  destruct (resolved_compartments self args) as [|c cs] eqn:Ec.
  - cbn. discriminate.
  - unfold prepend.
    destruct (report_phase self args _ _) as [[[e|[]] l1] ev1] eqn:Er;
      cbn [outcome locals events fst snd].
    + destruct e as [msg|code].
      * cbn. discriminate.
      * destruct (report_phase_contract self args (run_results self args)
                    (run_results self args)) as [_ [_ He]].
        rewrite Er in He. destruct (He _ eq_refl) as [msg Hmsg]. discriminate Hmsg.
    + intros _. split; [discriminate|].
      apply report_phase_returned in Er. destruct Er as [_ ->]. reflexivity.
Qed.

(** ** Failures *)

Lemma returned_of_run {A : Type} (m : M unit A) (default a : A) (ev : list Event) :
  m tt = (inr a, tt, ev) -> returned m default = a.
Proof. intros H. unfold returned. now rewrite H. Qed.

Lemma try_except_run {L A : Type} (body : M L A) (h : string -> M L A) (l l1 : L)
    (msg : string) (ev : list Event) :
  body l = (inl (Exception msg), l1, ev) ->
  try_except body h l = prepend ev (h msg l1).
Proof. apply try_except_catches. Qed.

(** When the listing of the autonomous databases fails, the findings of
    the DB systems, appended before, are returned. *)
Lemma check_database_instances_second_listing_fails {L : Type} (self : Chef)
    (compartment_id msg : string) (db_systems : list DbSystem.t) (l : L) :
  list_db_systems (cloud self) compartment_id = inr db_systems ->
  list_autonomous_databases (cloud self) compartment_id = inl msg ->
  check_database_instances self compartment_id l =
  (inr (map (db_system_row compartment_id) (filter flags_db_system db_systems)), l,
   [Logged INFO ("Checking database instances in compartment: " ++ compartment_id);
    Called (ListDbSystems compartment_id);
    Called (ListAutonomousDatabases compartment_id);
    Logged WARNING ("Error checking database instances: " ++ msg)]).
Proof.
  intros Hdb Hadb. unfold check_database_instances.
  set (found := map (db_system_row compartment_id) (filter flags_db_system db_systems)).
  assert (Hloop :
    for_each db_systems (fun db_system =>
      if is_dev_test_resource (Some (DbSystem.tags db_system)) &&
         py_in (DbSystem.shape db_system) production_db_shapes &&
         String.eqb (DbSystem.lifecycle_state db_system) "AVAILABLE"
      then append (db_system_row compartment_id db_system)
      else ret tt) [] = (inr tt, found, [])).
  { rewrite (for_each_returns _
               (fun db results => if flags_db_system db
                                  then app results [db_system_row compartment_id db]
                                  else results)
               (fun _ => [])).
    - rewrite fold_append_filter. unfold found. f_equal.
      clear. induction db_systems; simpl; auto.
    - intros db results _. unfold flags_db_system.
      destruct (_ && _ && _); reflexivity. }
  rewrite frame_run.
  match goal with
  | |- context [try_except ?b ?h] =>
      assert (Hbody : b [] =
                      (inl (Exception msg), found,
                       [Logged INFO ("Checking database instances in compartment: "
                                     ++ compartment_id);
                        Called (ListDbSystems compartment_id);
                        Called (ListAutonomousDatabases compartment_id)]))
  end.
  { rewrite (bind_run (logger_info _) _ [] [] tt _ eq_refl).
    unfold api at 1. rewrite Hdb.
    rewrite (bind_run _ _ [] [] db_systems [Called (ListDbSystems compartment_id)] eq_refl).
    rewrite (bind_run _ _ _ _ _ _ Hloop).
    unfold api. rewrite Hadb.
    rewrite (bind_raises _ _ found found (Exception msg)
               [Called (ListAutonomousDatabases compartment_id)] eq_refl).
    reflexivity. }
  match goal with
  | |- context [try_except ?b ?h] =>
      pose proof (try_except_run b h _ _ _ _ Hbody) as Htry
  end.
  unfold prepend, logger_warning, emit in Htry.
  cbn [outcome locals events fst snd app] in Htry.
  rewrite (bind_run _ _ _ _ _ _ Htry). reflexivity.
Qed.

Lemma check_database_instances_listing_fails {L : Type} (self : Chef)
    (compartment_id msg : string) (l : L) :
  list_db_systems (cloud self) compartment_id = inl msg ->
  check_database_instances self compartment_id l =
  (inr [], l,
   [Logged INFO ("Checking database instances in compartment: " ++ compartment_id);
    Called (ListDbSystems compartment_id);
    Logged WARNING ("Error checking database instances: " ++ msg)]).
Proof.
  intros Hdb. unfold check_database_instances, frame, try_except, bind, logger_info,
    logger_warning, emit, api, get_locals.
  rewrite Hdb. reflexivity.
Qed.

(** The events of each scanner are events of the scan of the scope. *)
Lemma scope_events_scanners (self : Chef) (compartment_id : string) :
  incl (events (check_database_instances self compartment_id tt))
       (scope_events self compartment_id) /\
  incl (events (check_compute_instances self compartment_id tt))
       (scope_events self compartment_id) /\
  incl (events (check_unattached_volumes self compartment_id tt))
       (scope_events self compartment_id) /\
  incl (events (check_unused_public_ips self compartment_id tt))
       (scope_events self compartment_id) /\
  incl (events (check_empty_load_balancers self compartment_id tt))
       (scope_events self compartment_id) /\
  incl (events (check_permissive_security_lists self compartment_id tt))
       (scope_events self compartment_id).
Proof.
  unfold scope_events.
  repeat split; intros e He; rewrite !in_app_iff; tauto.
Qed.

(** A scanner whose run ends with a warning has warned. *)
Lemma warned_of_run {A : Type} (self : Chef) (compartment_id : string) (scan : M unit A)
    (text : string) (a : Response A) (before : list Event) :
  scan tt = (a, tt, app before [Logged WARNING text]) ->
  incl (events (scan tt)) (scope_events self compartment_id) ->
  warned self compartment_id scan text.
Proof.
  intros Hrun Hincl. split.
  - exists before. now rewrite Hrun.
  - apply Hincl. rewrite Hrun. cbn [events snd]. apply in_or_app. right. now left.
Qed.

(** C3, as the code has it: a scanner never lets an error out.  When a
    listing or secondary call of a category raises, the scanner stops
    there, its last event is the warning that names the category and the
    cause, and the result of the category for the scope is the list of the
    findings appended before the failing call: the empty list when the
    first listing call fails.  The other categories hold what their own
    scanners return, and every active scope is scanned and merged. *)
Theorem scan_failure_is_contained :
  forall (self : Chef) (compartment_id : string),
    (forall (L : Type) (l : L),
       analyze_compartment self compartment_id l =
       (inr (scope_results self compartment_id), l, scope_events self compartment_id))
    /\ ((forall msg, list_db_systems (cloud self) compartment_id = inl msg ->
           database_instances (scope_results self compartment_id) = [] /\
           warned self compartment_id (check_database_instances self compartment_id)
                  ("Error checking database instances: " ++ msg))
        /\ (forall msg, list_instances (cloud self) compartment_id = inl msg ->
              compute_missing_automation (scope_results self compartment_id) = [] /\
              oversized_compute (scope_results self compartment_id) = [] /\
              warned self compartment_id (check_compute_instances self compartment_id)
                     ("Error checking compute instances: " ++ msg))
        /\ (forall msg, list_volumes (cloud self) compartment_id = inl msg ->
              unattached_volumes (scope_results self compartment_id) = [] /\
              warned self compartment_id (check_unattached_volumes self compartment_id)
                     ("Error checking block volumes: " ++ msg))
        /\ (forall msg, list_public_ips (cloud self) compartment_id = inl msg ->
              unused_public_ips (scope_results self compartment_id) = [] /\
              warned self compartment_id (check_unused_public_ips self compartment_id)
                     ("Error checking public IPs: " ++ msg))
        /\ (forall msg, list_load_balancers (cloud self) compartment_id = inl msg ->
              empty_load_balancers (scope_results self compartment_id) = [] /\
              warned self compartment_id (check_empty_load_balancers self compartment_id)
                     ("Error checking load balancers: " ++ msg))
        /\ (forall msg, list_vcns (cloud self) compartment_id = inl msg ->
              permissive_security_lists (scope_results self compartment_id) = [] /\
              warned self compartment_id
                     (check_permissive_security_lists self compartment_id)
                     ("Error checking security lists: " ++ msg)))
    /\ ((forall db_systems msg,
           list_db_systems (cloud self) compartment_id = inr db_systems ->
           list_autonomous_databases (cloud self) compartment_id = inl msg ->
           database_instances (scope_results self compartment_id) =
           map (db_system_row compartment_id) (filter flags_db_system db_systems) /\
           warned self compartment_id (check_database_instances self compartment_id)
                  ("Error checking database instances: " ++ msg))
        /\ (forall before volume after msg,
              list_volumes (cloud self) compartment_id = inr (app before (volume :: after)) ->
              secondary_answered eligible_volume (volume_attachments self compartment_id)
                                 before ->
              eligible_volume volume = true ->
              volume_attachments self compartment_id volume = inl msg ->
              unattached_volumes (scope_results self compartment_id) =
              flat_map (volume_findings self compartment_id) before /\
              warned self compartment_id (check_unattached_volumes self compartment_id)
                     ("Error checking block volumes: " ++ msg))
        /\ (forall before lb after msg,
              list_load_balancers (cloud self) compartment_id = inr (app before (lb :: after)) ->
              secondary_answered eligible_load_balancer (load_balancer_details self) before ->
              eligible_load_balancer lb = true ->
              load_balancer_details self lb = inl msg ->
              empty_load_balancers (scope_results self compartment_id) =
              flat_map (load_balancer_findings self compartment_id) before /\
              warned self compartment_id (check_empty_load_balancers self compartment_id)
                     ("Error checking load balancers: " ++ msg))
        /\ (forall before vcn after msg,
              list_vcns (cloud self) compartment_id = inr (app before (vcn :: after)) ->
              security_lists_listed self compartment_id before ->
              Vcn.lifecycle_state vcn = "AVAILABLE" ->
              list_security_lists (cloud self) compartment_id (Vcn.id vcn) = inl msg ->
              permissive_security_lists (scope_results self compartment_id) =
              flat_map (vcn_findings self compartment_id) before /\
              warned self compartment_id
                     (check_permissive_security_lists self compartment_id)
                     ("Error checking security lists: " ++ msg)))
    /\ (forall args,
          all_results_of self args =
          merged_results self (resolved_compartments self args)).
Proof.
  intros self cid.
  destruct (scope_events_scanners self cid) as [Idb [Ici [Ivol [Iip [Ilb Isl]]]]].
  split; [|split; [|split]].
  - intros L l. now destruct (@analyze_compartment_run L self cid l) as [H _].
  - split; [|split; [|split; [|split; [|split]]]]; intros msg Hl;
      unfold scope_results;
      cbn [database_instances compute_missing_automation oversized_compute
           unattached_volumes unused_public_ips empty_load_balancers
           permissive_security_lists].
    + pose proof (check_database_instances_listing_fails self cid msg tt Hl) as Hrun.
      split; [now rewrite (returned_of_run _ _ _ _ Hrun)|].
      now apply (warned_of_run self cid _ _ _
                   [Logged INFO ("Checking database instances in compartment: " ++ cid);
                    Called (ListDbSystems cid)] Hrun).
    + pose proof (check_compute_instances_listing_fails self cid msg tt Hl) as Hrun.
      rewrite (returned_of_run _ _ _ _ Hrun).
      split; [reflexivity|]. split; [reflexivity|].
      now apply (warned_of_run self cid _ _ _
                   [Logged INFO ("Checking compute instances in compartment: " ++ cid);
                    Called (ListInstances cid)] Hrun).
    + assert (Hrun : check_unattached_volumes self cid tt =
                     (inr [], tt,
                      [Logged INFO ("Checking block volumes in compartment: " ++ cid);
                       Called (ListVolumes cid);
                       Logged WARNING ("Error checking block volumes: " ++ msg)])).
      { rewrite check_unattached_volumes_shell.
        now apply scanner_shell_listing_fails. }
      split; [now rewrite (returned_of_run _ _ _ _ Hrun)|].
      now apply (warned_of_run self cid _ _ _
                   [Logged INFO ("Checking block volumes in compartment: " ++ cid);
                    Called (ListVolumes cid)] Hrun).
    + assert (Hrun : check_unused_public_ips self cid tt =
                     (inr [], tt,
                      [Logged INFO ("Checking public IPs in compartment: " ++ cid);
                       Called (ListPublicIps cid);
                       Logged WARNING ("Error checking public IPs: " ++ msg)])).
      { rewrite check_unused_public_ips_shell.
        now apply scanner_shell_listing_fails. }
      split; [now rewrite (returned_of_run _ _ _ _ Hrun)|].
      now apply (warned_of_run self cid _ _ _
                   [Logged INFO ("Checking public IPs in compartment: " ++ cid);
                    Called (ListPublicIps cid)] Hrun).
    + assert (Hrun : check_empty_load_balancers self cid tt =
                     (inr [], tt,
                      [Logged INFO ("Checking load balancers in compartment: " ++ cid);
                       Called (ListLoadBalancers cid);
                       Logged WARNING ("Error checking load balancers: " ++ msg)])).
      { rewrite check_empty_load_balancers_shell.
        now apply scanner_shell_listing_fails. }
      split; [now rewrite (returned_of_run _ _ _ _ Hrun)|].
      now apply (warned_of_run self cid _ _ _
                   [Logged INFO ("Checking load balancers in compartment: " ++ cid);
                    Called (ListLoadBalancers cid)] Hrun).
    + assert (Hrun : check_permissive_security_lists self cid tt =
                     (inr [], tt,
                      [Logged INFO ("Checking security lists in compartment: " ++ cid);
                       Called (ListVcns cid);
                       Logged WARNING ("Error checking security lists: " ++ msg)])).
      { rewrite check_permissive_security_lists_shell.
        now apply scanner_shell_listing_fails. }
      split; [now rewrite (returned_of_run _ _ _ _ Hrun)|].
      now apply (warned_of_run self cid _ _ _
                   [Logged INFO ("Checking security lists in compartment: " ++ cid);
                    Called (ListVcns cid)] Hrun).
  - split; [|split; [|split]].
    + intros dbs msg Hdb Hadb. unfold scope_results. cbn [database_instances].
      pose proof (check_database_instances_second_listing_fails self cid msg dbs tt
                    Hdb Hadb) as Hrun.
      split; [now rewrite (returned_of_run _ _ _ _ Hrun)|].
      now apply (warned_of_run self cid _ _ _
                   [Logged INFO ("Checking database instances in compartment: " ++ cid);
                    Called (ListDbSystems cid);
                    Called (ListAutonomousDatabases cid)] Hrun).
    + intros before v after msg Hl Ha Hg Hx. unfold scope_results.
      cbn [unattached_volumes].
      pose proof (check_unattached_volumes_stops self cid before after v msg tt
                    Hl Ha Hg Hx) as Hrun.
      split; [now rewrite (returned_of_run _ _ _ _ Hrun)|].
      now apply (warned_of_run self cid _ _ _
                   (Logged INFO ("Checking block volumes in compartment: " ++ cid)
                    :: Called (ListVolumes cid)
                    :: app (flat_map (volume_calls cid) before)
                           [Called (ListVolumeAttachments cid (Volume.id v))]) Hrun).
    + intros before lb after msg Hl Ha Hg Hx. unfold scope_results.
      cbn [empty_load_balancers].
      pose proof (check_empty_load_balancers_stops self cid before after lb msg tt
                    Hl Ha Hg Hx) as Hrun.
      split; [now rewrite (returned_of_run _ _ _ _ Hrun)|].
      now apply (warned_of_run self cid _ _ _
                   (Logged INFO ("Checking load balancers in compartment: " ++ cid)
                    :: Called (ListLoadBalancers cid)
                    :: app (flat_map load_balancer_calls before)
                           [Called (GetLoadBalancer (LoadBalancer.id lb))]) Hrun).
    + intros before vcn after msg Hl Ha Hg Hx. unfold scope_results.
      cbn [permissive_security_lists].
      pose proof (check_permissive_security_lists_stops self cid before after vcn msg tt
                    Hl Ha Hg Hx) as Hrun.
      split; [now rewrite (returned_of_run _ _ _ _ Hrun)|].
      now apply (warned_of_run self cid _ _ _
                   (Logged INFO ("Checking security lists in compartment: " ++ cid)
                    :: Called (ListVcns cid)
                    :: app (flat_map (vcn_calls cid) before)
                           [Called (ListSecurityLists cid (Vcn.id vcn))]) Hrun).
  - intros args. now destruct (run_always self args) as [H _].
Qed.

(** In [HalfListed] the second listing of the database category fails: the
    finding of the DB system is kept and the scanner ends with the
    warning. *)
Lemma scan_failure_is_contained_witness :
  database_instances (scope_results HalfListed.chef "ocid1.compartment.1") =
  [db_system_row "ocid1.compartment.1" HalfListed.db_system] /\
  warned HalfListed.chef "ocid1.compartment.1"
         (check_database_instances HalfListed.chef "ocid1.compartment.1")
         "Error checking database instances: service unavailable".
Proof.
  destruct (scan_failure_is_contained HalfListed.chef "ocid1.compartment.1")
    as [_ [_ [[Hdb _] _]]].
  exact (Hdb [HalfListed.db_system] "service unavailable" eq_refl eq_refl).
Defined.

(** C3 as stated fails on [HalfListed]: a listing call of the database
    category raises, and the result of the category is not empty, neither
    for the scope nor in the run over the root compartment. *)
Lemma partial_findings_counterexample :
  list_autonomous_databases (cloud HalfListed.chef) "ocid1.tenancy.1" =
  inl "service unavailable" /\
  outcome (check_database_instances HalfListed.chef "ocid1.tenancy.1" tt) =
  inr [db_system_row "ocid1.tenancy.1" HalfListed.db_system] /\
  In (Logged WARNING "Error checking database instances: service unavailable")
     (events (check_database_instances HalfListed.chef "ocid1.tenancy.1" tt)) /\
  database_instances (all_results_of HalfListed.chef (mkArgs "." None)) =
  [db_system_row "ocid1.tenancy.1" HalfListed.db_system] /\
  database_instances (scope_results HalfListed.chef "ocid1.tenancy.1") <> [].
Proof.
  split; [reflexivity|]. split; [reflexivity|].
  split; [|split; [reflexivity | discriminate]].
  cbn. do 3 right. left. reflexivity.
Qed.

(** ** Findings *)

Lemma all_justified_extend (self : Chef) (compartment_id : string) (r r' : Results) :
  all_justified self r -> scope_justified self compartment_id r' ->
  all_justified self (extend_results r r').
Proof.
  intros [H1 [H2 [H3 [H4 [H5 [H6 H7]]]]]] [S1 [S2 [S3 [S4 [S5 [S6 S7]]]]]].
  unfold all_justified, extend_results. cbn.
  repeat split; apply Forall_app; split; try assumption;
    (eapply Forall_impl; [|eassumption]); intros f Hf; now exists compartment_id.
Qed.

Lemma all_justified_merged (self : Chef) (compartments : list Compartment.t) :
  all_justified self (merged_results self compartments).
Proof.
  unfold merged_results.
  assert (Hgen : forall cs r, all_justified self r ->
            all_justified self
              (fold_left (fun all_results compartment =>
                            extend_results all_results
                              (scope_results self (Compartment.id compartment)))
                         cs r)).
  { induction cs as [|c cs IH]; intros r Hr; simpl; [assumption|].
    apply IH. apply (all_justified_extend self (Compartment.id c)); [assumption|].
    now destruct (@analyze_compartment_run unit self (Compartment.id c) tt)
      as [_ [_ H]]. }
  apply Hgen. unfold all_justified, empty_results. cbn. repeat split; constructor.
Qed.

(** The findings of each category are justified for the category. *)
Lemma all_justified_category (self : Chef) (r : Results) (k : Category) :
  all_justified self r ->
  Forall (fun f => exists c, justified k self c f) (findings_of k r).
Proof.
  intros [H1 [H2 [H3 [H4 [H5 [H6 H7]]]]]]. destruct k; assumption.
Qed.

Lemma Forall2_map_justified {X Y : Type} (P : X -> Prop) (g : X -> Y) (xs : list X) :
  Forall P xs -> Forall2 (fun x y => P x /\ y = g x) xs (map g xs).
Proof.
  induction 1 as [|x xs Hx _ IH]; cbn [map]; constructor; auto.
Qed.

(** A labelled item is the collection of a category under its label. *)
Lemma labelled_items_category (r : Results) (item : string * list Finding) :
  In item (labelled_items r) ->
  exists k, item = (label_of k, findings_of k r).
Proof.
  unfold labelled_items. intros H.
  destruct H as [<-|H]; [now exists DatabaseInstances|].
  destruct H as [<-|H]; [now exists ComputeMissingAutomation|].
  destruct H as [<-|H]; [now exists OversizedCompute|].
  destruct H as [<-|H]; [now exists UnattachedVolumes|].
  destruct H as [<-|H]; [now exists UnusedPublicIps|].
  destruct H as [<-|H]; [now exists EmptyLoadBalancers|].
  destruct H as [<-|H]; [now exists PermissiveSecurityLists|].
  contradiction.
Qed.

(** A table of the document is the table of the category its heading
    names. *)
Lemma html_document_table (ts : string) (r : Results) (heading : string)
    (rows : list (list string)) :
  In (heading, Table rows) (sections (html_document ts r)) ->
  exists k, heading = heading_of k /\ rows = map (table_row k) (findings_of k r).
Proof.
  assert (Hsec : forall h fields message data,
            html_section h fields message data = (heading, Table rows) ->
            heading = h /\
            rows = map (fun f => map (fun key => py_str (dict_get key f)) fields) data).
  { intros h fields message data. unfold html_section.
    destruct (list_truthy data); intros H; [|discriminate H]. now inversion H. }
  unfold html_document. cbn [sections]. intros H.
  destruct H as [H|H]; [apply Hsec in H; now exists DatabaseInstances|].
  destruct H as [H|H]; [apply Hsec in H; now exists ComputeMissingAutomation|].
  destruct H as [H|H]; [apply Hsec in H; now exists OversizedCompute|].
  destruct H as [H|H]; [apply Hsec in H; now exists UnattachedVolumes|].
  destruct H as [H|H]; [apply Hsec in H; now exists UnusedPublicIps|].
  destruct H as [H|H]; [apply Hsec in H; now exists EmptyLoadBalancers|].
  destruct H as [H|H]; [apply Hsec in H; now exists PermissiveSecurityLists|].
  contradiction.
Qed.

(** A file of a run is the delimited file of a category, under the name
    of the category, or the document of the findings of the run. *)
Lemma run_file (self : Chef) (args : Args) (filename : string) (content : FileContent) :
  In (Wrote filename content) (events_of self args) ->
  (exists k, filename = csv_name self args (label_of k) /\
             content = csv_of (findings_of k (run_results self args))) \/
  (exists ts, content = Html (html_document ts (run_results self args))).
Proof.
  intros Hin. destruct (run_always self args) as [_ Hev].
  rewrite Forall_forall in Hev. specialize (Hev _ Hin).
  unfold report_event, report_files in Hev. apply written_In in Hev.
  apply in_app_or in Hev. destruct Hev as [Hcsv|Hhtml].
  - left. apply in_flat_map in Hcsv. destruct Hcsv as [item [Hitem Hw]].
    destruct (labelled_items_category _ _ Hitem) as [k ->].
    exists k. unfold csv_events in Hw. cbn [fst snd] in Hw.
    destruct (list_truthy (findings_of k (run_results self args))); [|contradiction].
    destruct Hw as [Hw|[Hw|[]]]; [now inversion Hw | discriminate Hw].
  - right. unfold html_events in Hhtml.
    destruct Hhtml as [Hw|[Hw|[]]]; [|discriminate Hw].
    inversion Hw. eexists. reflexivity.
Qed.

(** C5, as the code has it: in every run, every finding of every category
    comes from a listed resource that has a dev/test tag, a status the
    category accepts and meets the condition of the category as the scanner
    tests it; for the security lists this is an ingress rule from 0.0.0.0/0
    without TCP options or with a destination port range that starts at 22
    or at 3389.  Every delimited file the run writes bears the label of one
    category and its rows are, in order, the rows of the findings of that
    category; every table of the document stands under the heading of one
    category and its rows are, in order, the rows of the findings of that
    category. *)
Theorem findings_are_justified :
  forall (self : Chef) (args : Args),
    all_justified self (all_results_of self args)
    /\ (forall k f,
          In f (findings_of k (all_results_of self args)) ->
          exists c, justified k self c f)
    /\ (forall filename fieldnames rows,
          In (Wrote filename (Csv fieldnames rows)) (events_of self args) ->
          exists k,
            filename = csv_name self args (label_of k) /\
            Forall2 (fun f row => (exists c, justified k self c f) /\
                                  row = csv_row fieldnames f)
                    (findings_of k (all_results_of self args)) rows)
    /\ (forall filename doc heading rows,
          In (Wrote filename (Html doc)) (events_of self args) ->
          In (heading, Table rows) (sections doc) ->
          exists k,
            heading = heading_of k /\
            Forall2 (fun f row => (exists c, justified k self c f) /\
                                  row = table_row k f)
                    (findings_of k (all_results_of self args)) rows).
Proof.
  intros self args. destruct (run_always self args) as [Hr _]. rewrite Hr.
  pose proof (all_justified_merged self (resolved_compartments self args)) as Hall.
  fold (run_results self args) in Hall.
  split; [assumption|]. split; [|split].
  - intros k f Hf.
    pose proof (all_justified_category self _ k Hall) as Hk.
    rewrite Forall_forall in Hk. now apply Hk.
  - intros filename fieldnames rows Hin.
    destruct (run_file self args _ _ Hin) as [[k [Hname Hc]]|[ts Hc]]; [|discriminate Hc].
    exists k. split; [assumption|].
    unfold csv_of in Hc. inversion Hc; subst fieldnames rows.
    apply (Forall2_map_justified (fun f => exists c, justified k self c f)).
    now apply all_justified_category.
  - intros filename doc heading rows Hin Hsec.
    destruct (run_file self args _ _ Hin) as [[k [_ Hc]]|[ts Hc]].
    + unfold csv_of in Hc. discriminate Hc.
    + inversion Hc; subst doc.
      destruct (html_document_table ts _ heading rows Hsec) as [k [Hh ->]].
      exists k. split; [assumption|].
      apply (Forall2_map_justified (fun f => exists c, justified k self c f)).
      now apply all_justified_category.
Qed.

(** The run over [OneFinding]: its one delimited file is the file of the
    database category, and its one row is the row of a justified finding. *)
Lemma findings_are_justified_witness :
  all_justified OneFinding.chef (all_results_of OneFinding.chef OneFinding.args) /\
  exists k,
    "reports/Database_Production_Shapes_20250610_120000.csv" =
    csv_name OneFinding.chef OneFinding.args (label_of k) /\
    Forall2 (fun f row => (exists c, justified k OneFinding.chef c f) /\
                          row = csv_row (map fst (db_system_row "ocid1.tenancy.1"
                                                                HalfListed.db_system)) f)
            (findings_of k (all_results_of OneFinding.chef OneFinding.args))
            [map snd (db_system_row "ocid1.tenancy.1" HalfListed.db_system)].
Proof.
  destruct (findings_are_justified OneFinding.chef OneFinding.args) as [Hall [_ [Hcsv _]]].
  split; [exact Hall|].
  apply (Hcsv "reports/Database_Production_Shapes_20250610_120000.csv").
  vm_compute. repeat (first [left; reflexivity | right]).
Defined.

(** The security list of [OpenSsh] is not flagged as the specification
    states it. *)
Lemma open_ssh_not_stated : ~ stated_flagged OpenSsh.sec_list.
Proof.
  intros [_ [_ [rule [Hin [_ Hp]]]]].
  simpl in Hin. destruct Hin as [<-|[]].
  destruct Hp as [Hn|[Hr|Hr]].
  - destruct Hn as [Hn _]. discriminate Hn.
  - destruct Hr as [o [r [Ho [Hr [_ Hmax]]]]].
    inversion Ho; subst o. inversion Hr; subst r. discriminate Hmax.
  - destruct Hr as [o [r [Ho [Hr [Hmin _]]]]].
    inversion Ho; subst o. inversion Hr; subst r. discriminate Hmin.
Qed.

(** C5 as stated fails on [SshAndUp]: the run ends with status 0 and the
    security list that lets the ports 22 to 65535 in has a finding in the
    collection, a row in the delimited file and a row in the document,
    though no listed security list meets the stated condition of the
    category: its rule neither lacks a port restriction nor is restricted
    to port 22 or to port 3389. *)
Lemma stated_condition_counterexample :
  exit_status SshAndUp.chef SshAndUp.args = 0%Z /\
  findings_of PermissiveSecurityLists (all_results_of SshAndUp.chef SshAndUp.args) =
  [SshAndUp.finding] /\
  In (Wrote "./Permissive_Security_Lists_20250610_120000.csv"
            (Csv (map fst SshAndUp.finding) [map snd SshAndUp.finding]))
     (events_of SshAndUp.chef SshAndUp.args) /\
  (exists filename doc,
     In (Wrote filename (Html doc)) (events_of SshAndUp.chef SshAndUp.args) /\
     In (heading_of PermissiveSecurityLists,
         Table [table_row PermissiveSecurityLists SshAndUp.finding])
        (sections doc)) /\
  (forall c, ~ stated_justified_security_list SshAndUp.chef c SshAndUp.finding) /\
  (forall c vcn security_lists sec_list,
     list_security_lists (cloud SshAndUp.chef) c vcn = inr security_lists ->
     In sec_list security_lists -> ~ stated_flagged sec_list).
Proof.
  assert (Hnone : forall c vcn security_lists sec_list,
            list_security_lists (cloud SshAndUp.chef) c vcn = inr security_lists ->
            In sec_list security_lists -> ~ stated_flagged sec_list).
  { intros c vcn sls sl Hl Hin. cbn in Hl. inversion Hl; subst sls.
    destruct Hin as [<-|[]]. exact open_ssh_not_stated. }
  split; [reflexivity|]. split; [reflexivity|].
  split; [vm_compute; repeat (first [left; reflexivity | right])|].
  split.
  - eexists. eexists. split.
    + vm_compute. do 19 right. left. reflexivity.
    + vm_compute. do 6 right. left. reflexivity.
  - split; [|exact Hnone].
    intros c [vcns [vcn [sls [sl [_ [_ [_ [Hl [Hin [Hst _]]]]]]]]]].
    exact (Hnone c (Vcn.id vcn) sls sl Hl Hin Hst).
Qed.

(** ** Files and summary *)

Lemma written_app (a b : list Event) : written (app a b) = app (written a) (written b).
Proof. unfold written. apply flat_map_app. Qed.

Lemma written_scan (ev : list Event) : Forall scan_event ev -> written ev = [].
Proof.
  induction 1 as [|e ev He _ IH]; [reflexivity|].
  unfold written in *. cbn [flat_map]. rewrite IH.
  destruct e; try reflexivity; contradiction.
Qed.

Lemma written_logged (level : Level) (lines : list string) :
  written (map (Logged level) lines) = [].
Proof. induction lines as [|x xs IH]; [reflexivity | exact IH]. Qed.

Lemma written_csv_events (self : Chef) (args : Args) (items : list (string * list Finding)) :
  written (flat_map (csv_events self args) items) =
  map (csv_file self args) (filter nonempty items).
Proof.
  induction items as [|item items IH]; [reflexivity|].
  cbn [flat_map filter]. rewrite written_app, IH.
  unfold csv_events, nonempty. destruct (list_truthy (snd item)); reflexivity.
Qed.

Lemma written_report_events (self : Chef) (args : Args) (r : Results) :
  written (report_events self args r) = expected_files self args r.
Proof.
  unfold report_events, expected_files.
  destruct (0 <? total_of r)%nat; [|reflexivity].
  rewrite !written_app, written_csv_events. f_equal.
  unfold browser_events. cbv zeta.
  destruct (webbrowser_open (host self) _); reflexivity.
Qed.

(** The files of a run that ends with status 0. *)
Lemma run_written (self : Chef) (args : Args) :
  exit_status self args = 0%Z ->
  written (events_of self args) = expected_files self args (all_results_of self args).
Proof.
  intros H0. destruct (run_completed self args H0) as [_ ->].
  destruct (run_always self args) as [-> _].
  rewrite !written_app, (written_scan _ (scan_prefix_scan self args)),
    written_report_events.
  unfold summary_events. rewrite written_logged. cbn [app]. now rewrite app_nil_r.
Qed.

Lemma total_of_sum (r : Results) :
  total_of r =
  List.length (database_instances r) + List.length (compute_missing_automation r) +
  List.length (oversized_compute r) + List.length (unattached_volumes r) +
  List.length (unused_public_ips r) + List.length (empty_load_balancers r) +
  List.length (permissive_security_lists r).
Proof. reflexivity. Qed.

Lemma total_positive (r : Results) (item : string * list Finding) :
  In item (labelled_items r) -> snd item <> [] -> 0 < total_of r.
Proof.
  rewrite total_of_sum. unfold labelled_items. intros Hin Hne.
  repeat (destruct Hin as [<-|Hin];
          [cbn [snd] in Hne;
           match type of Hne with ?d <> [] => destruct d; [now elim Hne | simpl; lia] end|]).
  contradiction.
Qed.

Lemma total_positive_inv (r : Results) :
  0 < total_of r -> exists item, In item (labelled_items r) /\ snd item <> [].
Proof.
  rewrite total_of_sum. unfold labelled_items. intros Hpos.
  destruct (database_instances r) eqn:E1;
    [|eexists; split; [left; reflexivity | cbn; discriminate]].
  destruct (compute_missing_automation r) eqn:E2;
    [|eexists; split; [right; left; reflexivity | cbn; discriminate]].
  destruct (oversized_compute r) eqn:E3;
    [|eexists; split; [do 2 right; left; reflexivity | cbn; discriminate]].
  destruct (unattached_volumes r) eqn:E4;
    [|eexists; split; [do 3 right; left; reflexivity | cbn; discriminate]].
  destruct (unused_public_ips r) eqn:E5;
    [|eexists; split; [do 4 right; left; reflexivity | cbn; discriminate]].
  destruct (empty_load_balancers r) eqn:E6;
    [|eexists; split; [do 5 right; left; reflexivity | cbn; discriminate]].
  destruct (permissive_security_lists r) eqn:E7;
    [|eexists; split; [do 6 right; left; reflexivity | cbn; discriminate]].
  simpl in Hpos. lia.
Qed.

Lemma csv_of_nonempty (data data' : list Finding) :
  csv_of data = csv_of data' -> data' <> [] -> data <> [].
Proof.
  intros H Hne ->. destruct data' as [|f fs]; [now elim Hne|].
  unfold csv_of in H. cbn in H. discriminate H.
Qed.

Lemma nonempty_true (item : string * list Finding) :
  nonempty item = true <-> snd item <> [].
Proof.
  unfold nonempty. destruct (snd item) as [|f fs]; cbn [list_truthy]; split.
  - discriminate.
  - intros H. now elim H.
  - discriminate.
  - reflexivity.
Qed.

(** C8, as the code has it: in every run that ends with status 0, a
    delimited file is written for a category exactly when the category is
    not empty; delimited files and the document are written exactly when the
    grand total is positive; the last log records are the summary with the
    seven counts, and the summary gives the grand total exactly when it is
    positive (otherwise it ends with the no-waste line). *)
Theorem completed_run_reports :
  forall (self : Chef) (args : Args),
    exit_status self args = 0%Z ->
    let r := all_results_of self args in
    let ev := events_of self args in
    written ev = expected_files self args r
    /\ (forall item, In item (labelled_items r) ->
          (In (csv_file self args item) (written ev) <-> snd item <> []))
    /\ ((exists item, In item (labelled_items r) /\
                      In (csv_file self args item) (written ev))
        <-> 0 < total_of r)
    /\ (In (html_file self args r) (written ev) <-> 0 < total_of r)
    /\ (exists before, ev = app before (summary_events r))
    /\ incl (summary_lines r) (summary_block r)
    /\ (In (total_line (total_of r)) (summary_block r) <-> 0 < total_of r).
Proof.
  intros self args H0 r ev.
  pose proof (run_written self args H0) as Hw. fold r ev in Hw.
  assert (Hitem : forall item, In item (labelled_items r) ->
            (In (csv_file self args item) (written ev) <-> snd item <> [])).
  { intros item Hin. rewrite Hw. unfold expected_files. split.
    - destruct (0 <? total_of r)%nat; [|contradiction].
      intros Hf. apply in_app_or in Hf. destruct Hf as [Hf|[Hf|[]]].
      + apply in_map_iff in Hf. destruct Hf as [item' [Heq Hin']].
        apply filter_In in Hin'. destruct Hin' as [_ Hne].
        apply nonempty_true in Hne. apply (f_equal snd) in Heq.
        unfold csv_file in Heq. cbn [snd] in Heq.
        now apply (csv_of_nonempty (snd item) (snd item') (eq_sym Heq)).
      + unfold html_file, csv_file, csv_of in Hf. discriminate Hf.
    - intros Hne. pose proof (total_positive r item Hin Hne) as Hpos.
      apply Nat.ltb_lt in Hpos. rewrite Hpos. apply in_or_app. left.
      apply in_map. apply filter_In. split; [assumption | now apply nonempty_true]. }
  split; [exact Hw|]. split; [exact Hitem|]. split; [|split; [|split; [|split]]].
  - split.
    + intros [item [Hin Hf]]. apply (total_positive r item Hin). now apply Hitem.
    + intros Hpos. destruct (total_positive_inv r Hpos) as [item [Hin Hne]].
      exists item. split; [assumption | now apply Hitem].
  - rewrite Hw. unfold expected_files. split.
    + destruct (0 <? total_of r)%nat eqn:E; [intros _; now apply Nat.ltb_lt | contradiction].
    + intros Hpos. apply Nat.ltb_lt in Hpos. rewrite Hpos.
      apply in_or_app. right. now left.
  - destruct (run_completed self args H0) as [_ Hev].
    destruct (run_always self args) as [Hr _]. fold r in Hr. fold ev in Hev.
    rewrite <- Hr in Hev. rewrite Hev, app_assoc. eexists. reflexivity.
  - unfold summary_block. intros line Hin. apply in_or_app. right.
    apply in_or_app. now left.
  - unfold summary_block. split.
    + destruct (0 <? total_of r)%nat eqn:E; [intros _; now apply Nat.ltb_lt|].
      intros Hin. exfalso.
      apply in_app_or in Hin. destruct Hin as [Hin|Hin];
        [|apply in_app_or in Hin; destruct Hin as [Hin|Hin]].
      * destruct Hin as [Hin|[Hin|[]]]; discriminate Hin.
      * unfold summary_lines, total_line in Hin.
        repeat (destruct Hin as [Hin|Hin]; [discriminate Hin|]). contradiction.
      * destruct Hin as [Hin|[]]. discriminate Hin.
    + intros Hpos. apply Nat.ltb_lt in Hpos. rewrite Hpos.
      apply in_or_app. right. apply in_or_app. right. now left.
Qed.

(** The run over [OneFinding]: one delimited file, for the database
    category, then the document. *)
Lemma completed_run_reports_witness :
  written (events_of OneFinding.chef OneFinding.args) =
  [ csv_file OneFinding.chef OneFinding.args
      ("Database_Production_Shapes",
       [db_system_row "ocid1.tenancy.1" HalfListed.db_system]);
    html_file OneFinding.chef OneFinding.args
      (all_results_of OneFinding.chef OneFinding.args) ].
Proof.
  destruct (completed_run_reports OneFinding.chef OneFinding.args eq_refl) as [Hw _].
  rewrite Hw. reflexivity.
Defined.

(** C8 as stated fails on [Quiet]: the run ends with status 0, nothing is
    found, no report is written, and no log record gives a grand total. *)
Lemma no_total_line_counterexample :
  exit_status Quiet.chef Quiet.args = 0%Z /\
  total_of (all_results_of Quiet.chef Quiet.args) = 0 /\
  written (events_of Quiet.chef Quiet.args) = [] /\
  existsb gives_total (events_of Quiet.chef Quiet.args) = false /\
  ~ In (Logged INFO (total_line 0)) (events_of Quiet.chef Quiet.args) /\
  In (Logged INFO "- Permissive security lists: 0") (events_of Quiet.chef Quiet.args).
Proof.
  split; [reflexivity|]. split; [reflexivity|]. split; [reflexivity|].
  split; [reflexivity|]. split.
  - intros Hin.
    assert (Hex : existsb gives_total (events_of Quiet.chef Quiet.args) = true).
    { apply existsb_exists. eexists. split; [exact Hin | reflexivity]. }
    discriminate Hex.
  - vm_compute. tauto.
Qed.

(** ** Two runs over the same inventory *)

Lemma run_results_inventory (inventory : Cloud) (tenancy_id : string)
    (ids : option (list string)) (host1 host2 : Host) (out1 out2 : string) :
  run_results (mkChef inventory host1 tenancy_id) (mkArgs out1 ids) =
  run_results (mkChef inventory host2 tenancy_id) (mkArgs out2 ids).
Proof. reflexivity. Qed.

Lemma expected_files_contents (self : Chef) (args : Args) (r : Results) :
  map finding_contents (expected_files self args r) =
  if (0 <? total_of r)%nat
  then app (map (fun item => csv_of (snd item)) (filter nonempty (labelled_items r)))
           [Html (mkHtmlReport "" (total_counts (html_document "" r))
                               (total_issues (html_document "" r))
                               (sections (html_document "" r)))]
  else [].
Proof.
  unfold expected_files. destruct (0 <? total_of r)%nat; [|reflexivity].
  rewrite map_app, map_map. reflexivity.
Qed.

(** C9: two runs over the same inventory, on any two machines and into any
    two output directories, end with the same findings in the same order in
    every category; when both end with status 0 they write the same files in
    the same order, up to the file names and the time stamp of the
    document. *)
Theorem two_runs_same_findings :
  forall (inventory : Cloud) (tenancy_id : string) (ids : option (list string))
         (host1 host2 : Host) (out1 out2 : string),
    let self1 := mkChef inventory host1 tenancy_id in
    let self2 := mkChef inventory host2 tenancy_id in
    let args1 := mkArgs out1 ids in
    let args2 := mkArgs out2 ids in
    all_results_of self1 args1 = all_results_of self2 args2
    /\ (exit_status self1 args1 = 0%Z -> exit_status self2 args2 = 0%Z ->
        map finding_contents (written (events_of self1 args1)) =
        map finding_contents (written (events_of self2 args2))).
Proof.
  intros inventory tenancy_id ids host1 host2 out1 out2 self1 self2 args1 args2.
  assert (Hr : all_results_of self1 args1 = all_results_of self2 args2).
  { destruct (run_always self1 args1) as [-> _].
    destruct (run_always self2 args2) as [-> _].
    apply run_results_inventory. }
  split; [exact Hr|].
  intros H1 H2. rewrite (run_written self1 args1 H1), (run_written self2 args2 H2).
  rewrite !expected_files_contents, Hr. reflexivity.
Qed.

(** The inventory [OneFinding] scanned from two machines into two
    directories. *)
Lemma two_runs_same_findings_witness :
  map finding_contents (written (events_of OneFinding.chef OneFinding.args)) =
  map finding_contents
      (written (events_of (mkChef OneFinding.inventory Elsewhere.machine "ocid1.tenancy.1")
                          (mkArgs "/tmp/out/" None))).
Proof.
  destruct (two_runs_same_findings OneFinding.inventory "ocid1.tenancy.1" None
              OpenSsh.machine Elsewhere.machine "reports" "/tmp/out/") as [_ H].
  apply H; reflexivity.
Defined.

(** * Further properties of the scanners, the aggregation and the reports *)

(** ** Automation tags *)

Lemma prefix_occurs (sub s : string) :
  String.prefix sub s = true <-> exists after, s = sub ++ after.
Proof.
  revert s. induction sub as [|c sub IH]; intros s; simpl.
  - split; [intros _; now exists s | intros _; now destruct s].
  - destruct s as [|d s].
    + split; [discriminate | intros [after H]; discriminate H].
    + simpl. destruct (Ascii.ascii_dec c d) as [->|Hne].
      * rewrite IH. split; intros [after H]; exists after.
        -- now rewrite H.
        -- now inversion H.
      * split; [discriminate|]. intros [after H]. inversion H. now elim Hne.
Qed.

Lemma contains_occurs (sub s : string) :
  contains sub s = true <-> occurs_in sub s.
Proof.
  unfold occurs_in. induction s as [|d s IH].
  - cbn [contains]. rewrite orb_false_r, prefix_occurs. split.
    + intros [after H]. now exists "", after.
    + intros [[|b before] [after H]]; [now exists after | discriminate H].
  - cbn [contains]. rewrite orb_true_iff, IH, prefix_occurs. split.
    + intros [[after H]|[before [after H]]].
      * now exists "", after.
      * exists (String d before), after. simpl. now rewrite H.
    + intros [[|b before] [after H]].
      * left. now exists after.
      * right. exists before, after. now inversion H.
Qed.

Lemma automation_tag_keys_lower (auto_key : string) :
  In auto_key automation_tag_keys -> lower auto_key = auto_key.
Proof.
  unfold automation_tag_keys. simpl.
  intros H. repeat (destruct H as [<-|H]; [reflexivity|]). contradiction.
Qed.

Lemma has_automation_tags_existsb (resource_tags : option TagSet) :
  has_automation_tags resource_tags =
  existsb (fun key =>
             existsb (fun auto_key => contains (lower auto_key) (lower key))
                     automation_tag_keys)
          (tag_keys resource_tags).
Proof.
  destruct resource_tags as [t|]; [|reflexivity].
  unfold has_automation_tags, tag_keys.
  rewrite !guarded_existsb, existsb_app, existsb_map, existsb_flat_map.
  f_equal. apply existsb_ext_eq. intros ns. now rewrite existsb_map.
Qed.

(** A resource has automation tags exactly when one of its tag keys,
    lower-cased, holds one of the five automation words
    ([has_automation_tags], lines 163-183).  Only the keys count: tag values
    and namespace names are never looked at, so two tag sets with the same
    keys get the same answer, and a resource without any tag key has no
    automation tag. *)
Theorem has_automation_tags_spec :
  (forall resource_tags,
     has_automation_tags resource_tags = true <->
     exists key auto_key,
       In key (tag_keys resource_tags) /\ In auto_key automation_tag_keys /\
       occurs_in auto_key (lower key))
  /\ (forall tags1 tags2,
        tag_keys tags1 = tag_keys tags2 ->
        has_automation_tags tags1 = has_automation_tags tags2)
  /\ (forall resource_tags,
        tag_keys resource_tags = [] -> has_automation_tags resource_tags = false).
Proof.
  split; [|split].
  - intros resource_tags. rewrite has_automation_tags_existsb, existsb_exists. split.
    + intros [key [Hkey Hex]]. apply existsb_exists in Hex.
      destruct Hex as [auto_key [Hauto Hc]].
      rewrite (automation_tag_keys_lower _ Hauto) in Hc.
      exists key, auto_key. repeat split; try assumption. now apply contains_occurs.
    + intros [key [auto_key [Hkey [Hauto Hocc]]]].
      exists key. split; [assumption|]. apply existsb_exists.
      exists auto_key. split; [assumption|].
      rewrite (automation_tag_keys_lower _ Hauto). now apply contains_occurs.
  - intros tags1 tags2 Heq. now rewrite !has_automation_tags_existsb, Heq.
  - intros resource_tags Heq. now rewrite has_automation_tags_existsb, Heq.
Qed.

Lemma has_automation_tags_spec_witness :
  has_automation_tags
    (Some (mkTagSet (Some [("env", "dev"); ("Nightly-Schedule", "19:00")]) None)) =
  has_automation_tags
    (Some (mkTagSet None (Some [("ops", [("env", "prod"); ("Nightly-Schedule", "")])]))).
Proof.
  apply (proj1 (proj2 has_automation_tags_spec)). reflexivity.
Defined.

(** ** Exact results of the scanners *)

Lemma filter_loop {X : Type} (p : X -> bool) (row : X -> Finding) (xs : list X)
    (results : list Finding) :
  for_each xs (fun x => if p x then append (row x) else ret tt) results =
  (inr tt, app results (map row (filter p xs)), []).
Proof.
  rewrite (for_each_returns _
             (fun x results => if p x then app results [row x] else results)
             (fun _ => [])).
  - rewrite fold_append_filter. f_equal.
    clear. induction xs; simpl; auto.
  - intros x l _. destruct (p x); reflexivity.
Qed.

Lemma flags_public_ip_iff (public_ip : PublicIp.t) :
  flags_public_ip public_ip = true <->
  is_dev_test_resource (Some (PublicIp.tags public_ip)) = true /\
  PublicIp.lifecycle_state public_ip = "AVAILABLE" /\
  (PublicIp.assigned_entity_id public_ip = None \/
   PublicIp.assigned_entity_id public_ip = Some "").
Proof.
  unfold flags_public_ip. rewrite !andb_true_iff, String.eqb_eq, negb_true_iff.
  destruct (PublicIp.assigned_entity_id public_ip) as [[|c s]|]; simpl.
  - tauto.
  - split; [intros [_ H]; discriminate H|].
    intros [_ [_ [H|H]]]; discriminate H.
  - tauto.
Qed.

(** The public IP scanner ([check_unused_public_ips], lines 332-364) makes
    one listing call.  When it answers, the scanner returns one finding for
    every listed address that has a dev/test tag, is AVAILABLE and has no
    assigned entity ([None] or the empty string), in the order of the
    listing, and nothing else; when it raises, the scanner logs a warning and
    returns no finding. *)
Theorem check_unused_public_ips_spec :
  (forall self compartment_id,
     check_unused_public_ips self compartment_id tt =
     match list_public_ips (cloud self) compartment_id with
     | inr public_ips =>
         (inr (map (public_ip_row compartment_id) (filter flags_public_ip public_ips)), tt,
          [Logged INFO ("Checking public IPs in compartment: " ++ compartment_id);
           Called (ListPublicIps compartment_id)])
     | inl msg =>
         (inr [], tt,
          [Logged INFO ("Checking public IPs in compartment: " ++ compartment_id);
           Called (ListPublicIps compartment_id);
           Logged WARNING ("Error checking public IPs: " ++ msg)])
     end)
  /\ (forall public_ip,
        flags_public_ip public_ip = true <->
        is_dev_test_resource (Some (PublicIp.tags public_ip)) = true /\
        PublicIp.lifecycle_state public_ip = "AVAILABLE" /\
        (PublicIp.assigned_entity_id public_ip = None \/
         PublicIp.assigned_entity_id public_ip = Some "")).
Proof.
  split; [|exact flags_public_ip_iff].
  intros self compartment_id. rewrite check_unused_public_ips_shell.
  destruct (list_public_ips (cloud self) compartment_id) as [msg|public_ips] eqn:El.
  - now apply scanner_shell_listing_fails.
  - apply (scanner_shell_returns _ _ _ _ _ _ public_ips); [reflexivity|].
    apply (filter_loop flags_public_ip).
Qed.

Lemma check_unused_public_ips_spec_witness :
  outcome (check_unused_public_ips Addresses.chef "ocid1.compartment.1" tt) =
  inr [public_ip_row "ocid1.compartment.1" Addresses.free;
       public_ip_row "ocid1.compartment.1" Addresses.blank].
Proof.
  rewrite (proj1 check_unused_public_ips_spec Addresses.chef "ocid1.compartment.1").
  reflexivity.
Defined.

(** ** The database scanner *)

Lemma check_database_instances_unfold {L : Type} (self : Chef) (compartment_id : string) :
  @check_database_instances L self compartment_id =
  frame ([] : list Finding)
    (try_except (database_body self compartment_id)
       (fun e => logger_warning ("Error checking database instances: " ++ e)) ;;
     get_locals).
Proof. reflexivity. Qed.

(** Up to the second loop, a database scan whose listings answer has
    appended the findings of the DB systems. *)
Lemma database_body_run (self : Chef) (compartment_id : string)
    (db_systems : list DbSystem.t) (autonomous_dbs : list AutonomousDatabase.t) :
  list_db_systems (cloud self) compartment_id = inr db_systems ->
  list_autonomous_databases (cloud self) compartment_id = inr autonomous_dbs ->
  database_body self compartment_id [] =
  prepend (database_calls compartment_id)
          (for_each autonomous_dbs (autonomous_db_body compartment_id)
                    (map (db_system_row compartment_id)
                         (filter flags_db_system db_systems))).
Proof.
  intros Hdb Hadb. unfold database_body.
  rewrite (bind_run (logger_info _) _ [] [] tt _ eq_refl).
  unfold api at 1. rewrite Hdb.
  rewrite (bind_run _ _ [] [] db_systems [Called (ListDbSystems compartment_id)] eq_refl).
  rewrite (bind_run _ _ _ _ _ _ (filter_loop flags_db_system _ db_systems [])).
  unfold api. rewrite Hadb. cbn [app].
  set (found := map (db_system_row compartment_id) (filter flags_db_system db_systems)).
  rewrite (bind_run (fun l : list Finding =>
                       (inr autonomous_dbs, l,
                        [Called (ListAutonomousDatabases compartment_id)]))
                    _ found found autonomous_dbs
                    [Called (ListAutonomousDatabases compartment_id)] eq_refl).
  rewrite !prepend_prepend. reflexivity.
Qed.

Lemma autonomous_db_body_returns (compartment_id : string) (adb : AutonomousDatabase.t)
    (results : list Finding) :
  core_count_known adb ->
  autonomous_db_body compartment_id adb results =
  (inr tt,
   if flags_autonomous_db adb
   then app results [autonomous_db_row compartment_id adb] else results,
   []).
Proof.
  unfold core_count_known, autonomous_db_body, flags_autonomous_db. intros Hknown.
  destruct (is_dev_test_resource (Some (AutonomousDatabase.tags adb))); [|reflexivity].
  destruct (Hknown eq_refl) as [cores Hc]. rewrite Hc. cbn [andb py_ge_int].
  unfold bind, ret. cbn [app].
  destruct ((4 <=? cores)%Z && (AutonomousDatabase.lifecycle_state adb =? "AVAILABLE"));
    reflexivity.
Qed.

Lemma autonomous_db_body_raises (compartment_id : string) (adb : AutonomousDatabase.t)
    (results : list Finding) :
  is_dev_test_resource (Some (AutonomousDatabase.tags adb)) = true ->
  AutonomousDatabase.cpu_core_count adb = PNone ->
  autonomous_db_body compartment_id adb results =
  (inl (Exception none_ge_int), results, []).
Proof.
  unfold autonomous_db_body. intros -> ->. reflexivity.
Qed.

Lemma autonomous_dbs_loop_returns (compartment_id : string)
    (autonomous_dbs : list AutonomousDatabase.t) (results : list Finding) :
  Forall core_count_known autonomous_dbs ->
  for_each autonomous_dbs (autonomous_db_body compartment_id) results =
  (inr tt,
   app results (map (autonomous_db_row compartment_id)
                    (filter flags_autonomous_db autonomous_dbs)),
   []).
Proof.
  intros Hknown.
  rewrite (for_each_returns _
             (fun adb results => if flags_autonomous_db adb
                                 then app results [autonomous_db_row compartment_id adb]
                                 else results)
             (fun _ => [])).
  - rewrite fold_append_filter. f_equal.
    clear. induction autonomous_dbs; simpl; auto.
  - intros adb l Hin. apply autonomous_db_body_returns.
    rewrite Forall_forall in Hknown. now apply Hknown.
Qed.

Lemma autonomous_dbs_loop_raises (compartment_id : string)
    (before after : list AutonomousDatabase.t) (adb : AutonomousDatabase.t)
    (results : list Finding) :
  Forall core_count_known before ->
  is_dev_test_resource (Some (AutonomousDatabase.tags adb)) = true ->
  AutonomousDatabase.cpu_core_count adb = PNone ->
  for_each (app before (adb :: after)) (autonomous_db_body compartment_id) results =
  (inl (Exception none_ge_int),
   app results (map (autonomous_db_row compartment_id)
                    (filter flags_autonomous_db before)),
   []).
Proof.
  intros Hknown Hdev Hnone.
  rewrite (for_each_raises _
             (fun adb results => if flags_autonomous_db adb
                                 then app results [autonomous_db_row compartment_id adb]
                                 else results)
             (fun _ => []) before after adb results
             (app results (map (autonomous_db_row compartment_id)
                               (filter flags_autonomous_db before)))
             (Exception none_ge_int) []).
  - f_equal. rewrite app_nil_r. clear. induction before; simpl; auto.
  - intros adb' l Hin. apply autonomous_db_body_returns.
    rewrite Forall_forall in Hknown. now apply Hknown.
  - rewrite fold_append_filter. now apply autonomous_db_body_raises.
Qed.

(** The database scanner ([check_database_instances], lines 200-250) makes
    two listing calls.  When both answer and every dev/test autonomous
    database carries an integer core count, it returns the findings of the DB
    systems that have a dev/test tag, a production shape and the status
    AVAILABLE, followed by those of the autonomous databases that have a
    dev/test tag, four cores or more and the status AVAILABLE, each group in
    the order of its listing. *)
Theorem check_database_instances_spec :
  forall (self : Chef) (compartment_id : string)
         (db_systems : list DbSystem.t) (autonomous_dbs : list AutonomousDatabase.t),
    list_db_systems (cloud self) compartment_id = inr db_systems ->
    list_autonomous_databases (cloud self) compartment_id = inr autonomous_dbs ->
    Forall core_count_known autonomous_dbs ->
    check_database_instances self compartment_id tt =
    (inr (app (map (db_system_row compartment_id) (filter flags_db_system db_systems))
              (map (autonomous_db_row compartment_id)
                   (filter flags_autonomous_db autonomous_dbs))),
     tt, database_calls compartment_id).
Proof.
  intros self compartment_id db_systems autonomous_dbs Hdb Hadb Hknown.
  rewrite check_database_instances_unfold, frame_run.
  assert (Hbody :
    try_except (database_body self compartment_id)
      (fun e => logger_warning ("Error checking database instances: " ++ e)) [] =
    (inr tt,
     app (map (db_system_row compartment_id) (filter flags_db_system db_systems))
         (map (autonomous_db_row compartment_id)
              (filter flags_autonomous_db autonomous_dbs)),
     database_calls compartment_id)).
  { unfold try_except.
    rewrite (database_body_run _ _ _ _ Hdb Hadb), autonomous_dbs_loop_returns by assumption.
    unfold prepend. cbn [outcome locals events fst snd]. now rewrite app_nil_r. }
  rewrite (bind_run _ _ _ _ _ _ Hbody). unfold prepend, get_locals.
  cbn [outcome locals events fst snd]. now rewrite app_nil_r.
Qed.

Lemma check_database_instances_spec_witness :
  check_database_instances OneFinding.chef "ocid1.compartment.1" tt =
  (inr [db_system_row "ocid1.compartment.1" HalfListed.db_system], tt,
   database_calls "ocid1.compartment.1").
Proof.
  apply (check_database_instances_spec OneFinding.chef "ocid1.compartment.1"
           [HalfListed.db_system] []); [reflexivity | reflexivity | constructor].
Defined.

(** A dev/test autonomous database without a core count stops the database
    scan (line 231): [None >= 4] raises a [TypeError], which the handler of
    the scanner turns into a warning.  The findings of the DB systems and of
    the autonomous databases listed before it are returned; the databases
    listed after it are not examined.  The comparison comes before the test
    of the status, so the status of the database does not matter. *)
Theorem autonomous_db_without_core_count_stops_scan :
  forall (self : Chef) (compartment_id : string) (db_systems : list DbSystem.t)
         (before after : list AutonomousDatabase.t) (adb : AutonomousDatabase.t),
    list_db_systems (cloud self) compartment_id = inr db_systems ->
    list_autonomous_databases (cloud self) compartment_id =
    inr (app before (adb :: after)) ->
    Forall core_count_known before ->
    is_dev_test_resource (Some (AutonomousDatabase.tags adb)) = true ->
    AutonomousDatabase.cpu_core_count adb = PNone ->
    check_database_instances self compartment_id tt =
    (inr (app (map (db_system_row compartment_id) (filter flags_db_system db_systems))
              (map (autonomous_db_row compartment_id)
                   (filter flags_autonomous_db before))),
     tt,
     app (database_calls compartment_id)
         [Logged WARNING ("Error checking database instances: " ++ none_ge_int)]).
Proof.
  intros self compartment_id db_systems before after adb Hdb Hadb Hknown Hdev Hnone.
  rewrite check_database_instances_unfold, frame_run.
  assert (Hbody :
    try_except (database_body self compartment_id)
      (fun e => logger_warning ("Error checking database instances: " ++ e)) [] =
    (inr tt,
     app (map (db_system_row compartment_id) (filter flags_db_system db_systems))
         (map (autonomous_db_row compartment_id) (filter flags_autonomous_db before)),
     app (database_calls compartment_id)
         [Logged WARNING ("Error checking database instances: " ++ none_ge_int)])).
  { unfold try_except.
    rewrite (database_body_run _ _ _ _ Hdb Hadb), autonomous_dbs_loop_raises
      by assumption.
    unfold prepend. cbn [outcome locals events fst snd]. now rewrite app_nil_r. }
  rewrite (bind_run _ _ _ _ _ _ Hbody). unfold prepend, get_locals.
  cbn [outcome locals events fst snd]. now rewrite app_nil_r.
Qed.

Lemma autonomous_db_without_core_count_stops_scan_witness :
  outcome (check_database_instances Ecpu.chef "ocid1.compartment.1" tt) =
  inr [db_system_row "ocid1.compartment.1" HalfListed.db_system;
       autonomous_db_row "ocid1.compartment.1" Ecpu.first]
  /\ flags_autonomous_db Ecpu.last = true.
Proof.
  split; [|reflexivity].
  rewrite (autonomous_db_without_core_count_stops_scan Ecpu.chef "ocid1.compartment.1"
             [HalfListed.db_system] [Ecpu.first] [Ecpu.last] Ecpu.ecpu);
    try reflexivity.
  constructor; [|constructor]. intros _. now exists 8%Z.
Defined.

(** ** Scanners with a secondary call *)

Lemma secondary_findings_filter {X D : Type} (guard : X -> bool) (answer : X -> Answer D)
    (keep : X -> D -> bool) (row : X -> Finding) (xs : list X) :
  flat_map (secondary_findings guard answer keep row) xs =
  map row (filter (fun x => guard x &&
                            match answer x with
                            | inr d => keep x d
                            | inl _ => false
                            end) xs).
Proof.
  induction xs as [|x xs IH]; simpl; [reflexivity|].
  rewrite IH. unfold secondary_findings.
  destruct (guard x); [|reflexivity].
  destruct (answer x) as [msg|d]; [reflexivity|].
  destruct (keep x d); reflexivity.
Qed.

Lemma secondary_calls_filter {X : Type} (guard : X -> bool) (c : X -> ApiCall)
    (xs : list X) :
  flat_map (secondary_calls guard c) xs = map (fun x => Called (c x)) (filter guard xs).
Proof.
  induction xs as [|x xs IH]; simpl; [reflexivity|].
  rewrite IH. unfold secondary_calls. destruct (guard x); reflexivity.
Qed.

Lemma flags_volume_iff (self : Chef) (compartment_id : string) (volume : Volume.t) :
  flags_volume self compartment_id volume = true <->
  is_dev_test_resource (Some (Volume.tags volume)) = true /\
  Volume.lifecycle_state volume = "AVAILABLE" /\
  list_volume_attachments (cloud self) compartment_id (Volume.id volume) = inr [].
Proof.
  unfold flags_volume, eligible_volume, volume_attachments.
  rewrite !andb_true_iff, String.eqb_eq.
  destruct (list_volume_attachments (cloud self) compartment_id (Volume.id volume))
    as [msg|[|a attachments]].
  - split; [intros [_ H]; discriminate H | intros [_ [_ H]]; discriminate H].
  - tauto.
  - split; [intros [_ H]; discriminate H | intros [_ [_ H]]; discriminate H].
Qed.

(** The volume scanner ([check_unattached_volumes], lines 296-330).  When
    the listing and the attachment lookups answer, it returns one finding for
    every listed volume that has a dev/test tag, is AVAILABLE and whose
    attachment lookup answers the empty list, in the order of the listing.
    The attachments are looked up once for each dev/test AVAILABLE volume and
    for no other volume. *)
Theorem check_unattached_volumes_spec :
  (forall self compartment_id volumes,
     list_volumes (cloud self) compartment_id = inr volumes ->
     secondary_answered eligible_volume (volume_attachments self compartment_id) volumes ->
     check_unattached_volumes self compartment_id tt =
     (inr (map (volume_row compartment_id)
               (filter (flags_volume self compartment_id) volumes)),
      tt,
      Logged INFO ("Checking block volumes in compartment: " ++ compartment_id)
      :: Called (ListVolumes compartment_id)
      :: map (fun volume =>
                Called (ListVolumeAttachments compartment_id (Volume.id volume)))
             (filter eligible_volume volumes)))
  /\ (forall self compartment_id volume,
        flags_volume self compartment_id volume = true <->
        is_dev_test_resource (Some (Volume.tags volume)) = true /\
        Volume.lifecycle_state volume = "AVAILABLE" /\
        list_volume_attachments (cloud self) compartment_id (Volume.id volume) = inr []).
Proof.
  split; [|exact flags_volume_iff].
  intros self compartment_id volumes Hl Ha.
  rewrite (check_unattached_volumes_returns self compartment_id volumes tt Hl Ha).
  unfold volume_findings, volume_calls.
  rewrite secondary_findings_filter, secondary_calls_filter.
  assert (Hf : forall volume,
             eligible_volume volume &&
             match volume_attachments self compartment_id volume with
             | inr d => unattached volume d
             | inl _ => false
             end = flags_volume self compartment_id volume).
  { intros volume. unfold flags_volume, unattached.
    destruct (eligible_volume volume); [|reflexivity].
    destruct (volume_attachments self compartment_id volume) as [msg|[|a l]];
      reflexivity. }
  now rewrite (filter_ext _ _ Hf).
Qed.

Lemma check_unattached_volumes_spec_witness :
  check_unattached_volumes Disks.chef "ocid1.compartment.1" tt =
  (inr [volume_row "ocid1.compartment.1" Disks.loose], tt,
   [Logged INFO "Checking block volumes in compartment: ocid1.compartment.1";
    Called (ListVolumes "ocid1.compartment.1");
    Called (ListVolumeAttachments "ocid1.compartment.1" "ocid1.volume.10");
    Called (ListVolumeAttachments "ocid1.compartment.1" "ocid1.volume.11")]).
Proof.
  rewrite (proj1 check_unattached_volumes_spec Disks.chef "ocid1.compartment.1"
             [Disks.loose; Disks.mounted; Disks.fresh] eq_refl).
  - reflexivity.
  - intros volume _ _. unfold volume_attachments. cbn.
    destruct (Volume.id volume =? "ocid1.volume.11"); eexists; reflexivity.
Defined.

Lemma has_backends_iff (lb_details : LoadBalancer.t) :
  has_backends lb_details = true <-> some_backend lb_details.
Proof.
  unfold has_backends, some_backend. rewrite guarded_existsb, existsb_exists. split.
  - intros [[name backend_set] [Hin Ht]]. simpl in Ht.
    destruct (BackendSet.backends backend_set) as [|backend backends] eqn:Eb;
      [discriminate Ht|].
    exists name, backend_set, backend. split; [assumption|]. rewrite Eb. now left.
  - intros [name [backend_set [backend [Hin Hb]]]].
    exists (name, backend_set). split; [assumption|]. simpl.
    destruct (BackendSet.backends backend_set); [contradiction | reflexivity].
Qed.

Lemma flags_load_balancer_iff (self : Chef) (lb : LoadBalancer.t) :
  flags_load_balancer self lb = true <->
  is_dev_test_resource (Some (LoadBalancer.tags lb)) = true /\
  LoadBalancer.lifecycle_state lb = "ACTIVE" /\
  exists lb_details,
    get_load_balancer (cloud self) (LoadBalancer.id lb) = inr lb_details /\
    ~ some_backend lb_details.
Proof.
  unfold flags_load_balancer, eligible_load_balancer, load_balancer_details.
  rewrite !andb_true_iff, String.eqb_eq.
  destruct (get_load_balancer (cloud self) (LoadBalancer.id lb)) as [msg|lb_details].
  - split; [intros [_ H]; discriminate H|].
    intros [_ [_ [d [H _]]]]. discriminate H.
  - rewrite negb_true_iff, <- not_true_iff_false, has_backends_iff. split.
    + intros [[Hd Hs] Hn]. repeat split; try assumption. now exists lb_details.
    + intros [Hd [Hs [d [Heq Hn]]]]. inversion Heq; subst. auto.
Qed.

(** The load balancer scanner ([check_empty_load_balancers], lines
    366-403).  When the listing and the detail lookups answer, it returns one
    finding for every listed load balancer that has a dev/test tag, is ACTIVE
    and whose details show no backend set with a backend (no backend set at
    all, or only empty ones), in the order of the listing.  The details are
    looked up once for each dev/test ACTIVE load balancer and for no other
    one. *)
Theorem check_empty_load_balancers_spec :
  (forall self compartment_id load_balancers,
     list_load_balancers (cloud self) compartment_id = inr load_balancers ->
     secondary_answered eligible_load_balancer (load_balancer_details self)
                        load_balancers ->
     check_empty_load_balancers self compartment_id tt =
     (inr (map (load_balancer_row compartment_id)
               (filter (flags_load_balancer self) load_balancers)),
      tt,
      Logged INFO ("Checking load balancers in compartment: " ++ compartment_id)
      :: Called (ListLoadBalancers compartment_id)
      :: map (fun lb => Called (GetLoadBalancer (LoadBalancer.id lb)))
             (filter eligible_load_balancer load_balancers)))
  /\ (forall self lb,
        flags_load_balancer self lb = true <->
        is_dev_test_resource (Some (LoadBalancer.tags lb)) = true /\
        LoadBalancer.lifecycle_state lb = "ACTIVE" /\
        exists lb_details,
          get_load_balancer (cloud self) (LoadBalancer.id lb) = inr lb_details /\
          ~ some_backend lb_details).
Proof.
  split; [|exact flags_load_balancer_iff].
  intros self compartment_id load_balancers Hl Ha.
  rewrite (check_empty_load_balancers_returns self compartment_id load_balancers tt Hl Ha).
  unfold load_balancer_findings, load_balancer_calls.
  rewrite secondary_findings_filter, secondary_calls_filter. reflexivity.
Qed.

Lemma check_empty_load_balancers_spec_witness :
  outcome (check_empty_load_balancers Balancers.chef "ocid1.compartment.1" tt) =
  inr [load_balancer_row "ocid1.compartment.1" Balancers.bare;
       load_balancer_row "ocid1.compartment.1" Balancers.hollow].
Proof.
  rewrite (proj1 check_empty_load_balancers_spec Balancers.chef "ocid1.compartment.1"
             [Balancers.bare; Balancers.hollow; Balancers.busy; Balancers.young] eq_refl).
  - reflexivity.
  - intros lb Hin Hg. unfold load_balancer_details.
    destruct Hin as [<-|[<-|[<-|[<-|[]]]]]; try (eexists; reflexivity).
    discriminate Hg.
Defined.

(** ** Resolution of the scopes *)

Lemma compartment_eta (comp : Compartment.t) :
  Compartment.mk (Compartment.id comp) (Compartment.name comp)
                 (Compartment.lifecycle_state comp) = comp.
Proof. now destruct comp. Qed.

Lemma lookup_body_run (self : Chef) (comp_id : string) (compartments : list Compartment.t) :
  try_except
    (comp <- api (GetCompartment comp_id) (get_compartment (cloud self) comp_id) ;;
     append (Compartment.mk (Compartment.id comp) (Compartment.name comp)
                            (Compartment.lifecycle_state comp)))
    (fun e => logger_warning ("Could not access compartment " ++ comp_id ++ ": " ++ e))
    compartments =
  (inr tt, app compartments (lookup_compartment self comp_id), lookup_events self comp_id).
Proof.
  unfold try_except, bind, api, append, modify, logger_warning, emit, lookup_compartment,
    lookup_events.
  destruct (get_compartment (cloud self) comp_id) as [msg|comp].
  - now rewrite app_nil_r.
  - now rewrite compartment_eta.
Qed.

Lemma get_compartments_ids_run (self : Chef) (ids : list string) :
  ids <> [] ->
  get_compartments self (Some ids) tt =
  (inr (flat_map (lookup_compartment self) ids), tt,
   flat_map (lookup_events self) ids).
Proof.
  destruct ids as [|comp_id ids]; intros Hne; [contradiction|].
  unfold get_compartments. rewrite frame_run.
  assert (Hloop : forall xs compartments,
    for_each xs (fun comp_id =>
      try_except
        (comp <- api (GetCompartment comp_id) (get_compartment (cloud self) comp_id) ;;
         append (Compartment.mk (Compartment.id comp) (Compartment.name comp)
                                (Compartment.lifecycle_state comp)))
        (fun e => logger_warning ("Could not access compartment " ++ comp_id ++ ": " ++ e)))
      compartments =
    (inr tt, app compartments (flat_map (lookup_compartment self) xs),
     flat_map (lookup_events self) xs)).
  { intros xs compartments.
    rewrite (for_each_returns _
               (fun comp_id compartments =>
                  app compartments (lookup_compartment self comp_id))
               (lookup_events self)).
    - now rewrite fold_append_flat.
    - intros x l _. apply lookup_body_run. }
  rewrite (bind_run _ _ _ _ _ _ (Hloop (comp_id :: ids) [])).
  unfold prepend, get_locals. cbn [outcome locals events fst snd].
  now rewrite app_nil_r.
Qed.

(** With a list of compartment ids, [get_compartments] (lines 114-128)
    looks every id up, once and in order.  It returns the compartments whose
    lookup answered, in the order of the ids and with their repetitions; an
    id whose lookup raises is left out with a warning.  It never raises and
    never falls back on the tenancy. *)
Theorem get_compartments_ids_spec :
  forall (self : Chef) (ids : list string),
    ids <> [] ->
    get_compartments self (Some ids) tt =
    (inr (flat_map (lookup_compartment self) ids), tt,
     flat_map (lookup_events self) ids).
Proof. exact get_compartments_ids_run. Qed.

Lemma get_compartments_ids_spec_witness :
  get_compartments Partial.chef
    (Some ["ocid1.compartment.a"; "ocid1.compartment.x"; "ocid1.compartment.a"]) tt =
  (inr [Compartment.mk "ocid1.compartment.a" "alpha" "ACTIVE";
        Compartment.mk "ocid1.compartment.a" "alpha" "ACTIVE"], tt,
   [Called (GetCompartment "ocid1.compartment.a");
    Called (GetCompartment "ocid1.compartment.x");
    Logged WARNING "Could not access compartment ocid1.compartment.x: NotAuthorizedOrNotFound";
    Called (GetCompartment "ocid1.compartment.a")]).
Proof.
  rewrite (get_compartments_ids_spec Partial.chef
             ["ocid1.compartment.a"; "ocid1.compartment.x"; "ocid1.compartment.a"]).
  - reflexivity.
  - discriminate.
Defined.

Lemma get_compartments_root_run (self : Chef) (ids : option (list string)) :
  ids = None \/ ids = Some [] ->
  get_compartments self ids tt =
  match get_compartment (cloud self) (tenancy self) with
  | inr root => (inr [root], tt, [Called (GetCompartment (tenancy self))])
  | inl msg =>
      (inr [], tt,
       [Called (GetCompartment (tenancy self));
        Logged ERROR ("Could not access root compartment: " ++ msg)])
  end.
Proof.
  intros [->| ->]; unfold get_compartments, try_except, bind, api, ret,
    logger_error, emit;
    destruct (get_compartment (cloud self) (tenancy self)) as [msg|root];
    try reflexivity; now rewrite compartment_eta.
Qed.

(** Without compartment ids, [get_compartments] (lines 129-141) looks the
    tenancy up, once: it returns the root compartment alone, or no
    compartment and an error record when the lookup raises.  An empty list of
    ids is falsy and takes the same branch. *)
Theorem get_compartments_root_spec :
  forall (self : Chef) (ids : option (list string)),
    ids = None \/ ids = Some [] ->
    get_compartments self ids tt =
    match get_compartment (cloud self) (tenancy self) with
    | inr root => (inr [root], tt, [Called (GetCompartment (tenancy self))])
    | inl msg =>
        (inr [], tt,
         [Called (GetCompartment (tenancy self));
          Logged ERROR ("Could not access root compartment: " ++ msg)])
    end.
Proof. exact get_compartments_root_run. Qed.

Lemma get_compartments_root_spec_witness :
  get_compartments Partial.chef (Some []) tt =
  (inr [], tt,
   [Called (GetCompartment "ocid1.tenancy.1");
    Logged ERROR "Could not access root compartment: NotAuthorizedOrNotFound"]).
Proof.
  rewrite (get_compartments_root_spec Partial.chef (Some [])); [reflexivity | now right].
Defined.

(** ** Runs, whatever can be written *)

Lemma write_all_app (self : Chef) (a b : list (string * FileContent)) :
  write_all self (app a b) =
  match snd (write_all self a) with
  | None => (app (fst (write_all self a)) (fst (write_all self b)),
             snd (write_all self b))
  | Some msg => (fst (write_all self a), Some msg)
  end.
Proof.
  induction a as [|file a IH]; simpl.
  - now destruct (write_all self b).
  - destruct (open_w (host self) (fst file)); [reflexivity|].
    cbn [fst snd]. rewrite IH. now destruct (snd (write_all self a)).
Qed.

Lemma written_file_events (files : list (string * FileContent)) :
  written (flat_map file_events files) = files.
Proof.
  induction files as [|[name content] files IH]; [reflexivity|].
  cbn [flat_map]. rewrite written_app, IH. reflexivity.
Qed.

Lemma relabel_items (r : Results) : map relabel (results_items r) = labelled_items r.
Proof. reflexivity. Qed.

Lemma results_items_labelled (r : Results) :
  Forall (fun item => dict_lookup report_mappings (fst item) <> None) (results_items r).
Proof. unfold results_items. repeat constructor; discriminate. Qed.

(** The loop of [export_to_csv] writes the files of the non-empty
    categories in order and raises at the first one that cannot be opened. *)
Lemma export_loop_run (self : Chef) (args : Args) (items : list (string * list Finding))
    (csv_files : list string) :
  Forall (fun item => dict_lookup report_mappings (fst item) <> None) items ->
  for_each items (export_body self args) csv_files =
  (match snd (write_all self (map (csv_file self args)
                                  (filter nonempty (map relabel items)))) with
   | None => inr tt
   | Some msg => inl (Exception msg)
   end,
   app csv_files
       (map fst (fst (write_all self (map (csv_file self args)
                                          (filter nonempty (map relabel items)))))),
   flat_map file_events
            (fst (write_all self (map (csv_file self args)
                                      (filter nonempty (map relabel items)))))).
Proof.
  intros Hlab. revert csv_files.
  induction items as [|item items IH]; intros csv_files.
  - cbn. now rewrite app_nil_r.
  - inversion Hlab as [|? ? Hitem Hrest]; subst.
    cbn [for_each map filter].
    assert (Hn : nonempty (relabel item) = list_truthy (snd item)) by reflexivity.
    rewrite Hn. unfold bind. rewrite export_body_run.
    destruct (list_truthy (snd item)) eqn:Et.
    + destruct (dict_lookup report_mappings (fst item)) as [label|] eqn:El;
        [|contradiction].
      assert (Hr : relabel item = (label, snd item)).
      { unfold relabel. now rewrite El. }
      rewrite Hr. cbn [map write_all csv_file fst snd].
      destruct (open_w (host self) (csv_name self args label)) as [msg|] eqn:Eo.
      * cbn [fst snd map flat_map]. now rewrite app_nil_r.
      * rewrite (IH Hrest). cbn [fst snd map flat_map].
        unfold csv_events, file_events, csv_of. cbn [fst snd]. rewrite Et.
        rewrite <- !app_assoc. reflexivity.
    + rewrite (IH Hrest). reflexivity.
Qed.

Lemma export_to_csv_run {L : Type} (self : Chef) (args : Args) (r : Results) (l : L) :
  export_to_csv self 0 r (output_path args) l =
  (match snd (write_all self (map (csv_file self args)
                                  (filter nonempty (labelled_items r)))) with
   | None =>
       inr (map fst (fst (write_all self (map (csv_file self args)
                                              (filter nonempty (labelled_items r))))))
   | Some msg => inl (Exception msg)
   end,
   l,
   flat_map file_events
            (fst (write_all self (map (csv_file self args)
                                      (filter nonempty (labelled_items r)))))).
Proof.
  rewrite export_to_csv_unfold, frame_run. unfold bind.
  rewrite (export_loop_run self args _ [] (results_items_labelled r)), relabel_items.
  destruct (snd (write_all self _)); cbn; [reflexivity|].
  now rewrite app_nil_r.
Qed.

(** The first half of the report phase: the files are written in order up
    to the first one that cannot be opened; the browser is tried only when
    all of them were written. *)
Lemma files_phase_run (self : Chef) (args : Args) (r l : Results) :
  files_phase self args r l =
  match snd (write_all self (expected_files self args r)) with
  | None =>
      (inr tt, l,
       app (flat_map file_events (fst (write_all self (expected_files self args r))))
           (after_files self args r))
  | Some msg =>
      (inl (Exception msg), l,
       flat_map file_events (fst (write_all self (expected_files self args r))))
  end.
Proof.
  unfold files_phase, expected_files, after_files.
  destruct (0 <? total_of r)%nat; [|reflexivity].
  rewrite write_all_app. unfold bind at 1. rewrite export_to_csv_run.
  destruct (write_all self (map (csv_file self args) (filter nonempty (labelled_items r))))
    as [csvs [msg|]]; cbn [fst snd]; [reflexivity|].
  unfold bind. rewrite generate_html_report_run.
  cbn [write_all html_file fst snd].
  destruct (open_w (host self) (html_name self args)) as [msg|].
  - cbn [fst snd]. now rewrite !app_nil_r.
  - rewrite browser_phase_run. cbn [fst snd].
    rewrite flat_map_app. cbn [flat_map].
    unfold html_events, file_events. cbn [fst snd].
    now rewrite ?app_nil_r, <- ?app_assoc.
Qed.

(** Every run follows [run_outline]. *)
Lemma run_is_outline (self : Chef) (args : Args) : run self args = run_outline self args.
Proof.
  unfold run, run_outline. rewrite main_unfold. unfold try_except.
  rewrite main_body_run.
  destruct (resolved_compartments self args) as [|c cs] eqn:Ec; [reflexivity|].
  cbv zeta. rewrite report_phase_unfold. unfold bind. rewrite files_phase_run.
  destruct (snd (write_all self (expected_files self args (run_results self args))))
    as [msg|].
  - unfold prepend, emit, raise. cbn [outcome locals events fst snd].
    now rewrite <- !app_assoc.
  - rewrite summary_phase_run. unfold prepend. cbn [outcome locals events fst snd].
    now rewrite <- !app_assoc.
Qed.

Lemma resolved_compartments_requested (self : Chef) (args : Args) :
  resolved_compartments self args =
  flat_map (lookup_compartment self) (requested_ids self args).
Proof.
  unfold resolved_compartments, requested_ids, returned.
  destruct (compartment_ids args) as [[|comp_id ids]|].
  - rewrite (get_compartments_root_run self (Some [])) by now right.
    unfold lookup_compartment. cbn [flat_map].
    destruct (get_compartment (cloud self) (tenancy self)); reflexivity.
  - rewrite (get_compartments_ids_run self (comp_id :: ids)) by discriminate.
    reflexivity.
  - rewrite (get_compartments_root_run self None) by now left.
    unfold lookup_compartment. cbn [flat_map].
    destruct (get_compartment (cloud self) (tenancy self)); reflexivity.
Qed.

Lemma no_compartment_iff (self : Chef) (ids : list string) :
  flat_map (lookup_compartment self) ids = [] <-> Forall (unreadable self) ids.
Proof.
  induction ids as [|comp_id ids IH]; simpl.
  - split; [constructor | reflexivity].
  - unfold lookup_compartment at 1, unreadable at 1. split.
    + destruct (get_compartment (cloud self) comp_id) as [msg|comp] eqn:E;
        [|discriminate].
      intros H. constructor; [now exists msg | now apply IH].
    + intros H. inversion H as [|? ? [msg Hmsg] Hrest]; subst.
      rewrite Hmsg. now apply IH.
Qed.

Lemma lookup_events_calls (self : Chef) (ids : list string) (c : ApiCall) :
  In (Called c) (flat_map (lookup_events self) ids) ->
  exists comp_id, c = GetCompartment comp_id /\ In comp_id ids.
Proof.
  rewrite in_flat_map. intros [comp_id [Hin Hev]]. exists comp_id. split; [|assumption].
  unfold lookup_events in Hev. destruct Hev as [Heq|Hev]; [now inversion Heq|].
  destruct (get_compartment (cloud self) comp_id); [|contradiction].
  destruct Hev as [Heq|[]]. discriminate Heq.
Qed.

(** The resolution of the scopes only looks up the requested
    compartments. *)
Lemma get_compartments_calls (self : Chef) (args : Args) (c : ApiCall) :
  In (Called c) (events (get_compartments self (compartment_ids args) tt)) ->
  exists comp_id, c = GetCompartment comp_id /\ In comp_id (requested_ids self args).
Proof.
  unfold requested_ids.
  destruct (compartment_ids args) as [[|comp_id ids]|].
  - rewrite (get_compartments_root_run self (Some [])) by now right.
    destruct (get_compartment (cloud self) (tenancy self)); cbn;
      intros [H|H]; try (inversion H; subst; eexists; split; [reflexivity | now left]);
      try contradiction.
    destruct H as [H|[]]. discriminate H.
  - rewrite (get_compartments_ids_run self (comp_id :: ids)) by discriminate.
    apply lookup_events_calls.
  - rewrite (get_compartments_root_run self None) by now left.
    destruct (get_compartment (cloud self) (tenancy self)); cbn;
      intros [H|H]; try (inversion H; subst; eexists; split; [reflexivity | now left]);
      try contradiction.
    destruct H as [H|[]]. discriminate H.
Qed.

(** A run that can read none of the compartments it asks for (the given
    ids, or the tenancy when none is given) stops before any scan ([main],
    lines 819-822): it logs the error, writes no file, makes no call but the
    lookups of those compartments, and exits with status 1.  This is the only
    way for a run to end without a scope. *)
Theorem no_accessible_compartment_exits :
  forall (self : Chef) (args : Args),
    (resolved_compartments self args = [] <->
     Forall (unreadable self) (requested_ids self args))
    /\ (Forall (unreadable self) (requested_ids self args) ->
        run self args =
        (1%Z, empty_results,
         app (events (get_compartments self (compartment_ids args) tt))
             [Logged ERROR "No accessible compartments found"])
        /\ written (events_of self args) = []
        /\ (forall c, In (Called c) (events_of self args) ->
              exists comp_id,
                c = GetCompartment comp_id /\ In comp_id (requested_ids self args))).
Proof.
  intros self args.
  assert (Hiff : resolved_compartments self args = [] <->
                 Forall (unreadable self) (requested_ids self args)).
  { rewrite resolved_compartments_requested. apply no_compartment_iff. }
  split; [exact Hiff|]. intros Hun. apply Hiff in Hun.
  assert (Hrun : run self args =
                 (1%Z, empty_results,
                  app (events (get_compartments self (compartment_ids args) tt))
                      [Logged ERROR "No accessible compartments found"])).
  { rewrite run_is_outline. unfold run_outline. now rewrite Hun. }
  split; [exact Hrun|]. unfold events_of. rewrite Hrun. cbn [snd]. split.
  - rewrite written_app. rewrite written_scan; [reflexivity|].
    now destruct (@get_compartments_run unit self args tt) as [_ H].
  - intros c Hin. apply in_app_or in Hin. destruct Hin as [Hin|[Hin|[]]].
    + now apply get_compartments_calls.
    + discriminate Hin.
Qed.

Lemma no_accessible_compartment_exits_witness :
  run Partial.chef (mkArgs "." (Some ["ocid1.compartment.x"; "ocid1.compartment.y"])) =
  (1%Z, empty_results,
   [Called (GetCompartment "ocid1.compartment.x");
    Logged WARNING "Could not access compartment ocid1.compartment.x: NotAuthorizedOrNotFound";
    Called (GetCompartment "ocid1.compartment.y");
    Logged WARNING "Could not access compartment ocid1.compartment.y: NotAuthorizedOrNotFound";
    Logged ERROR "No accessible compartments found"]).
Proof.
  apply (proj2 (no_accessible_compartment_exits Partial.chef
                  (mkArgs "." (Some ["ocid1.compartment.x"; "ocid1.compartment.y"])))).
  repeat constructor; now exists "NotAuthorizedOrNotFound".
Defined.

Lemma write_all_none (self : Chef) (files : list (string * FileContent)) :
  snd (write_all self files) = None <-> Forall (openable self) files.
Proof.
  unfold openable. induction files as [|file files IH]; simpl.
  - split; [constructor | reflexivity].
  - destruct (open_w (host self) (fst file)) as [msg|] eqn:Eo; cbn [snd].
    + split; [discriminate|]. intros H. inversion H; subst. congruence.
    + rewrite IH. split; [now constructor | intros H; now inversion H].
Qed.

Lemma write_all_openable (self : Chef) (files : list (string * FileContent)) :
  Forall (openable self) files -> write_all self files = (files, None).
Proof.
  unfold openable. induction 1 as [|file files Ho Hrest IH]; simpl; [reflexivity|].
  now rewrite Ho, IH.
Qed.

Lemma write_all_stops (self : Chef) (before after : list (string * FileContent))
    (file : string * FileContent) (msg : string) :
  Forall (openable self) before ->
  open_w (host self) (fst file) = Some msg ->
  write_all self (app before (file :: after)) = (before, Some msg).
Proof.
  intros Hb Hf. rewrite write_all_app, (write_all_openable _ _ Hb). cbn.
  rewrite Hf. cbn. now rewrite app_nil_r.
Qed.

Lemma write_all_prefix (self : Chef) (files : list (string * FileContent)) :
  exists rest, files = app (fst (write_all self files)) rest /\
               (snd (write_all self files) = None -> rest = []).
Proof.
  induction files as [|file files [rest [IH1 IH2]]]; simpl.
  - now exists [].
  - destruct (open_w (host self) (fst file)); cbn [fst snd].
    + exists (file :: files). split; [reflexivity | discriminate].
    + exists rest. split; [|exact IH2]. cbn [app]. now rewrite <- IH1.
Qed.

(** The exit status of a run ([main], lines 814-891) is 0 or 1.  It is 0
    exactly when some requested compartment could be resolved and every file
    the run has to write (none without a finding) can be opened. *)
Theorem exit_status_spec :
  forall (self : Chef) (args : Args),
    (exit_status self args = 0%Z \/ exit_status self args = 1%Z)
    /\ (exit_status self args = 0%Z <->
        resolved_compartments self args <> [] /\
        Forall (openable self) (expected_files self args (run_results self args))).
Proof.
  intros self args. unfold exit_status. rewrite run_is_outline. unfold run_outline.
  destruct (resolved_compartments self args) as [|c cs] eqn:Ec.
  - cbn. split; [now right|]. split; [discriminate | intros [H _]; now elim H].
  - cbv zeta. rewrite <- write_all_none.
    destruct (snd (write_all self (expected_files self args (run_results self args))))
      as [msg|]; cbn [fst].
    + split; [now right|]. split; [discriminate | intros [_ H]; discriminate H].
    + split; [now left|]. split; [|reflexivity]. intros _. split; [discriminate|reflexivity].
Qed.

Lemma exit_status_spec_witness :
  exit_status OneFinding.chef OneFinding.args = 0%Z.
Proof.
  apply (proj2 (exit_status_spec OneFinding.chef OneFinding.args)). split.
  - discriminate.
  - apply Forall_forall. intros file _. reflexivity.
Defined.

(** When a report file cannot be opened ([export_to_csv] line 507,
    [generate_html_report] line 774), the error leaves the writer, [main]
    prints it and the run exits with status 1 (lines 889-891).  The files
    before the failing one stay written and logged; the files after it, the
    browser and the whole summary are skipped. *)
Theorem failed_write_aborts_run :
  forall (self : Chef) (args : Args) (before after : list (string * FileContent))
         (file : string * FileContent) (msg : string),
    resolved_compartments self args <> [] ->
    expected_files self args (run_results self args) = app before (file :: after) ->
    Forall (openable self) before ->
    open_w (host self) (fst file) = Some msg ->
    run self args =
    (1%Z, run_results self args,
     app (scan_prefix self args)
         (app (flat_map file_events before) [Printed ("❌ Error: " ++ msg)]))
    /\ written (events_of self args) = before.
Proof.
  intros self args before after file msg Hne Hfiles Hb Hf.
  assert (Hrun : run self args =
                 (1%Z, run_results self args,
                  app (scan_prefix self args)
                      (app (flat_map file_events before)
                           [Printed ("❌ Error: " ++ msg)]))).
  { rewrite run_is_outline. unfold run_outline.
    destruct (resolved_compartments self args) as [|c cs]; [now elim Hne|].
    cbv zeta. rewrite Hfiles, (write_all_stops self before after file msg Hb Hf).
    reflexivity. }
  split; [exact Hrun|]. unfold events_of. rewrite Hrun. cbn [snd].
  rewrite !written_app, written_file_events, (written_scan _ (scan_prefix_scan self args)).
  cbn. now rewrite app_nil_r.
Qed.

Lemma failed_write_aborts_run_witness :
  written (events_of ReadOnly.chef ReadOnly.args) =
  [csv_file ReadOnly.chef ReadOnly.args
     ("Compute_Missing_Automation_Tags",
      [instance_row "ocid1.tenancy.1" Fleet.big;
       instance_row "ocid1.tenancy.1" Fleet.small])]
  /\ exit_status ReadOnly.chef ReadOnly.args = 1%Z.
Proof.
  split; [|reflexivity].
  apply (failed_write_aborts_run ReadOnly.chef ReadOnly.args
           [csv_file ReadOnly.chef ReadOnly.args
              ("Compute_Missing_Automation_Tags",
               [instance_row "ocid1.tenancy.1" Fleet.big;
                instance_row "ocid1.tenancy.1" Fleet.small])]
           [html_file ReadOnly.chef ReadOnly.args
              (run_results ReadOnly.chef ReadOnly.args)]
           (csv_file ReadOnly.chef ReadOnly.args
              ("Oversized_Compute_Instances",
               [instance_row "ocid1.tenancy.1" Fleet.big;
                instance_row "ocid1.tenancy.1" Fleet.big_scheduled]))
           "Permission denied").
  - discriminate.
  - reflexivity.
  - repeat constructor.
  - reflexivity.
Defined.

(** ** The names of the report files *)

Lemma append_cancel_l (p a b : string) : p ++ a = p ++ b -> a = b.
Proof.
  induction p as [|c p IH]; simpl; [auto|]. intros H. inversion H. auto.
Qed.

Lemma os_path_join_inj (a b b' : string) :
  os_path_join a b = os_path_join a b' -> b = b'.
Proof.
  unfold os_path_join. destruct a as [|c a]; [auto|].
  destruct (substring _ 1 _ =? "/"); intros H; apply append_cancel_l in H; [assumption|].
  now inversion H.
Qed.

Lemma NoDup_map_filter {X Y : Type} (f : X -> Y) (p : X -> bool) (xs : list X) :
  NoDup (map f xs) -> NoDup (map f (filter p xs)).
Proof.
  induction xs as [|x xs IH]; simpl; [auto|]. intros H. inversion H as [|? ? Hx Hxs]; subst.
  destruct (p x); [|auto]. simpl. constructor; [|auto].
  intros Hin. apply Hx. apply in_map_iff in Hin. destruct Hin as [y [Hy Hin]].
  apply in_map_iff. exists y. split; [assumption|]. now apply filter_In in Hin.
Qed.

Lemma csv_names_distinct (self : Chef) (args : Args) (r : Results) :
  NoDup (map (fun item => csv_name self args (fst item)) (labelled_items r)).
Proof.
  unfold labelled_items, csv_name. cbn [map fst].
  repeat (constructor;
          [cbn [In]; intros H;
           repeat (destruct H as [H|H];
                   [apply os_path_join_inj in H; discriminate H|]);
           exact H|]).
  constructor.
Qed.

Lemma csv_name_not_html (self : Chef) (args : Args) (r : Results)
    (item : string * list Finding) :
  In item (labelled_items r) -> csv_name self args (fst item) <> html_name self args.
Proof.
  unfold labelled_items, csv_name, html_name. intros Hin H.
  repeat (destruct Hin as [<-|Hin];
          [cbn [fst] in H; apply os_path_join_inj in H; discriminate H|]).
  exact Hin.
Qed.

Lemma expected_names_distinct (self : Chef) (args : Args) (r : Results) :
  NoDup (map fst (expected_files self args r)).
Proof.
  unfold expected_files. destruct (0 <? total_of r)%nat; [|constructor].
  rewrite map_app, map_map. cbn [map fst html_file]. apply NoDup_app.
  - apply (NoDup_map_filter (fun item => csv_name self args (fst item))).
    apply csv_names_distinct.
  - repeat constructor. intros [].
  - intros name Hin [Heq|[]]. subst name.
    apply in_map_iff in Hin. destruct Hin as [item [Hname Hin]].
    apply filter_In in Hin. destruct Hin as [Hin _].
    now apply (csv_name_not_html self args r item).
Qed.

(** The files of a run are the expected ones, up to the first that cannot
    be opened. *)
Lemma run_written_all (self : Chef) (args : Args) :
  written (events_of self args) =
  fst (write_all self (expected_files self args (run_results self args))).
Proof.
  unfold events_of. rewrite run_is_outline. unfold run_outline.
  destruct (resolved_compartments self args) as [|c cs] eqn:Ec.
  - cbn [snd]. rewrite written_app.
    rewrite written_scan
      by now destruct (@get_compartments_run unit self args tt) as [_ H].
    unfold run_results. rewrite Ec. reflexivity.
  - cbv zeta.
    destruct (snd (write_all self (expected_files self args (run_results self args))));
      cbn [snd];
      rewrite !written_app, written_file_events,
        (written_scan _ (scan_prefix_scan self args)); cbn [app].
    + cbn. now rewrite app_nil_r.
    + unfold summary_events. rewrite written_logged, app_nil_r.
      unfold after_files, browser_events. cbv zeta.
      destruct (0 <? total_of (run_results self args))%nat;
        [destruct (webbrowser_open (host self) _)|]; cbn; now rewrite app_nil_r.
Qed.

(** In every run, completed or not, the files written are the first files
    of the list a completed run writes, in the same order ([export_to_csv],
    lines 503-515, then [generate_html_report], line 774), and no two of them
    have the same name: no report of a run overwrites another report of the
    same run.  The files of the categories share one reading of the clock;
    their names differ by the label of the category. *)
Theorem report_files_have_distinct_names :
  forall (self : Chef) (args : Args),
    NoDup (map fst (written (events_of self args)))
    /\ (exists rest,
          expected_files self args (all_results_of self args) =
          app (written (events_of self args)) rest)
    /\ (forall item1 item2,
          In item1 (labelled_items (all_results_of self args)) ->
          In item2 (labelled_items (all_results_of self args)) ->
          csv_name self args (fst item1) = csv_name self args (fst item2) ->
          fst item1 = fst item2).
Proof.
  intros self args.
  destruct (run_always self args) as [Hr _]. rewrite Hr, run_written_all.
  destruct (write_all_prefix self (expected_files self args (run_results self args)))
    as [rest [Hrest _]].
  split; [|split].
  - pose proof (expected_names_distinct self args (run_results self args)) as Hnd.
    rewrite Hrest, map_app in Hnd. now apply NoDup_app_remove_r in Hnd.
  - now exists rest.
  - intros item1 item2 _ _ H. unfold csv_name in H. apply os_path_join_inj in H.
    revert H. generalize ("_" ++ strftime_stamp (now (host self) 0) ++ ".csv").
    intros suffix.
    assert (Hlen : forall a b : string, String.length (a ++ b) =
                                        String.length a + String.length b).
    { induction a; simpl; auto. }
    generalize (fst item1) (fst item2). clear - Hlen.
    induction s as [|c s IH]; intros [|d t] H.
    + reflexivity.
    + apply (f_equal String.length) in H. rewrite !Hlen in H. simpl in H. lia.
    + apply (f_equal String.length) in H. rewrite !Hlen in H. simpl in H. lia.
    + simpl in H. inversion H. f_equal. now apply IH.
Qed.

Lemma report_files_have_distinct_names_witness :
  NoDup (map fst (written (events_of OneFinding.chef OneFinding.args)))
  /\ "Unattached_Block_Volumes" = "Unattached_Block_Volumes".
Proof.
  split.
  - apply (report_files_have_distinct_names OneFinding.chef OneFinding.args).
  - apply (proj2 (proj2 (report_files_have_distinct_names OneFinding.chef OneFinding.args))
             ("Unattached_Block_Volumes", []) ("Unattached_Block_Volumes", []));
      [cbn; tauto | cbn; tauto | reflexivity].
Defined.

(** ** The browser *)

Lemma write_all_browser (self : Chef) (browser : string -> option string)
    (files : list (string * FileContent)) :
  write_all (with_other_browser self browser) files = write_all self files.
Proof.
  induction files as [|file files IH]; [reflexivity|].
  cbn [write_all]. rewrite IH. reflexivity.
Qed.

Lemma run_outline_browser (self : Chef) (args : Args) (browser : string -> option string) :
  fst (run_outline (with_other_browser self browser) args) = fst (run_outline self args)
  /\ written (snd (run_outline (with_other_browser self browser) args)) =
     written (snd (run_outline self args)).
Proof.
  rewrite <- !run_is_outline.
  change (written (snd (run (with_other_browser self browser) args)))
    with (written (events_of (with_other_browser self browser) args)).
  change (written (snd (run self args))) with (written (events_of self args)).
  rewrite !run_written_all. rewrite !run_is_outline. unfold run_outline.
  change (resolved_compartments (with_other_browser self browser) args)
    with (resolved_compartments self args).
  change (run_results (with_other_browser self browser) args)
    with (run_results self args).
  change (expected_files (with_other_browser self browser) args (run_results self args))
    with (expected_files self args (run_results self args)).
  rewrite !write_all_browser.
  split; [|reflexivity].
  destruct (resolved_compartments self args) as [|c cs]; [reflexivity|].
  cbv zeta.
  destruct (snd (write_all self (expected_files self args (run_results self args))));
    reflexivity.
Qed.

(** The browser does not matter ([main], lines 860-865): whether
    [webbrowser.open] raises or not, a run ends with the same exit status,
    the same findings and the same files.  When it raises in a run that wrote
    its reports, the run logs a warning that names the document and goes on
    to the summary; nothing is printed as an error. *)
Theorem browser_failure_is_harmless :
  forall (self : Chef) (args : Args) (browser : string -> option string),
    exit_status (with_other_browser self browser) args = exit_status self args
    /\ all_results_of (with_other_browser self browser) args = all_results_of self args
    /\ written (events_of (with_other_browser self browser) args) =
       written (events_of self args)
    /\ (forall msg,
          exit_status self args = 0%Z ->
          0 < total_of (all_results_of self args) ->
          webbrowser_open (host self)
            ("file://" ++ abspath (host self) (html_name self args)) = Some msg ->
          events_of self args =
          app (scan_prefix self args)
              (app (flat_map file_events
                             (expected_files self args (all_results_of self args)))
                   (Logged WARNING
                      ("Could not auto-open HTML report. Please open manually: " ++
                       html_name self args)
                    :: summary_events (all_results_of self args)))).
Proof.
  intros self args browser.
  destruct (run_outline_browser self args browser) as [Hfst Hw].
  unfold exit_status, all_results_of, events_of. rewrite !run_is_outline.
  split; [now rewrite Hfst|]. split; [now rewrite Hfst|]. split; [exact Hw|].
  intros msg Hexit Hpos Hbrowser.
  unfold run_outline in *.
  destruct (resolved_compartments self args) as [|c cs]; [discriminate Hexit|].
  cbv zeta in *.
  destruct (snd (write_all self (expected_files self args (run_results self args))))
    as [err|] eqn:Ew; [discriminate Hexit|].
  cbn [fst snd] in *.
  apply write_all_none, write_all_openable in Ew. rewrite Ew. cbn [fst].
  unfold after_files, browser_events. cbv zeta.
  apply Nat.ltb_lt in Hpos. rewrite Hpos, Hbrowser. reflexivity.
Qed.

Lemma browser_failure_is_harmless_witness :
  events_of Headless.chef OneFinding.args =
  app (scan_prefix Headless.chef OneFinding.args)
      (app (flat_map file_events
                     (expected_files Headless.chef OneFinding.args
                                     (all_results_of Headless.chef OneFinding.args)))
           (Logged WARNING
              ("Could not auto-open HTML report. Please open manually: " ++
               html_name Headless.chef OneFinding.args)
            :: summary_events (all_results_of Headless.chef OneFinding.args))).
Proof.
  apply (proj2 (proj2 (proj2 (browser_failure_is_harmless Headless.chef OneFinding.args
                                (fun _ => None))))
           "no display");
    [reflexivity | apply Nat.ltb_lt; reflexivity | reflexivity].
Defined.

(** ** Inactive compartments *)

Lemma inactive_filter (compartments : list Compartment.t) :
  Forall (fun c => Compartment.lifecycle_state c <> "ACTIVE") compartments ->
  filter active compartments = [].
Proof.
  induction 1 as [|c cs Hc Hcs IH]; simpl; [reflexivity|].
  unfold active at 1. apply String.eqb_neq in Hc. now rewrite Hc.
Qed.

Lemma inactive_events (self : Chef) (compartments : list Compartment.t) :
  Forall (fun c => Compartment.lifecycle_state c <> "ACTIVE") compartments ->
  flat_map (compartment_events self) compartments = map skipped compartments.
Proof.
  induction 1 as [|c cs Hc Hcs IH]; simpl; [reflexivity|].
  unfold compartment_events at 1, active. apply String.eqb_neq in Hc.
  now rewrite Hc, IH.
Qed.

(** A compartment whose status is not ACTIVE is skipped with a warning
    ([main], lines 838-840).  When every resolved compartment is inactive,
    the run makes no call but the lookups of the compartments, finds nothing,
    writes nothing, logs the summary with seven zero counts and the no-waste
    line, and exits with status 0. *)
Theorem inactive_compartments_are_skipped :
  forall (self : Chef) (args : Args),
    resolved_compartments self args <> [] ->
    Forall (fun c => Compartment.lifecycle_state c <> "ACTIVE")
           (resolved_compartments self args) ->
    run self args =
    (0%Z, empty_results,
     app (events (get_compartments self (compartment_ids args) tt))
         (Logged INFO ("Will check compartments: " ++
                       py_repr_list (map Compartment.name (resolved_compartments self args)))
          :: app (map skipped (resolved_compartments self args))
                 (Logged INFO "No cost optimization opportunities found in dev/test resources."
                  :: summary_events empty_results))).
Proof.
  intros self args Hne Hin.
  rewrite run_is_outline. unfold run_outline.
  assert (Hr : run_results self args = empty_results).
  { unfold run_results, merged_results. now rewrite (inactive_filter _ Hin). }
  rewrite Hr. unfold scan_prefix. rewrite (inactive_events self _ Hin).
  destruct (resolved_compartments self args) as [|c cs]; [now elim Hne|].
  cbn [expected_files write_all fst snd]. rewrite <- !app_assoc. reflexivity.
Qed.

Lemma inactive_compartments_are_skipped_witness :
  run Partial.chef (mkArgs "." (Some ["ocid1.compartment.b"])) =
  (0%Z, empty_results,
   [Called (GetCompartment "ocid1.compartment.b");
    Logged INFO "Will check compartments: ['beta']";
    Logged WARNING "Skipping inactive compartment: beta";
    Logged INFO "No cost optimization opportunities found in dev/test resources.";
    Logged INFO "🍳 OCI Dev/Test Cost Analysis Complete!";
    Logged INFO "Summary:";
    Logged INFO "- Database instances with production shapes: 0";
    Logged INFO "- Compute instances missing automation tags: 0";
    Logged INFO "- Oversized compute instances: 0";
    Logged INFO "- Unattached block volumes: 0";
    Logged INFO "- Unused public IP addresses: 0";
    Logged INFO "- Empty load balancers: 0";
    Logged INFO "- Permissive security lists: 0";
    Logged INFO "🎉 Your OCI dev/test kitchen is perfectly optimized—no waste detected!"]).
Proof.
  apply (inactive_compartments_are_skipped Partial.chef
           (mkArgs "." (Some ["ocid1.compartment.b"]))).
  - discriminate.
  - repeat constructor. discriminate.
Defined.

(** ** The columns of the reports *)

Lemma justified_well_formed (self : Chef) (r : Results) :
  all_justified self r -> well_formed r.
Proof.
  intros [Hdb [Hma [Hov [Hvo [Hip [Hlb Hsl]]]]]].
  unfold well_formed, with_columns, collections, results_items, category_columns.
  cbn [map snd combine fst].
  repeat constructor; cbn [fst snd];
    (eapply Forall_impl; [|eassumption]); intros f [c Hf].
  - destruct Hf as [[dbs [db [_ [_ [_ [_ [_ ->]]]]]]]
                   |[adbs [adb [cores [_ [_ [_ [_ [_ [_ ->]]]]]]]]]]; reflexivity.
  - destruct Hf as [i [_ [_ ->]]]. reflexivity.
  - destruct Hf as [i [_ [_ ->]]]. reflexivity.
  - destruct Hf as [vs [v [_ [_ [_ [_ [_ ->]]]]]]]. reflexivity.
  - destruct Hf as [ips [ip [_ [_ [_ [_ [_ ->]]]]]]]. reflexivity.
  - destruct Hf as [lbs [lb [d [_ [_ [_ [_ [_ [_ ->]]]]]]]]]. reflexivity.
  - destruct Hf as [vcns [vcn [sls [sl [_ [_ [_ [_ [_ [_ [_ [_ ->]]]]]]]]]]]]. reflexivity.
Qed.

Lemma run_well_formed (self : Chef) (args : Args) : well_formed (all_results_of self args).
Proof.
  destruct (run_always self args) as [-> _].
  apply (justified_well_formed self). apply all_justified_merged.
Qed.

Lemma dict_get_keys (f : Finding) :
  NoDup (map fst f) -> map (fun key => dict_get key f) (map fst f) = map snd f.
Proof.
  induction f as [|[k v] f IH]; [reflexivity|]. cbn [map fst snd]. intros Hnd.
  inversion Hnd as [|? ? Hk Hrest]; subst.
  cbn [dict_get]. rewrite String.eqb_refl. f_equal.
  rewrite <- (IH Hrest). apply map_ext_in. intros key Hkey. cbn [dict_get].
  destruct (key =? k) eqn:E; [|reflexivity].
  apply String.eqb_eq in E. subst. contradiction.
Qed.

Lemma category_columns_distinct : Forall (@NoDup string) category_columns.
Proof.
  unfold category_columns.
  repeat (constructor;
          [repeat (constructor;
                   [cbn [In]; intros H;
                    repeat (destruct H as [H|H]; [discriminate H|]); exact H|]);
           constructor|]).
  constructor.
Qed.

(** What [csv.DictWriter] writes for findings that all have the columns
    [columns]: the columns as header, and the values of each finding in the
    order it holds them. *)
Lemma csv_of_columns (data : list Finding) (columns : list string) :
  NoDup columns -> data <> [] ->
  Forall (fun f => map fst f = columns) data ->
  csv_of data = Csv columns (map (map snd) data).
Proof.
  intros Hnd Hne Hdata. unfold csv_of.
  destruct data as [|first data]; [now elim Hne|].
  inversion Hdata as [|? ? Hfirst Hrest]; subst. f_equal.
  apply map_ext_in. intros f Hf.
  rewrite Forall_forall in Hdata. specialize (Hdata f Hf).
  rewrite <- Hdata at 1. apply dict_get_keys. now rewrite Hdata.
Qed.


Lemma html_section_not_empty (heading heading' empty_message : string)
    (fields : list string) (data : list Finding) :
  html_section heading fields empty_message data <> (heading', Table []).
Proof.
  unfold html_section. destruct data as [|f data]; cbn [list_truthy]; intros H.
  - discriminate H.
  - inversion H.
Qed.


(** The findings of each category of a well-formed result have the
    columns of the category. *)
Lemma well_formed_category (r : Results) (k : Category) :
  well_formed r -> Forall (fun f => map fst f = columns_of k) (findings_of k r).
Proof.
  unfold well_formed, with_columns, collections, results_items, category_columns.
  cbn [map snd combine]. rewrite Forall_forall. intros Hwf.
  destruct k;
    match goal with
    | |- Forall _ (findings_of ?k r) =>
        exact (Hwf (findings_of k r, columns_of k) ltac:(cbn; tauto))
    end.
Qed.

Lemma columns_of_distinct (k : Category) : NoDup (columns_of k).
Proof.
  pose proof category_columns_distinct as Hnd. rewrite Forall_forall in Hnd.
  apply Hnd. unfold category_columns. destruct k; cbn; tauto.
Qed.

Lemma shown_fields_columns (k : Category) : incl (shown_fields k) (columns_of k).
Proof. destruct k; intros key Hkey; cbn in *; tauto. Qed.

(** Every delimited file a run writes ([export_to_csv], lines 503-515) is
    the file of one non-empty category, under the label of the category:
    its header is the fixed list of columns of that category, and its rows
    are the values of the findings of the category, one row per finding in
    the order they were found, each value under its own column.  In every
    run every finding of every category has exactly the columns of its
    category, so the writer never meets a missing or an extra field. *)
Theorem csv_files_hold_the_findings :
  forall (self : Chef) (args : Args),
    (forall k,
       Forall (fun f => map fst f = columns_of k)
              (findings_of k (all_results_of self args)))
    /\ (forall filename fieldnames rows,
          In (Wrote filename (Csv fieldnames rows)) (events_of self args) ->
          exists k,
            filename = csv_name self args (label_of k) /\
            findings_of k (all_results_of self args) <> [] /\
            fieldnames = columns_of k /\
            rows = map (map snd) (findings_of k (all_results_of self args))).
Proof.
  intros self args.
  pose proof (run_well_formed self args) as Hwf.
  split; [intros k; now apply well_formed_category|].
  intros filename fieldnames rows Hin.
  destruct (run_always self args) as [Hr Hev]. rewrite Hr in *.
  rewrite Forall_forall in Hev. specialize (Hev _ Hin).
  destruct (run_file self args _ _ Hin) as [[k [Hname Hc]]|[ts Hc]]; [|discriminate Hc].
  unfold report_event, report_files in Hev.
  apply written_In, in_app_or in Hev.
  assert (Hne : findings_of k (run_results self args) <> []).
  { destruct Hev as [Hev|Hev].
    - apply in_flat_map in Hev. destruct Hev as [[label data] [_ Hev]].
      unfold csv_events in Hev. cbn [fst snd] in Hev.
      destruct data as [|f data]; [contradiction|].
      destruct Hev as [Hev|[Hev|[]]]; [|discriminate Hev].
      apply (csv_of_nonempty _ (f :: data)); [|discriminate].
      rewrite <- Hc. now inversion Hev.
    - unfold html_events in Hev. destruct Hev as [Hev|[Hev|[]]]; discriminate Hev. }
  exists k. split; [assumption|]. split; [assumption|].
  rewrite (csv_of_columns _ (columns_of k) (columns_of_distinct k) Hne
             (well_formed_category _ k Hwf)) in Hc.
  now inversion Hc.
Qed.

Lemma csv_files_hold_the_findings_witness :
  exists k,
    "reports/Database_Production_Shapes_20250610_120000.csv" =
    csv_name OneFinding.chef OneFinding.args (label_of k) /\
    findings_of k (all_results_of OneFinding.chef OneFinding.args) <> [] /\
    database_columns = columns_of k /\
    [map snd (db_system_row "ocid1.tenancy.1" HalfListed.db_system)] =
    map (map snd) (findings_of k (all_results_of OneFinding.chef OneFinding.args)).
Proof.
  apply (proj2 (csv_files_hold_the_findings OneFinding.chef OneFinding.args)).
  vm_compute. repeat (first [left; reflexivity | right]).
Defined.

(** Every table of the document a run writes ([generate_html_report],
    lines 606-749) stands under the heading of one non-empty category and
    lists all the findings of that category, one row per finding in the
    order they were found.  Every field a row reads with
    [finding['field']] is one of the columns of the category, and every
    finding of the category has these columns: the subscripts never raise a
    [KeyError]. *)
Theorem html_tables_read_present_fields :
  forall (self : Chef) (args : Args) (filename : string) (doc : HtmlReport)
         (heading : string) (rows : list (list string)),
    In (Wrote filename (Html doc)) (events_of self args) ->
    In (heading, Table rows) (sections doc) ->
    exists k,
      heading = heading_of k /\
      findings_of k (all_results_of self args) <> [] /\
      incl (shown_fields k) (columns_of k) /\
      Forall (fun f => map fst f = columns_of k)
             (findings_of k (all_results_of self args)) /\
      rows = map (table_row k) (findings_of k (all_results_of self args)).
Proof.
  intros self args filename doc heading rows Hin Hsec.
  pose proof (run_well_formed self args) as Hwf.
  destruct (run_always self args) as [Hr _]. rewrite Hr in *.
  destruct (run_file self args _ _ Hin) as [[k [_ Hc]]|[ts Hc]].
  { unfold csv_of in Hc. discriminate Hc. }
  inversion Hc; subst doc.
  destruct (html_document_table ts _ heading rows Hsec) as [k [Hh Hrows]].
  exists k. split; [assumption|]. split.
  - intros Hnil. rewrite Hnil in Hrows. cbn [map] in Hrows. subst rows.
    revert Hsec. unfold html_document. cbn [sections]. intros Hsec.
    repeat (destruct Hsec as [Hsec|Hsec]; [now apply html_section_not_empty in Hsec|]).
    exact Hsec.
  - split; [apply shown_fields_columns|].
    split; [now apply well_formed_category | assumption].
Qed.

Lemma html_tables_read_present_fields_witness :
  exists k,
    "🗄️ Database Instances Using Production-Grade Shapes" = heading_of k /\
    findings_of k (all_results_of OneFinding.chef OneFinding.args) <> [] /\
    incl (shown_fields k) (columns_of k) /\
    Forall (fun f => map fst f = columns_of k)
           (findings_of k (all_results_of OneFinding.chef OneFinding.args)) /\
    [["DB System"; "orders-dev"; "VM.Standard2.4"; "AVAILABLE"; "AD-1"; "4"; "env=dev"]] =
    map (table_row k) (findings_of k (all_results_of OneFinding.chef OneFinding.args)).
Proof.
  apply (html_tables_read_present_fields OneFinding.chef OneFinding.args
           (html_name OneFinding.chef OneFinding.args)
           (html_document (strftime_display (now (host OneFinding.chef) 2))
                          (all_results_of OneFinding.chef OneFinding.args))).
  - vm_compute. repeat (first [left; reflexivity | right]).
  - vm_compute. left. reflexivity.
Defined.

(** ** Counts *)









(** ** The details of a permissive security list *)

Lemma rule_description_values (rule : IngressSecurityRule.t) :
  rule_is_permissive rule = true ->
  rule_description rule = "TCP:ALL" \/ rule_description rule = "TCP:22" \/
  rule_description rule = "TCP:3389".
Proof.
  unfold rule_is_permissive, rule_description. rewrite andb_true_iff. intros [_ H].
  destruct (IngressSecurityRule.tcp_options rule) as [tcp_options|]; [|now left].
  destruct (TcpOptions.destination_port_range tcp_options) as [range|];
    [|discriminate H].
  apply orb_true_iff in H. destruct H as [H|H]; apply Z.eqb_eq in H; rewrite H; auto.
Qed.

(** Whatever its calls answer, the security-list scanner returns findings
    of listed security lists it flags. *)
Lemma check_permissive_security_lists_justified (self : Chef) (compartment_id : string)
    (findings : list Finding) :
  outcome (check_permissive_security_lists self compartment_id tt) = inr findings ->
  Forall (justified_security_list self compartment_id) findings.
Proof.
  intros Hout.
  destruct (check_permissive_security_lists_contract (fun _ : unit => True) self
              compartment_id tt I) as [_ H].
  rewrite Hout in H. now destruct H.
Qed.

(** The details of a permissive security list (lines 426-447).  Every
    finding the scanner returns, whatever its calls answer, is the row of a
    listed security list; its details name each matched ingress rule as
    [TCP:ALL], [TCP:22] or [TCP:3389] and nothing else: the protocol of the
    rule and the upper end of its port range never show.  The entries come
    in the order of the ingress rules, one per matched rule; there is at
    least one, and the count column is their number. *)
Theorem permissive_rules_details :
  forall (self : Chef) (compartment_id : string) (findings : list Finding) (f : Finding),
    outcome (check_permissive_security_lists self compartment_id tt) = inr findings ->
    In f findings ->
    exists vcn sec_list entries,
      f = security_list_row compartment_id vcn sec_list entries /\
      entries = map rule_description
                    (filter rule_is_permissive
                            (SecurityList.ingress_security_rules sec_list)) /\
      entries <> [] /\
      (forall entry, In entry entries ->
         entry = "TCP:ALL" \/ entry = "TCP:22" \/ entry = "TCP:3389") /\
      dict_get "permissive_rules_count" f = PInt (Z.of_nat (List.length entries)) /\
      dict_get "permissive_rules" f = PStr (join "; " entries).
Proof.
  intros self cid findings f Hout Hin.
  pose proof (check_permissive_security_lists_justified self cid findings Hout) as Hj.
  rewrite Forall_forall in Hj. specialize (Hj f Hin).
  destruct Hj as [vcns [vcn [sls [sl [_ [_ [_ [_ [_ [_ [_ [[rule [Hr Hp]] ->]]]]]]]]]]]].
  exists vcn, sl, (permissive_rules_of sl).
  split; [reflexivity|]. rewrite permissive_rules_of_filter.
  split; [reflexivity|]. split; [|split; [|split; reflexivity]].
  - apply rule_is_permissive_iff in Hp. intros Hnil.
    assert (Hin' : In (rule_description rule)
                      (map rule_description
                           (filter rule_is_permissive
                                   (SecurityList.ingress_security_rules sl)))).
    { apply in_map. apply filter_In. now split. }
    rewrite Hnil in Hin'. contradiction.
  - intros entry He. apply in_map_iff in He. destruct He as [r [<- He]].
    apply filter_In in He. now apply rule_description_values.
Qed.

(** The scan of [Mixed]: an SSH rule, then an ICMP rule without TCP
    options. *)
Lemma permissive_rules_details_witness :
  exists vcn sec_list entries,
    security_list_row "ocid1.compartment.1" OpenSsh.vcn Mixed.sec_list ["TCP:22"; "TCP:ALL"] =
    security_list_row "ocid1.compartment.1" vcn sec_list entries /\
    entries = map rule_description
                  (filter rule_is_permissive
                          (SecurityList.ingress_security_rules sec_list)) /\
    entries <> [] /\
    (forall entry, In entry entries ->
       entry = "TCP:ALL" \/ entry = "TCP:22" \/ entry = "TCP:3389") /\
    dict_get "permissive_rules_count"
             (security_list_row "ocid1.compartment.1" OpenSsh.vcn Mixed.sec_list
                                ["TCP:22"; "TCP:ALL"]) =
    PInt (Z.of_nat (List.length entries)) /\
    dict_get "permissive_rules"
             (security_list_row "ocid1.compartment.1" OpenSsh.vcn Mixed.sec_list
                                ["TCP:22"; "TCP:ALL"]) =
    PStr (join "; " entries).
Proof.
  apply (permissive_rules_details Mixed.chef "ocid1.compartment.1"
           [security_list_row "ocid1.compartment.1" OpenSsh.vcn Mixed.sec_list
                              ["TCP:22"; "TCP:ALL"]]).
  - reflexivity.
  - left. reflexivity.
Defined.

(** ** Merging the scopes *)

Lemma extend_results_concat (self : Chef) (compartments : list Compartment.t)
    (init : Results) :
  fold_left (fun all_results compartment =>
               extend_results all_results
                              (scope_results self (Compartment.id compartment)))
            compartments init =
  extend_results init (concat_scopes self compartments).
Proof.
  revert init. induction compartments as [|c cs IH]; intros init.
  - destruct init. unfold extend_results, concat_scopes. cbn.
    now rewrite !app_nil_r.
  - cbn [fold_left]. rewrite IH. unfold extend_results, concat_scopes.
    cbn [flat_map database_instances compute_missing_automation oversized_compute
         unattached_volumes unused_public_ips empty_load_balancers
         permissive_security_lists].
    now rewrite <- !app_assoc.
Qed.

(** The findings of a run are those of its active scopes, concatenated
    category by category in the order of the scopes ([main], lines 837-848).
    Nothing is merged or removed: a compartment that is requested twice is
    scanned twice and each of its findings is reported twice.  The scope that
    is scanned is the id the lookup answered. *)
Theorem results_are_concatenated :
  forall (self : Chef) (args : Args),
    all_results_of self args =
    concat_scopes self (filter active (resolved_compartments self args))
    /\ (forall comp_id comp out,
          get_compartment (cloud self) comp_id = inr comp ->
          Compartment.lifecycle_state comp = "ACTIVE" ->
          all_results_of self (mkArgs out (Some [comp_id; comp_id])) =
          extend_results (scope_results self (Compartment.id comp))
                         (scope_results self (Compartment.id comp))).
Proof.
  intros self args.
  assert (Hall : forall args',
            all_results_of self args' =
            concat_scopes self (filter active (resolved_compartments self args'))).
  { intros args'. destruct (run_always self args') as [-> _].
    unfold run_results, merged_results. rewrite extend_results_concat. reflexivity. }
  split; [apply Hall|].
  intros comp_id comp out Hcomp Hactive. rewrite Hall.
  rewrite resolved_compartments_requested. unfold requested_ids. cbn [compartment_ids].
  cbn [flat_map]. unfold lookup_compartment. rewrite Hcomp. cbn [app filter].
  unfold active. rewrite Hactive. cbn [String.eqb Ascii.eqb Bool.eqb].
  unfold concat_scopes, extend_results. cbn. now rewrite !app_nil_r.
Qed.

Lemma results_are_concatenated_witness :
  all_results_of OneFinding.chef
    (mkArgs "." (Some ["ocid1.compartment.1"; "ocid1.compartment.1"])) =
  extend_results (scope_results OneFinding.chef "ocid1.compartment.1")
                 (scope_results OneFinding.chef "ocid1.compartment.1")
  /\ database_instances
       (extend_results (scope_results OneFinding.chef "ocid1.compartment.1")
                       (scope_results OneFinding.chef "ocid1.compartment.1")) =
     [db_system_row "ocid1.compartment.1" HalfListed.db_system;
      db_system_row "ocid1.compartment.1" HalfListed.db_system].
Proof.
  split; [|reflexivity].
  apply (proj2 (results_are_concatenated OneFinding.chef (mkArgs "." None))
           "ocid1.compartment.1" (Compartment.mk "ocid1.compartment.1" "root" "ACTIVE") ".");
    reflexivity.
Defined.

(** ** The calls of a run *)

Section InScope.
Variables (self : Chef) (compartment_id : string).
Let Ev : Event -> Prop := loop_event self compartment_id.

Lemma loop_event_logged (level : Level) (msg : string) : Ev (Logged level msg).
Proof. split; [exact I | reflexivity]. Qed.

(** The events of a scanner built on [scanner_shell]: its log record, its
    listing call, then the events of its loop and of its handler. *)
Lemma shell_events {S X : Type} (init : S) (info warn : string) (c : ApiCall)
    (answer : Answer (list X)) (loop : list X -> M S unit) :
  (forall xs, answer = inr xs ->
     triple (fun _ => True) (loop xs) (fun _ _ => True) (fun _ _ => True) Ev) ->
  exists rest,
    events (@scanner_shell unit S X init info warn c answer loop tt) =
    Logged INFO info :: Called c :: rest /\ Forall Ev rest.
Proof.
  intros Hloop.
  unfold scanner_shell, frame, try_except, bind, logger_info, logger_warning, emit, api,
    get_locals.
  destruct answer as [msg|xs].
  - eexists. split; [reflexivity|]. repeat constructor; apply loop_event_logged.
  - pose proof (proj1 (Hloop xs eq_refl init I)) as Hev.
    destruct (loop xs init) as [[[[msg|code]|[]] l1] ev1]; cbn in Hev |- *;
      (eexists; split; [reflexivity|]); rewrite ?app_nil_r; try assumption.
    apply Forall_app. split; [assumption|].
    repeat constructor; apply loop_event_logged.
Qed.

Lemma triple_secondary_in_scope {X D : Type} (guard : X -> bool) (c : X -> ApiCall)
    (answer : X -> Answer D) (keep : X -> D -> bool) (row : X -> Finding) (xs : list X) :
  (forall x, In x xs -> guard x = true -> Ev (Called (c x))) ->
  triple (fun _ => True) (for_each xs (secondary_body guard c answer keep row))
         (fun _ _ => True) (fun _ _ => True) Ev.
Proof.
  intros Hc. apply triple_for_each. intros x Hin. unfold secondary_body.
  destruct (guard x) eqn:Eg; [|now apply triple_ret].
  apply (triple_bind Ev _ _ _ (fun _ _ => True)).
  - apply triple_api; [now apply Hc | auto | auto].
  - intros d. destruct (keep x d); [apply triple_modify | apply triple_ret]; auto.
Qed.

Lemma check_compute_instances_events :
  exists rest,
    events (check_compute_instances self compartment_id tt) =
    Logged INFO ("Checking compute instances in compartment: " ++ compartment_id)
    :: Called (ListInstances compartment_id) :: rest /\ Forall Ev rest.
Proof.
  rewrite check_compute_instances_shell. apply shell_events.
  intros instances _. apply triple_for_each. intros i _.
  destruct (_ && _); [|now apply triple_ret].
  apply (triple_bind Ev _ _ _ (fun _ _ => True)).
  - destruct (negb _); [apply triple_modify | apply triple_ret]; auto.
  - intros u. destruct (py_in _ _); [apply triple_modify | apply triple_ret]; auto.
Qed.

Lemma check_unattached_volumes_events :
  exists rest,
    events (check_unattached_volumes self compartment_id tt) =
    Logged INFO ("Checking block volumes in compartment: " ++ compartment_id)
    :: Called (ListVolumes compartment_id) :: rest /\ Forall Ev rest.
Proof.
  rewrite check_unattached_volumes_shell. apply shell_events.
  intros volumes Hl. apply triple_secondary_in_scope.
  intros volume Hin Hg. split; [|reflexivity].
  split; [reflexivity|]. now exists volumes, volume.
Qed.

Lemma check_unused_public_ips_events :
  exists rest,
    events (check_unused_public_ips self compartment_id tt) =
    Logged INFO ("Checking public IPs in compartment: " ++ compartment_id)
    :: Called (ListPublicIps compartment_id) :: rest /\ Forall Ev rest.
Proof.
  rewrite check_unused_public_ips_shell. apply shell_events.
  intros ips _. apply triple_for_each. intros ip _.
  destruct (_ && _ && _); [apply triple_modify | apply triple_ret]; auto.
Qed.

Lemma check_empty_load_balancers_events :
  exists rest,
    events (check_empty_load_balancers self compartment_id tt) =
    Logged INFO ("Checking load balancers in compartment: " ++ compartment_id)
    :: Called (ListLoadBalancers compartment_id) :: rest /\ Forall Ev rest.
Proof.
  rewrite check_empty_load_balancers_shell. apply shell_events.
  intros lbs Hl. apply triple_secondary_in_scope.
  intros lb Hin Hg. split; [|reflexivity]. now exists lbs, lb.
Qed.

Lemma check_permissive_security_lists_events :
  exists rest,
    events (check_permissive_security_lists self compartment_id tt) =
    Logged INFO ("Checking security lists in compartment: " ++ compartment_id)
    :: Called (ListVcns compartment_id) :: rest /\ Forall Ev rest.
Proof.
  rewrite check_permissive_security_lists_shell. apply shell_events.
  intros vcns Hl. apply triple_for_each. intros vcn Hin. unfold vcn_body.
  destruct (Vcn.lifecycle_state vcn =? "AVAILABLE") eqn:Ea; [|now apply triple_ret].
  apply String.eqb_eq in Ea.
  apply (triple_bind Ev _ _ _ (fun _ _ => True)).
  - apply triple_api; [|auto|auto].
    split; [|reflexivity]. split; [reflexivity|]. now exists vcns, vcn.
  - intros sls. apply triple_for_each. intros sl _.
    destruct (_ && _); [|now apply triple_ret]. cbv zeta.
    destruct (list_truthy _); [apply triple_modify | apply triple_ret]; auto.
Qed.

Lemma autonomous_dbs_loop_events (autonomous_dbs : list AutonomousDatabase.t)
    (results : list Finding) :
  Forall Ev (events (for_each autonomous_dbs (autonomous_db_body compartment_id) results)).
Proof.
  assert (H : triple (fun _ => True)
                     (for_each autonomous_dbs (autonomous_db_body compartment_id))
                     (fun _ _ => True) (fun _ _ => True) Ev).
  { apply triple_for_each. intros adb _. unfold autonomous_db_body.
    destruct (is_dev_test_resource _); [|now apply triple_ret].
    apply (triple_bind Ev _ _ _ (fun _ _ => True)).
    - unfold py_ge_int. destruct (AutonomousDatabase.cpu_core_count adb);
        [apply triple_raise | apply triple_ret | apply triple_raise]; auto.
    - intros b. destruct (_ && _); [apply triple_modify | apply triple_ret]; auto. }
  exact (proj1 (H results I)).
Qed.

Lemma check_database_instances_events :
  exists rest,
    events (check_database_instances self compartment_id tt) =
    Logged INFO ("Checking database instances in compartment: " ++ compartment_id)
    :: Called (ListDbSystems compartment_id)
    :: app match list_db_systems (cloud self) compartment_id with
           | inr _ => [Called (ListAutonomousDatabases compartment_id)]
           | inl _ => []
           end rest
    /\ Forall Ev rest.
Proof.
  destruct (list_db_systems (cloud self) compartment_id) as [msg|dbs] eqn:Hdb.
  - rewrite (check_database_instances_listing_fails self compartment_id msg tt Hdb).
    eexists. split; [reflexivity|]. repeat constructor; apply loop_event_logged.
  - destruct (list_autonomous_databases (cloud self) compartment_id) as [msg|adbs] eqn:Hadb.
    + rewrite (check_database_instances_second_listing_fails self compartment_id msg dbs tt
                 Hdb Hadb).
      eexists. split; [reflexivity|]. repeat constructor; apply loop_event_logged.
    + rewrite check_database_instances_unfold, frame_run. unfold bind, try_except.
      rewrite (database_body_run self compartment_id dbs adbs Hdb Hadb).
      pose proof (autonomous_dbs_loop_events adbs
                    (map (db_system_row compartment_id) (filter flags_db_system dbs)))
        as Hev.
      unfold prepend, database_calls, logger_warning, emit, get_locals.
      destruct (for_each adbs (autonomous_db_body compartment_id) _)
        as [[[[msg|code]|[]] l1] ev1]; cbn in Hev |- *;
        (eexists; split; [reflexivity|]); rewrite ?app_nil_r; try assumption.
      apply Forall_app. split; [assumption|].
      repeat constructor; apply loop_event_logged.
Qed.

End InScope.

Lemma loop_events_in_scope (self : Chef) (compartment_id : string) (ev : list Event) :
  Forall (loop_event self compartment_id) ev -> Forall (in_scope self compartment_id) ev.
Proof. apply Forall_impl. now intros e [H _]. Qed.

Lemma listings_app (a b : list Event) : listings (app a b) = app (listings a) (listings b).
Proof. unfold listings. apply flat_map_app. Qed.

Lemma loop_events_listings (self : Chef) (compartment_id : string) (ev : list Event) :
  Forall (loop_event self compartment_id) ev -> listings ev = [].
Proof.
  induction 1 as [|e ev [_ He] Hev IH]; [reflexivity|].
  change (e :: ev) with (app [e] ev). rewrite listings_app. now rewrite He, IH.
Qed.

Lemma listings_shell (level : Level) (msg : string) (c : ApiCall) (ev : list Event) :
  listings (Logged level msg :: Called c :: ev) =
  app (if is_listing c then [c] else []) (listings ev).
Proof. reflexivity. Qed.

Lemma scope_events_in_scope (self : Chef) (compartment_id : string) :
  Forall (in_scope self compartment_id) (scope_events self compartment_id).
Proof.
  destruct (check_database_instances_events self compartment_id) as [r1 [E1 H1]].
  destruct (check_compute_instances_events self compartment_id) as [r2 [E2 H2]].
  destruct (check_unattached_volumes_events self compartment_id) as [r3 [E3 H3]].
  destruct (check_unused_public_ips_events self compartment_id) as [r4 [E4 H4]].
  destruct (check_empty_load_balancers_events self compartment_id) as [r5 [E5 H5]].
  destruct (check_permissive_security_lists_events self compartment_id) as [r6 [E6 H6]].
  unfold scope_events. rewrite E1, E2, E3, E4, E5, E6.
  apply loop_events_in_scope in H1, H2, H3, H4, H5, H6.
  repeat (apply Forall_app; split);
    repeat (first [assumption | constructor; [exact I || reflexivity|]]).
  destruct (list_db_systems (cloud self) compartment_id); cbn [app];
    repeat (first [assumption | constructor; [exact I || reflexivity|]]).
Qed.

Lemma scope_events_listings (self : Chef) (compartment_id : string) :
  listings (scope_events self compartment_id) = scope_listings self compartment_id.
Proof.
  destruct (check_database_instances_events self compartment_id) as [r1 [E1 H1]].
  destruct (check_compute_instances_events self compartment_id) as [r2 [E2 H2]].
  destruct (check_unattached_volumes_events self compartment_id) as [r3 [E3 H3]].
  destruct (check_unused_public_ips_events self compartment_id) as [r4 [E4 H4]].
  destruct (check_empty_load_balancers_events self compartment_id) as [r5 [E5 H5]].
  destruct (check_permissive_security_lists_events self compartment_id) as [r6 [E6 H6]].
  unfold scope_events, scope_listings. rewrite E1, E2, E3, E4, E5, E6.
  apply loop_events_listings in H1, H2, H3, H4, H5, H6.
  rewrite !listings_app, !listings_shell. cbn [is_listing].
  destruct (list_db_systems (cloud self) compartment_id);
    rewrite ?listings_app, ?H1, ?H2, ?H3, ?H4, ?H5, ?H6; reflexivity.
Qed.

Lemma not_called_logged (level : Level) (lines : list string) (c : ApiCall) :
  ~ In (Called c) (map (Logged level) lines).
Proof.
  intros H. apply in_map_iff in H. destruct H as [line [H _]]. discriminate H.
Qed.

Lemma not_called_file_events (files : list (string * FileContent)) (c : ApiCall) :
  ~ In (Called c) (flat_map file_events files).
Proof.
  intros H. apply in_flat_map in H. destruct H as [file [_ H]].
  destruct H as [H|[H|[]]]; discriminate H.
Qed.

Lemma not_called_after_files (self : Chef) (args : Args) (r : Results) (c : ApiCall) :
  ~ In (Called c) (after_files self args r).
Proof.
  unfold after_files, browser_events. cbv zeta.
  destruct (0 <? total_of r)%nat; [destruct (webbrowser_open (host self) _)|];
    cbn [In]; intros H; repeat (destruct H as [H|H]; [discriminate H|]); exact H.
Qed.

(** The calls of a run are those of the resolution of the scopes and of the
    scans of the active scopes. *)
Lemma run_calls (self : Chef) (args : Args) (c : ApiCall) :
  In (Called c) (events_of self args) ->
  In (Called c) (events (get_compartments self (compartment_ids args) tt)) \/
  exists comp, In comp (resolved_compartments self args) /\ active comp = true /\
               In (Called c) (scope_events self (Compartment.id comp)).
Proof.
  assert (Hscan : In (Called c) (scan_prefix self args) ->
    In (Called c) (events (get_compartments self (compartment_ids args) tt)) \/
    exists comp, In comp (resolved_compartments self args) /\ active comp = true /\
                 In (Called c) (scope_events self (Compartment.id comp))).
  { unfold scan_prefix. intros H. apply in_app_or in H. destruct H as [H|[H|H]].
    - now left.
    - discriminate H.
    - right. apply in_flat_map in H. destruct H as [comp [Hcomp H]].
      exists comp. split; [assumption|]. unfold compartment_events in H.
      destruct (active comp); [|destruct H as [H|[]]; discriminate H].
      split; [reflexivity|]. destruct H as [H|H]; [discriminate H | exact H]. }
  unfold events_of. rewrite run_is_outline. unfold run_outline.
  destruct (resolved_compartments self args) as [|comp comps] eqn:Ec.
  - cbn [snd]. intros H. apply in_app_or in H. destruct H as [H|[H|[]]].
    + now left.
    + discriminate H.
  - cbv zeta.
    destruct (snd (write_all self (expected_files self args (run_results self args))));
      cbn [snd]; intros H; apply in_app_or in H; destruct H as [H|H];
      try (now apply Hscan); exfalso; apply in_app_or in H; destruct H as [H|H];
      try (now apply not_called_file_events in H).
    + destruct H as [H|[]]. discriminate H.
    + apply in_app_or in H. destruct H as [H|H].
      * now apply not_called_after_files in H.
      * now apply not_called_logged in H.
Qed.

(** A run only asks the cloud about what it was asked to look at.  Every
    call is the lookup of a requested compartment, or belongs to the scan of
    a resolved compartment whose status is ACTIVE: the listing of one kind of
    resource of that compartment, or a secondary call (attachments, details,
    security lists) about a resource that was listed in that compartment and
    passed the guard of its scanner (lines 303-312, 373-379, 413-420).  No
    other compartment and no other resource is ever queried. *)
Theorem api_calls_stay_in_scope :
  forall (self : Chef) (args : Args) (c : ApiCall),
    In (Called c) (events_of self args) ->
    (exists comp_id, c = GetCompartment comp_id /\ In comp_id (requested_ids self args))
    \/ (exists comp,
          In comp (resolved_compartments self args) /\
          Compartment.lifecycle_state comp = "ACTIVE" /\
          in_scope self (Compartment.id comp) (Called c)).
Proof.
  intros self args c Hin. apply run_calls in Hin. destruct Hin as [Hin|Hin].
  - left. now apply get_compartments_calls.
  - right. destruct Hin as [comp [Hcomp [Hactive Hin]]].
    exists comp. split; [assumption|]. split; [now apply String.eqb_eq|].
    pose proof (scope_events_in_scope self (Compartment.id comp)) as Hev.
    rewrite Forall_forall in Hev. now apply Hev.
Qed.

Lemma api_calls_stay_in_scope_witness :
  (exists comp_id,
     ListVolumeAttachments "ocid1.tenancy.1" "ocid1.volume.10" = GetCompartment comp_id /\
     In comp_id (requested_ids Disks.chef (mkArgs "." None)))
  \/ (exists comp,
        In comp (resolved_compartments Disks.chef (mkArgs "." None)) /\
        Compartment.lifecycle_state comp = "ACTIVE" /\
        in_scope Disks.chef (Compartment.id comp)
                 (Called (ListVolumeAttachments "ocid1.tenancy.1" "ocid1.volume.10"))).
Proof.
  apply (api_calls_stay_in_scope Disks.chef (mkArgs "." None)).
  vm_compute. repeat (first [left; reflexivity | right]).
Defined.

Lemma listings_none (ev : list Event) :
  (forall c, In (Called c) ev -> is_listing c = false) -> listings ev = [].
Proof.
  induction ev as [|e ev IH]; intros H; [reflexivity|].
  change (e :: ev) with (app [e] ev). rewrite listings_app, IH.
  - destruct e as [c| | | |]; try reflexivity.
    unfold listings. cbn [flat_map]. rewrite (H c); [reflexivity | now left].
  - intros c Hc. apply H. now right.
Qed.

Lemma compartment_events_listings (self : Chef) (compartments : list Compartment.t) :
  listings (flat_map (compartment_events self) compartments) =
  flat_map (fun comp => scope_listings self (Compartment.id comp))
           (filter active compartments).
Proof.
  induction compartments as [|comp comps IH]; [reflexivity|].
  cbn [flat_map filter]. rewrite listings_app, IH. unfold compartment_events.
  destruct (active comp); [|reflexivity].
  cbn [flat_map]. f_equal.
  change (Logged INFO ("Processing compartment: " ++ Compartment.name comp)
          :: scope_events self (Compartment.id comp))
    with (app [Logged INFO ("Processing compartment: " ++ Compartment.name comp)]
              (scope_events self (Compartment.id comp))).
  rewrite listings_app. apply scope_events_listings.
Qed.

(** Every kind of resource is listed with one call per scan of a scope
    (lines 208, 228, 260, 303, 339, 373 and 413): the listing calls of a run
    are, for each active scope in turn, the DB systems, the autonomous
    databases (only when the DB systems could be listed), the instances, the
    volumes, the public IPs, the load balancers and the networks.  A listing
    is never repeated or continued, whatever it answers, so a scanner
    examines what this single call answers and nothing more. *)
Theorem each_kind_is_listed_once :
  forall (self : Chef) (args : Args),
    listings (events_of self args) =
    flat_map (fun comp => scope_listings self (Compartment.id comp))
             (filter active (resolved_compartments self args))
    /\ (forall compartment_id,
          listings (scope_events self compartment_id) =
          scope_listings self compartment_id)
    /\ (forall compartment_id,
          List.length (scope_listings self compartment_id) = 6 \/
          List.length (scope_listings self compartment_id) = 7).
Proof.
  intros self args. split; [|split].
  - assert (Hgc : listings (events (get_compartments self (compartment_ids args) tt)) = []).
    { apply listings_none. intros c Hc. apply get_compartments_calls in Hc.
      now destruct Hc as [comp_id [-> _]]. }
    assert (Hscan : listings (scan_prefix self args) =
                    flat_map (fun comp => scope_listings self (Compartment.id comp))
                             (filter active (resolved_compartments self args))).
    { unfold scan_prefix. rewrite listings_app, Hgc. cbn [app].
      change (?x :: flat_map (compartment_events self) ?l)
        with (app [x] (flat_map (compartment_events self) l)).
      rewrite listings_app. apply compartment_events_listings. }
    unfold events_of. rewrite run_is_outline. unfold run_outline.
    destruct (resolved_compartments self args) as [|comp comps] eqn:Ec.
    + cbn [snd filter flat_map]. rewrite listings_app, Hgc. reflexivity.
    + cbv zeta.
      destruct (snd (write_all self (expected_files self args (run_results self args))));
        cbn [snd]; rewrite listings_app, Hscan; rewrite <- app_nil_r; f_equal;
        apply listings_none; intros c Hc; exfalso;
        apply in_app_or in Hc; destruct Hc as [Hc|Hc];
        try (now apply not_called_file_events in Hc).
      * destruct Hc as [Hc|[]]. discriminate Hc.
      * apply in_app_or in Hc. destruct Hc as [Hc|Hc].
        -- now apply not_called_after_files in Hc.
        -- now apply not_called_logged in Hc.
  - apply scope_events_listings.
  - intros compartment_id. unfold scope_listings.
    destruct (list_db_systems (cloud self) compartment_id); cbn; auto.
Qed.

(** ** The ids of the command line *)

Lemma str_split_nonempty (sep : ascii) (s : string) : str_split sep s <> [].
Proof.
  destruct s as [|c s]; cbn [str_split]; [discriminate|].
  destruct (Ascii.eqb c sep); [discriminate|].
  destruct (str_split sep s); discriminate.
Qed.

Lemma str_split_length (sep : ascii) (s : string) :
  List.length (str_split sep s) = S (occurrences sep s).
Proof.
  induction s as [|c s IH]; [reflexivity|]. cbn [str_split occurrences].
  rewrite (Ascii.eqb_sym sep c).
  destruct (Ascii.eqb c sep).
  - cbn [List.length]. now rewrite IH.
  - destruct (str_split sep s) as [|piece pieces] eqn:E.
    + now elim (str_split_nonempty sep s).
    + cbn [List.length] in *. exact IH.
Qed.

Lemma str_split_pieces (sep : ascii) (s : string) :
  Forall (fun piece => has_char sep piece = false) (str_split sep s).
Proof.
  induction s as [|c s IH]; [repeat constructor|]. cbn [str_split].
  destruct (Ascii.eqb c sep) eqn:Ec.
  - constructor; [reflexivity | assumption].
  - destruct (str_split sep s) as [|piece pieces].
    + constructor; [|constructor]. cbn [has_char].
      now rewrite (Ascii.eqb_sym sep c), Ec.
    + inversion IH as [|? ? Hp Hps]; subst. constructor; [|assumption].
      cbn [has_char]. now rewrite (Ascii.eqb_sym sep c), Ec.
Qed.

(** Joining the pieces with the separator gives the string back. *)
Lemma join_str_split (sep : ascii) (s : string) :
  join (String sep "") (str_split sep s) = s.
Proof.
  unfold join. induction s as [|c s IH]; [reflexivity|]. cbn [str_split].
  destruct (str_split sep s) as [|piece pieces] eqn:E;
    [now elim (str_split_nonempty sep s)|].
  destruct (Ascii.eqb c sep) eqn:Ec.
  - apply Ascii.eqb_eq in Ec. subst c.
    change (concat (String sep "") ("" :: piece :: pieces))
      with (String sep (concat (String sep "") (piece :: pieces))).
    now rewrite IH.
  - destruct pieces as [|piece' pieces].
    + cbn [concat] in *. now rewrite IH.
    + change (concat (String sep "") (String c piece :: piece' :: pieces))
        with (String c (concat (String sep "") (piece :: piece' :: pieces))).
      now rewrite IH.
Qed.

Lemma str_split_clean (sep : ascii) (s : string) :
  has_char sep s = false -> str_split sep s = [s].
Proof.
  induction s as [|c s IH]; [reflexivity|]. cbn [has_char str_split].
  rewrite (Ascii.eqb_sym sep c). destruct (Ascii.eqb c sep); [discriminate|].
  cbn [orb]. intros H. now rewrite (IH H).
Qed.

Lemma str_split_app (sep : ascii) (a b : string) :
  has_char sep a = false ->
  str_split sep (a ++ String sep b) = a :: str_split sep b.
Proof.
  induction a as [|c a IH]; cbn [has_char String.append str_split].
  - intros _. now rewrite Ascii.eqb_refl.
  - rewrite (Ascii.eqb_sym sep c). destruct (Ascii.eqb c sep); [discriminate|].
    cbn [orb]. intros H. now rewrite (IH H).
Qed.

(** Cutting the joined ids gives the ids back, when no id holds the
    separator. *)
Lemma str_split_join (sep : ascii) (ids : list string) :
  ids <> [] ->
  Forall (fun id => has_char sep id = false) ids ->
  str_split sep (join (String sep "") ids) = ids.
Proof.
  unfold join. induction ids as [|id ids IH]; intros Hne Hall; [now elim Hne|].
  inversion Hall as [|? ? Hid Hids]; subst.
  destruct ids as [|id' ids].
  - cbn [concat]. now apply str_split_clean.
  - change (str_split sep (id ++ String sep (concat (String sep "") (id' :: ids))) =
            id :: id' :: ids).
    rewrite (str_split_app sep id _ Hid). f_equal.
    apply IH; [discriminate | assumption].
Qed.

Lemma list_ascii_of_string_app (a b : string) :
  list_ascii_of_string (a ++ b) = app (list_ascii_of_string a) (list_ascii_of_string b).
Proof. induction a as [|c a IH]; simpl; [reflexivity | now rewrite IH]. Qed.

Lemma string_of_list_ascii_app (a b : list ascii) :
  string_of_list_ascii (app a b) = string_of_list_ascii a ++ string_of_list_ascii b.
Proof. induction a as [|c a IH]; simpl; [reflexivity | now rewrite IH]. Qed.

Lemma reversed_involutive (s : string) : reversed (reversed s) = s.
Proof.
  unfold reversed. rewrite list_ascii_of_string_of_list_ascii, rev_involutive.
  apply string_of_list_ascii_of_string.
Qed.

Lemma reversed_app (a b : string) : reversed (a ++ b) = reversed b ++ reversed a.
Proof.
  unfold reversed. now rewrite list_ascii_of_string_app, rev_app_distr,
    string_of_list_ascii_app.
Qed.

Lemma append_nil_r (s : string) : s ++ "" = s.
Proof. induction s as [|c s IH]; simpl; [reflexivity | now rewrite IH]. Qed.

Lemma append_assoc (a b c : string) : (a ++ b) ++ c = a ++ (b ++ c).
Proof. induction a as [|x a IH]; simpl; [reflexivity | now rewrite IH]. Qed.

Lemma blank_app (a b : string) : blank a -> blank b -> blank (a ++ b).
Proof.
  induction 1; intros Hb; simpl; [assumption| | |].
  - apply blank_one; auto.
  - apply blank_two; auto.
  - apply blank_three; auto.
Qed.

(** A string without white space in front is left alone. *)
Lemma strip_front_fixed (backwards : bool) (s : string) :
  front_space backwards s = false -> strip_front backwards s = s.
Proof.
  destruct s as [|c [|d [|e s]]]; cbn [front_space strip_front]; intros H;
    try reflexivity.
  - rewrite orb_false_r in H. now rewrite H.
  - apply orb_false_elim in H. destruct H as [H1 H2].
    rewrite orb_false_r in H2. now rewrite H1, H2.
  - apply orb_false_elim in H. destruct H as [H1 H2].
    apply orb_false_elim in H2. destruct H2 as [H2 H3].
    now rewrite H1, H2, H3.
Qed.

(** What [strip_front] removes is white space: the string is a string of
    white space followed by the result, and the result does not start with
    white space. *)
Lemma strip_front_spec (backwards : bool) (n : nat) :
  forall s, String.length s <= n ->
    front_space backwards (strip_front backwards s) = false /\
    exists p, s = p ++ strip_front backwards s /\
              blank (if backwards then reversed p else p).
Proof.
  induction n as [|n IH]; intros s Hlen.
  - destruct s; [|simpl in Hlen; lia]. split; [reflexivity|].
    exists "". split; [reflexivity|]. destruct backwards; constructor.
  - destruct s as [|c s1]; [split; [reflexivity|]; exists "";
                             split; [reflexivity|]; destruct backwards; constructor|].
    cbn [String.length] in Hlen. cbn [strip_front].
    destruct (space1 c) eqn:E1.
    { destruct (IH s1 ltac:(lia)) as [Hf [p [Hp Hb]]]. split; [assumption|].
      exists (String c p). split; [simpl; now rewrite <- Hp|].
      destruct backwards.
      - change (String c p) with (String c "" ++ p). rewrite reversed_app.
        apply blank_app; [assumption|]. apply blank_one; [assumption | constructor].
      - now apply blank_one. }
    destruct s1 as [|d s2].
    { split; [cbn [front_space]; now rewrite E1|]. exists "".
      split; [reflexivity|]. destruct backwards; constructor. }
    cbn [String.length] in Hlen.
    destruct (if backwards then space2 d c else space2 c d) eqn:E2.
    { destruct (IH s2 ltac:(lia)) as [Hf [p [Hp Hb]]]. split; [assumption|].
      exists (String c (String d p)). split; [simpl; now rewrite <- Hp|].
      destruct backwards.
      - change (String c (String d p)) with (String c (String d "") ++ p).
        rewrite reversed_app. apply blank_app; [assumption|].
        apply blank_two; [assumption | constructor].
      - now apply blank_two. }
    destruct s2 as [|e s3].
    { split; [cbn [front_space]; now rewrite E1, E2|]. exists "".
      split; [reflexivity|]. destruct backwards; constructor. }
    cbn [String.length] in Hlen.
    destruct (if backwards then space3 e d c else space3 c d e) eqn:E3.
    { destruct (IH s3 ltac:(lia)) as [Hf [p [Hp Hb]]]. split; [assumption|].
      exists (String c (String d (String e p))).
      split; [simpl; now rewrite <- Hp|].
      destruct backwards.
      - change (String c (String d (String e p)))
          with (String c (String d (String e "")) ++ p).
        rewrite reversed_app. apply blank_app; [assumption|].
        apply blank_three; [assumption | constructor].
      - now apply blank_three. }
    split; [cbn [front_space]; now rewrite E1, E2, E3|]. exists "".
    split; [reflexivity|]. destruct backwards; constructor.
Qed.

(** White space in front of a string stays in front when the string is
    extended. *)
Lemma front_space_app (a r : string) :
  front_space false a = true -> front_space false (a ++ r) = true.
Proof.
  destruct a as [|c [|d [|e a]]]; cbn [front_space String.append]; intros H.
  - discriminate H.
  - rewrite orb_false_r in H. now rewrite H.
  - apply orb_true_iff in H. destruct H as [H|H]; [now rewrite H|].
    rewrite orb_false_r in H. rewrite H. cbn [orb]. apply orb_true_r.
  - exact H.
Qed.

(** [strip] removes white space at both ends and nothing else. *)
Lemma strip_spec (s : string) :
  padded s (strip s) /\
  starts_with_space (strip s) = false /\ ends_with_space (strip s) = false.
Proof.
  unfold strip, lstrip, rstrip, starts_with_space, ends_with_space.
  destruct (strip_front_spec false (String.length s) s (le_n _)) as [Hf [l [Hl Bl]]].
  set (x := strip_front false s) in *.
  destruct (strip_front_spec true (String.length (reversed x)) (reversed x) (le_n _))
    as [Hb [p [Hp Bp]]].
  set (y := strip_front true (reversed x)) in *.
  assert (Hx : x = reversed y ++ reversed p).
  { rewrite <- reversed_app, <- Hp. now rewrite reversed_involutive. }
  split; [|split].
  - exists l, (reversed p). split; [assumption|]. split; [assumption|].
    now rewrite <- Hx.
  - destruct (front_space false (reversed y)) eqn:E; [|reflexivity].
    apply (front_space_app _ (reversed p)) in E. rewrite <- Hx in E.
    rewrite Hf in E. discriminate E.
  - now rewrite reversed_involutive.
Qed.

Lemma strip_clean (id : string) :
  starts_with_space id = false -> ends_with_space id = false -> strip id = id.
Proof.
  unfold strip, lstrip, rstrip, starts_with_space, ends_with_space. intros Hs He.
  rewrite (strip_front_fixed false id Hs), (strip_front_fixed true _ He).
  apply reversed_involutive.
Qed.

Lemma padded_has_char (c : ascii) (piece id : string) :
  padded piece id -> has_char c piece = false -> has_char c id = false.
Proof.
  intros [l [r [_ [_ ->]]]]. rewrite !has_char_app.
  intros H. apply orb_false_elim in H. destruct H as [_ H].
  apply orb_false_elim in H. now destruct H.
Qed.

(** The ids a non-empty [--compartments] gives. *)
Lemma parse_compartments_given (s : string) :
  s <> "" -> parse_compartments (Some s) = Some (map strip (str_split ","%char s)).
Proof. destruct s; [intros H; now elim H | reflexivity]. Qed.

(** The ids of the command line (lines 809-812).  Without the option, or
    with an empty one, there are no ids and the run looks at the tenancy.
    Otherwise the ids are the pieces between the commas, one more than
    there are commas and so never an empty list, each without the white
    space at its two ends: the pieces, joined by commas, are the option as
    it was given; an id holds no comma and neither starts nor ends with
    white space, and it may be empty.  Ids that hold no comma and have no
    white space at their ends are read back as they were joined. *)
Theorem parse_compartments_spec :
  (parse_compartments None = None /\ parse_compartments (Some "") = None)
  /\ (forall s, s <> "" ->
        exists pieces,
          parse_compartments (Some s) = Some (map strip pieces) /\
          join "," pieces = s /\
          List.length pieces = S (occurrences ","%char s) /\
          Forall (fun piece => padded piece (strip piece) /\ clean_id (strip piece)) pieces)
  /\ (forall ids,
        ids <> [] -> ids <> [""] -> Forall clean_id ids ->
        parse_compartments (Some (join "," ids)) = Some ids).
Proof.
  split; [split; reflexivity|]. split.
  - intros s Hs. exists (str_split ","%char s).
    split; [now apply parse_compartments_given|].
    split; [apply join_str_split|]. split; [apply str_split_length|].
    pose proof (str_split_pieces ","%char s) as Hp.
    eapply Forall_impl; [|exact Hp]. intros piece Hpiece.
    destruct (strip_spec piece) as [Hpad [Hstart Hend]].
    split; [assumption|]. split; [|split; assumption].
    now apply (padded_has_char _ piece).
  - intros ids Hne Hne' Hclean.
    assert (Hcomma : Forall (fun id => has_char ","%char id = false) ids).
    { eapply Forall_impl; [|exact Hclean]. now intros id [H _]. }
    assert (Hjoin : join "," ids <> "").
    { destruct ids as [|id [|id' ids]]; [now elim Hne| |].
      - unfold join. cbn [concat]. intros ->. now elim Hne'.
      - unfold join. cbn [concat]. destruct id; discriminate. }
    rewrite (parse_compartments_given _ Hjoin).
    rewrite (str_split_join ","%char ids Hne Hcomma). f_equal.
    rewrite <- (map_id ids) at 2. apply map_ext_in. intros id Hid.
    rewrite Forall_forall in Hclean. destruct (Hclean id Hid) as [_ [Hs He]].
    now apply strip_clean.
Qed.

(** Two ids with blanks around the comma, and two ids joined and read
    back. *)
Lemma parse_compartments_spec_witness :
  (exists pieces,
     parse_compartments (Some "ocid1.compartment.a , ocid1.compartment.b") =
     Some (map strip pieces) /\
     join "," pieces = "ocid1.compartment.a , ocid1.compartment.b" /\
     List.length pieces = 2 /\
     Forall (fun piece => padded piece (strip piece) /\ clean_id (strip piece)) pieces)
  /\ parse_compartments (Some (join "," ["ocid1.compartment.a"; "ocid1.compartment.b"])) =
     Some ["ocid1.compartment.a"; "ocid1.compartment.b"].
Proof.
  destruct parse_compartments_spec as [_ [Hcut Hback]]. split.
  - apply (Hcut "ocid1.compartment.a , ocid1.compartment.b"). discriminate.
  - apply Hback; [discriminate | discriminate|].
    repeat constructor.
Defined.

(** The scan of a scope never looks a compartment up. *)
Lemma scope_events_no_lookup (self : Chef) (compartment_id comp_id : string) :
  ~ In (Called (GetCompartment comp_id)) (scope_events self compartment_id).
Proof.
  intros Hin. pose proof (scope_events_in_scope self compartment_id) as H.
  rewrite Forall_forall in H. exact (H _ Hin).
Qed.

(** With a non-empty [--compartments] the scopes of the run are the
    compartments the ids of the option name, and no other ([main], lines
    809-822): the run looks up these ids and never the tenancy, unless the
    tenancy is one of them, even when an id is empty or no id can be
    read.  When no id can be read the run exits with status 1 and writes
    nothing; it does not fall back on the root compartment. *)
Theorem given_ids_are_the_only_scopes :
  forall (self : Chef) (out s : string),
    s <> "" ->
    let ids := map strip (str_split ","%char s) in
    let args := mkArgs out (parse_compartments (Some s)) in
    resolved_compartments self args = flat_map (lookup_compartment self) ids
    /\ (forall comp_id,
          In (Called (GetCompartment comp_id)) (events_of self args) -> In comp_id ids)
    /\ (Forall (unreadable self) ids ->
        exit_status self args = 1%Z /\
        all_results_of self args = empty_results /\
        written (events_of self args) = [] /\
        forall c, In (Called c) (events_of self args) ->
                  exists comp_id, c = GetCompartment comp_id /\ In comp_id ids).
Proof.
  intros self out s Hs ids args.
  assert (Hids : requested_ids self args = ids).
  { unfold requested_ids, args. cbn [compartment_ids].
    rewrite (parse_compartments_given s Hs). fold ids.
    destruct ids as [|id ids'] eqn:E; [|reflexivity].
    apply map_eq_nil in E. now elim (str_split_nonempty ","%char s). }
  assert (Hres : resolved_compartments self args = flat_map (lookup_compartment self) ids).
  { now rewrite resolved_compartments_requested, Hids. }
  split; [exact Hres|]. split.
  - intros comp_id Hin. apply run_calls in Hin. destruct Hin as [Hin|[comp [_ [_ Hin]]]].
    + apply get_compartments_calls in Hin. destruct Hin as [id [Heq Hid]].
      inversion Heq; subst. now rewrite <- Hids.
    + now apply scope_events_no_lookup in Hin.
  - intros Hun. apply no_compartment_iff in Hun. rewrite <- Hres in Hun.
    assert (Hrun : run self args =
                   (1%Z, empty_results,
                    app (events (get_compartments self (compartment_ids args) tt))
                        [Logged ERROR "No accessible compartments found"])).
    { rewrite run_is_outline. unfold run_outline. now rewrite Hun. }
    unfold exit_status, all_results_of, events_of. rewrite Hrun. cbn [fst snd].
    split; [reflexivity|]. split; [reflexivity|]. split.
    + rewrite written_app. rewrite written_scan; [reflexivity|].
      now destruct (@get_compartments_run unit self args tt) as [_ H].
    + intros c Hin. apply in_app_or in Hin. destruct Hin as [Hin|[Hin|[]]].
      * rewrite <- Hids. now apply get_compartments_calls.
      * discriminate Hin.
Qed.

(** A run given a lone comma asks for the empty id twice.  In the account
    of [OneFinding] every lookup answers, and the empty id is looked up as
    it is; in the account of [OpenSsh] no lookup answers, and the run exits
    with status 1. *)
Lemma given_ids_are_the_only_scopes_witness :
  resolved_compartments OneFinding.chef (mkArgs "." (parse_compartments (Some ","))) =
  flat_map (lookup_compartment OneFinding.chef) [""; ""]
  /\ exit_status OpenSsh.chef (mkArgs "." (parse_compartments (Some ","))) = 1%Z.
Proof.
  split.
  - apply (given_ids_are_the_only_scopes OneFinding.chef "." ","). discriminate.
  - assert (Hs : "," <> "") by discriminate.
    destruct (given_ids_are_the_only_scopes OpenSsh.chef "." "," Hs) as [_ [_ H]].
    apply H. repeat constructor; exists "not found"; reflexivity.
Defined.
